(** * Care-path booking core: slot derivation, schedule persistence,
      conflict-guarded booking creation and the book-and-pay flow.

    A shallow embedding of the TypeScript sources
      - pages/BookAppointment.tsx   (loadAvailability, handleBooking),
      - the doctor dashboard        (toMinutes, toHHMM, saveSchedule,
                                     approveBooking, rejectBooking),
      - pages/BookingHistory.tsx    (cancelBooking and its render guard),
      - backend/functions.ts        (invokeWithFallback),
      - the bookings repository     (BookingsRepo.hasConflict).

    The data store is a record of three tables, each a list of rows in the
    order the store returns them; a query is a filter over the table and the
    store executes every statement it is sent.  The two remote functions
    (create-booking, create-payfast-payment) are reached over two channels
    whose replies are inputs of the flow.  [DirectSteps] takes the final
    fallback of the flow one awaited statement at a time, with what other
    sessions write in between and with statements the store leaves
    unanswered or refuses. *)

From Stdlib Require Import ZArith List String Ascii Bool Lia.
From Stdlib Require Import DecimalString Sorted Permutation.
From Equations Require Import Equations.
Import ListNotations.

Local Open Scope string_scope.
Local Open Scope Z_scope.

(** ** Clock texts *)

Module Clock.

(** A JavaScript number as far as this code needs it: an integer, or NaN. *)
Definition number := option Z.

Definition digit_of (c : ascii) : option Z :=
  let n := Z.of_N (N_of_ascii c) in
  if (48 <=? n) && (n <=? 57) then Some (n - 48) else None.

Fixpoint Number_from (acc : Z) (s : string) : number :=
  match s with
  | EmptyString => Some acc
  | String c r =>
      match digit_of c with
      | Some d => Number_from (10 * acc + d) r
      | None => None
      end
  end.

(** [Number(s)] on a text of decimal digits; the empty text is 0 and a text
    with any other character stands for NaN.  JavaScript reads more than
    this: blanks around the digits, a sign, a fraction, an exponent, a hex
    prefix.  The two agree on texts of decimal digits, which is what clock
    texts are made of between their colons. *)
Definition Number (s : string) : number := Number_from 0 s.

(** [t.split(':')] *)
Fixpoint split_colon (t : string) : list string :=
  match t with
  | EmptyString => [EmptyString]
  | String c r =>
      if Ascii.eqb c ":" then EmptyString :: split_colon r
      else match split_colon r with
           | f :: fs => String c f :: fs
           | [] => [String c EmptyString]
           end
  end.

(** [const [h, m] = t.split(':').map(Number); return h * 60 + m;]
    A missing second field is [undefined], which makes the sum NaN. *)
Definition toMinutes (t : string) : number :=
  match map Number (split_colon t) with
  | Some h :: Some m :: _ => Some (h * 60 + m)
  | _ => None
  end.

(** [n.toString()] for a non-negative integer *)
Definition toString (n : Z) : string :=
  NilEmpty.string_of_uint (N.to_uint (Z.to_N n)).

Fixpoint zeros (k : nat) : string :=
  match k with
  | O => EmptyString
  | S k' => String "0" (zeros k')
  end.

(** [s.padStart(2, '0')] *)
Definition padStart2 (s : string) : string :=
  (zeros (2 - String.length s) ++ s)%string.

(** [toHHMM(mins)], for minutes that are not negative (on negative minutes
    JavaScript's [%] and [toString] give a sign that this does not). *)
Definition toHHMM (mins : Z) : string :=
  let h := padStart2 (toString (mins / 60)) in
  let m := padStart2 (toString (mins mod 60)) in
  (h ++ ":" ++ m)%string.

(** [for (let m = from; m < upto; m += 30) ...]: the values [m] takes. *)
Equations? steps30 (m upto : Z) : list Z by wf (Z.to_nat (upto - m)) lt :=
  steps30 m upto with Z_lt_dec m upto => {
    | left _ => m :: steps30 (m + 30) upto;
    | right _ => [] }.
Proof. lia. Qed.

(** The loop header with both bounds read from texts: no iteration when
    either bound is NaN (a comparison with NaN is false). *)
Definition half_hours (start end_ : string) : list Z :=
  match toMinutes start, toMinutes end_ with
  | Some s, Some e => steps30 s e
  | _, _ => []
  end.

(** [a > b] on numbers: false when either side is NaN. *)
Definition num_gt (a b : number) : bool :=
  match a, b with
  | Some x, Some y => y <? x
  | _, _ => false
  end.

(** [a.localeCompare(b)] on clock texts: digits and colons compare by
    position, as the code-unit order does. *)
Definition localeCompare (a b : string) : comparison := String.compare a b.

(** Two-digit hours: the minutes below 100:00. *)
Definition hour_range (m : Z) : Prop := 0 <= m < 6000.

(** A number below 100 as [toHHMM] writes it. *)
Definition pad (n : Z) : string := padStart2 (toString n).

(** The integers [0 .. n-1], for checks by enumeration. *)
Definition below (n : Z) : list Z := map Z.of_nat (seq 0 (Z.to_nat n)).

(** Boolean equality, for checks by enumeration. *)
Definition comparison_eqb (a b : comparison) : bool :=
  match a, b with
  | Eq, Eq | Lt, Lt | Gt, Gt => true
  | _, _ => false
  end.

Definition number_eqb (a b : number) : bool :=
  match a, b with
  | Some x, Some y => x =? y
  | None, None => true
  | _, _ => false
  end.

End Clock.

(** ** Data model *)

Inductive booking_status := pending | confirmed | cancelled | completed.
Inductive pay_status := payment_pending | paid | failed.
Inductive membership_kind := basic | premium.

Definition booking_status_eqb (a b : booking_status) : bool :=
  match a, b with
  | pending, pending | confirmed, confirmed
  | cancelled, cancelled | completed, completed => true
  | _, _ => false
  end.

Definition membership_kind_eqb (a b : membership_kind) : bool :=
  match a, b with
  | basic, basic | premium, premium => true
  | _, _ => false
  end.

(** A row of [bookings]. *)
Record Booking := mkBooking {
  id : string;
  user_id : string;
  doctor_id : string;
  appointment_date : string;
  appointment_time : string;
  status : booking_status;
  payment_status : pay_status;
  consultation_fee : Z;
  booking_fee : Z;
  total_amount : Z;
  patient_notes : string;
  updated_at : string
}.

(** A row of [memberships]; the credit counter is nullable. *)
Record Membership := mkMembership {
  m_user_id : string;
  membership_type : membership_kind;
  free_bookings_remaining : option Z;
  m_updated_at : string
}.

(** A row of [doctor_schedules]. *)
Record ScheduleWindow := mkWindow {
  s_doctor_id : string;
  day_of_week : Z;
  start_time : string;
  end_time : string;
  is_available : bool
}.

(** The store: each table in the order the store returns its rows. *)
Record Store := mkStore {
  bookings : list Booking;
  memberships : list Membership;
  doctor_schedules : list ScheduleWindow
}.

(** [interface TimeSlot { time: string; available: boolean }] *)
Record TimeSlot := mkSlot { time : string; available : bool }.

(** ** Slot derivation (BookAppointment.tsx, loadAvailability) *)

Module Slots.
Import Clock.

(** [new Set(xs)] with [has]: membership by string equality. *)
Definition has (xs : list string) (t : string) : bool :=
  existsb (String.eqb t) xs.

(** [arr.sort(cmp)]: a stable sort, written as insertion from the right. *)
Section Sort.
Context {A : Type} (cmp : A -> A -> comparison).

Fixpoint insert (x : A) (l : list A) : list A :=
  match l with
  | [] => [x]
  | y :: r =>
      match cmp x y with
      | Gt => y :: insert x r
      | _ => x :: l
      end
  end.

Fixpoint sort (l : list A) : list A :=
  match l with
  | [] => []
  | x :: r => insert x (sort r)
  end.
End Sort.

(** [Map<string, V>]: entries in key-insertion order; [set] on a present key
    replaces the value in place. *)
Section JsMap.
Context {V : Type}.

Fixpoint map_set (k : string) (v : V) (m : list (string * V)) : list (string * V) :=
  match m with
  | [] => [(k, v)]
  | (k', v') :: r =>
      if String.eqb k' k then (k', v) :: r else (k', v') :: map_set k v r
  end.

Definition map_values (m : list (string * V)) : list V := map snd m.
End JsMap.

Section Derivation.
(** [new Date(selectedDate).getDay()] *)
Variable getDay : string -> Z.

(** The [doctor_schedules] query of the derivation. *)
Definition schedules_for (db : Store) (doctorId : string) (dayOfWeek : Z)
  : list ScheduleWindow :=
  filter (fun s => String.eqb (s_doctor_id s) doctorId
                   && (day_of_week s =? dayOfWeek)
                   && Bool.eqb (is_available s) true)
         (doctor_schedules db).

(** The [bookings] query of the derivation: [.neq('status','cancelled')]. *)
Definition active_bookings_on (db : Store) (doctorId date : string)
  : list Booking :=
  filter (fun b => String.eqb (doctor_id b) doctorId
                   && String.eqb (appointment_date b) date
                   && negb (booking_status_eqb (status b) cancelled))
         (bookings db).

Definition takenTimes (db : Store) (doctorId date : string) : list string :=
  map appointment_time (active_bookings_on db doctorId date).

(** The [slots] array after the [forEach] over the schedule rows. *)
Definition raw_slots (db : Store) (doctorId date : string) : list TimeSlot :=
  let taken := takenTimes db doctorId date in
  flat_map (fun s =>
              map (fun m => let t := toHHMM m in
                            mkSlot t (negb (has taken t)))
                  (half_hours (start_time s) (end_time s)))
           (schedules_for db doctorId (getDay date)).

Definition by_time (a b : TimeSlot) : comparison :=
  localeCompare (time a) (time b).

(** [slots.sort(...).forEach(s => unique.set(s.time, s))] and
    [Array.from(unique.values())]. *)
Definition unique_slots (slots : list TimeSlot) : list TimeSlot :=
  map_values
    (fold_left (fun unique s => map_set (time s) s unique)
               (sort by_time slots) []).

(** The value handed to [setTimeSlots]; an absent doctor id or date is the
    empty text. *)
Definition loadAvailability (db : Store) (doctorId selectedDate : string)
  : list TimeSlot :=
  if String.eqb doctorId "" || String.eqb selectedDate "" then []
  else unique_slots (raw_slots db doctorId selectedDate).

(** The slot the loop body pushes for the minute [m]. *)
Definition slot_at (taken : list string) (m : Z) : TimeSlot :=
  mkSlot (toHHMM m) (negb (has taken (toHHMM m))).

(** The minutes the loops run through, window after window. *)
Definition raw_minutes (db : Store) (doctorId date : string) : list Z :=
  flat_map (fun s => half_hours (start_time s) (end_time s))
           (schedules_for db doctorId (getDay date)).
End Derivation.

(** The slot computed last for the time [t] among [slots]. *)
Definition last_with_time (t : string) (slots : list TimeSlot)
  : option TimeSlot :=
  find (fun s => String.eqb (time s) t) (rev slots).

(** Some booking of the doctor on that date, not cancelled, holds the text
    [t] as its [appointment_time]. *)
Definition taken_by (db : Store) (doctorId date t : string) : Prop :=
  exists b, In b (bookings db) /\ doctor_id b = doctorId
            /\ appointment_date b = date /\ status b <> cancelled
            /\ appointment_time b = t.

(** Minutes of one day: a window may close at 24:00 at the latest. *)
Definition day_minutes : Z := 1440.

(** The key order a [Map] keeps, on integers: a new key goes last, a key
    already present keeps its place. *)
Fixpoint add_new (m : Z) (l : list Z) : list Z :=
  match l with
  | [] => [m]
  | x :: r => if x =? m then x :: r else x :: add_new m r
  end.

Definition distinct (ms : list Z) : list Z :=
  fold_left (fun acc m => add_new m acc) ms [].

(** The entry the keyed map holds for the minute [m]. *)
Definition entry (taken : list string) (m : Z) : string * TimeSlot :=
  (toHHMM m, slot_at taken m).

End Slots.

(** [!s] is false exactly for a non-empty text. *)
Definition truthy (s : string) : bool := negb (String.eqb s "").

(** ** Schedule persistence (doctor dashboard, saveSchedule) *)

Module Schedule.
Import Clock.

(** [type DayState = { open; close; selected: Set<string> }]; the set is kept
    in insertion order, as [Array.from(set.values())] reads it. *)
Record DayState := mkDay {
  open : string;
  close : string;
  selected : list string
}.

(** [Record<number, DayState>] *)
Definition DayStates := Z -> option DayState.

(** [toHHMM] and [toMinutes] composed on a value that may be NaN. *)
Definition toHHMM_of (n : number) : string :=
  match n with
  | Some v => toHHMM v
  | None => "NaN:NaN"
  end.

Definition plus30 (n : number) : number :=
  match n with
  | Some v => Some (v + 30)
  | None => None
  end.

(** [Array.from(state.selected.values()).sort()]: the default sort orders
    texts by code units. *)
Definition sorted_selection (st : DayState) : list string :=
  Slots.sort String.compare (selected st).

(** One turn of the [for (let d = 0; d < 7; d++)] loop: the rows it pushes. *)
Definition day_rows (doctorId : string) (d : Z) (state : option DayState)
  : list ScheduleWindow :=
  match state with
  | None => []
  | Some st =>
      match sorted_selection st with
      | [] => []
      | start :: rest =>
          let endLast := last (start :: rest) start in
          let end_ := toHHMM_of (plus30 (toMinutes endLast)) in
          if num_gt (toMinutes end_) (toMinutes start)
          then [mkWindow doctorId d start end_ true]
          else []
      end
  end.

Definition weekdays : list Z := [0; 1; 2; 3; 4; 5; 6].

(** The [rows] array after the loop. *)
Definition schedule_rows (doctorId : string) (dayStates : DayStates)
  : list ScheduleWindow :=
  flat_map (fun d => day_rows doctorId d (dayStates d)) weekdays.

(** [.delete().eq('doctor_id', doctorId)] *)
Definition delete_for (doctorId : string) (tbl : list ScheduleWindow)
  : list ScheduleWindow :=
  filter (fun s => negb (String.eqb (s_doctor_id s) doctorId)) tbl.

Definition same_key (a b : ScheduleWindow) : bool :=
  String.eqb (s_doctor_id a) (s_doctor_id b) && (day_of_week a =? day_of_week b).

(** [.upsert(rows, { onConflict: 'doctor_id,day_of_week' })]: a row whose key
    is present overwrites that row, any other row is appended. *)
Fixpoint upsert_row (r : ScheduleWindow) (tbl : list ScheduleWindow)
  : list ScheduleWindow :=
  match tbl with
  | [] => [r]
  | x :: t => if same_key x r then r :: t else x :: upsert_row r t
  end.

Definition upsert (rows tbl : list ScheduleWindow) : list ScheduleWindow :=
  fold_left (fun t r => upsert_row r t) rows tbl.

Inductive SaveOutcome :=
| NoDoctorProfile      (* toast 'No doctor profile found' *)
| ScheduleLive.        (* toast 'Schedule is live' *)

(** The doctor id the save works with: the loaded profile's, else the one
    [ensureDoctorProfile] finds ([""] when there is none). *)
Definition resolve_doctor (doctorInfo_id ensured_id : string) : string :=
  if truthy doctorInfo_id then doctorInfo_id
  else if truthy ensured_id then ensured_id
  else doctorInfo_id.

Definition saveSchedule (db : Store) (doctorInfo_id ensured_id : string)
  (dayStates : DayStates) : Store * SaveOutcome :=
  let doctorId := resolve_doctor doctorInfo_id ensured_id in
  if negb (truthy doctorId) then (db, NoDoctorProfile)
  else
    let deleted := delete_for doctorId (doctor_schedules db) in
    let rows := schedule_rows doctorId dayStates in
    let written :=
      match rows with
      | [] => deleted
      | _ :: _ => upsert rows deleted
      end in
    (mkStore (bookings db) (memberships db) written, ScheduleLive).

(** What a later read with [.eq('doctor_id', doctorId)] returns. *)
Definition schedules_of (db : Store) (doctorId : string) : list ScheduleWindow :=
  filter (fun s => String.eqb (s_doctor_id s) doctorId) (doctor_schedules db).

(** The rows the loop pushes over the days [l]. *)
Definition rows_over (doc : string) (ds : DayStates) (l : list Z)
  : list ScheduleWindow :=
  flat_map (fun d => day_rows doc d (ds d)) l.

End Schedule.

(** ** Status transitions on bookings *)

Module Transitions.

Definition set_status (st : booking_status) (b : Booking) : Booking :=
  mkBooking (id b) (user_id b) (doctor_id b) (appointment_date b)
            (appointment_time b) st (payment_status b) (consultation_fee b)
            (booking_fee b) (total_amount b) (patient_notes b) (updated_at b).

Definition set_status_at (st : booking_status) (now : string) (b : Booking)
  : Booking :=
  mkBooking (id b) (user_id b) (doctor_id b) (appointment_date b)
            (appointment_time b) st (payment_status b) (consultation_fee b)
            (booking_fee b) (total_amount b) (patient_notes b) now.

(** [.update(...)] with its [.eq] filters: the rows the filter selects are
    rewritten, every other row is kept. *)
Definition update_where (sel : Booking -> bool) (f : Booking -> Booking)
  (tbl : list Booking) : list Booking :=
  map (fun b => if sel b then f b else b) tbl.

Definition with_bookings (db : Store) (tbl : list Booking) : Store :=
  mkStore tbl (memberships db) (doctor_schedules db).

(** The filter shared by the doctor's two operations:
    [.eq('id', bookingId).eq('doctor_id', doctorInfo.id).eq('status','pending')] *)
Definition own_pending (doctorId bookingId : string) (b : Booking) : bool :=
  String.eqb (id b) bookingId
  && String.eqb (doctor_id b) doctorId
  && booking_status_eqb (status b) pending.

(** [doctorInfo] is [null] until the profile is loaded; reading [.id] of it
    throws inside the [try], so nothing is sent to the store. *)
Definition approveBooking (db : Store) (doctorInfo : option string)
  (bookingId now : string) : Store :=
  match doctorInfo with
  | None => db
  | Some d =>
      with_bookings db
        (update_where (own_pending d bookingId) (set_status_at confirmed now)
                      (bookings db))
  end.

Definition rejectBooking (db : Store) (doctorInfo : option string)
  (bookingId now : string) : Store :=
  match doctorInfo with
  | None => db
  | Some d =>
      with_bookings db
        (update_where (own_pending d bookingId) (set_status_at cancelled now)
                      (bookings db))
  end.

(** BookingHistory.tsx: [.update({ status: 'cancelled' }).eq('id', bookingId)] *)
Definition cancelBooking (db : Store) (bookingId : string) : Store :=
  with_bookings db
    (update_where (fun b => String.eqb (id b) bookingId) (set_status cancelled)
                  (bookings db)).

Section CancelButton.
(** [new Date(text).getTime()], NaN for a text that is no date. *)
Variable dateMs : string -> Clock.number.

(** The render guard of the Cancel button, on the page's copy of a booking:
    [booking.status === 'pending' &&
     new Date(booking.appointment_date) > new Date()] *)
Definition cancel_offered (nowMs : Z) (shown : Booking) : bool :=
  booking_status_eqb (status shown) pending
  && Clock.num_gt (dateMs (appointment_date shown)) (Some nowMs).

(** A click on the button of the copy [shown]: there is a button only when
    the guard holds, and it calls [cancelBooking(booking.id)]. *)
Definition click_cancel (nowMs : Z) (shown : Booking) (db : Store) : Store :=
  if cancel_offered nowMs shown then cancelBooking db (id shown) else db.
End CancelButton.

(** [b'] is [b] except, possibly, for [status] and [updated_at]. *)
Definition same_but_status_and_stamp (b b' : Booking) : Prop :=
  id b' = id b /\ user_id b' = user_id b /\ doctor_id b' = doctor_id b
  /\ appointment_date b' = appointment_date b
  /\ appointment_time b' = appointment_time b
  /\ payment_status b' = payment_status b
  /\ consultation_fee b' = consultation_fee b
  /\ booking_fee b' = booking_fee b /\ total_amount b' = total_amount b
  /\ patient_notes b' = patient_notes b.

(** The booking the doctor's decision is about: the given id, the acting
    doctor's own, still pending. *)
Definition decided (doctorInfo : option string) (bookingId : string)
  (b : Booking) : Prop :=
  id b = bookingId /\ doctorInfo = Some (doctor_id b) /\ status b = pending.

End Transitions.

(** ** Conflict guard of the bookings repository *)

Module BookingsRepo.

(** [.eq('doctor_id', ...).eq('appointment_date', ...).eq('appointment_time', ...)
     .limit(1)], then [find(b => b.status !== 'cancelled')]. *)
Definition hasConflict (db : Store) (doctorId date time_ : string) : bool :=
  let data :=
    firstn 1
      (filter (fun b => String.eqb (doctor_id b) doctorId
                        && String.eqb (appointment_date b) date
                        && String.eqb (appointment_time b) time_)
              (bookings db)) in
  match find (fun b => negb (booking_status_eqb (status b) cancelled)) data with
  | Some _ => true
  | None => false
  end.

End BookingsRepo.

(** ** Remote functions over two channels *)

Module Remote.

(** What one attempt over one channel comes back with.  Over the primary
    channel ([supabase.functions.invoke]) the first two are an [error] with
    no [data]; over the secondary channel ([fetch]) the first is a thrown
    exception and the second a response with [ok] false. *)
Inductive Reply (A : Type) :=
| NoResponse                               (* transport failure *)
| HttpStatus (code : Z)                    (* the function answered non-2xx *)
| Json (success : bool) (payload : option A).  (* 2xx with a JSON body *)
Arguments NoResponse {A}.
Arguments HttpStatus {A} code.
Arguments Json {A} success payload.

Inductive Channel := Primary | Secondary.

(** One attempt: which channel, which function. *)
Record Call := mkCall { via : Channel; fn : string }.

Definition Channel_eqb (a b : Channel) : bool :=
  match a, b with
  | Primary, Primary | Secondary, Secondary => true
  | _, _ => false
  end.

Definition Call_eqb (a b : Call) : bool :=
  Channel_eqb (via a) (via b) && String.eqb (fn a) (fn b).

(** How many times [c] was attempted. *)
Definition attempts (c : Call) (trace : list Call) : nat :=
  List.length (filter (Call_eqb c) trace).

Definition transport_failure {A} (r : Reply A) : Prop := r = NoResponse.

(** The function ran and refused: a non-2xx answer, or a body that says
    [success: false] and carries no result. *)
Definition business_rejection {A} (r : Reply A) : Prop :=
  (exists code, r = HttpStatus code) \/ r = Json false None.

(** backend/functions.ts, [invokeWithFallback]: the value returned, or the
    exception. *)
Inductive Result (A : Type) :=
| Returned (success : bool) (payload : option A)
| Thrown.
Arguments Returned {A} success payload.
Arguments Thrown {A}.

Definition invokeWithFallback {A} (name : string)
  (primary secondary : Reply A) : Result A * list Call :=
  match primary with
  | Json ok data => (Returned ok data, [mkCall Primary name])
  | _ =>
      (match secondary with
       | Json ok data => Returned ok data
       | _ => Thrown
       end,
       [mkCall Primary name; mkCall Secondary name])
  end.

(** Counting helpers for traces. *)
Definition once_if (c : bool) : nat := if c then 1%nat else 0%nat.

Definition is_none {A} (o : option A) : bool :=
  match o with
  | Some _ => false
  | None => true
  end.

Definition is_some {A} (o : option A) : bool := negb (is_none o).

Definition answered {A} (r : Reply A) : bool :=
  match r with
  | Json _ _ => true
  | _ => false
  end.

End Remote.

(** ** Booking and payment (BookAppointment.tsx, handleBooking) *)

Module Booking.
Import Remote.

Inductive PaymentMethod := medical_aid | cash | card.

(** [paymentMethod.replace('_', ' ')] *)
Definition method_text (p : PaymentMethod) : string :=
  match p with
  | medical_aid => "medical aid"
  | cash => "cash"
  | card => "card"
  end.

Record Doctor := mkDoctor { d_id : string; d_consultation_fee : Z }.

(** The state of the page when the button is pressed. *)
Record Form := mkForm {
  user : option string;          (* [user?.id] *)
  doctor : option Doctor;
  selectedDate : string;
  selectedTime : string;
  patientNotes : string;
  paymentMethod : PaymentMethod
}.

(** The replies of the four possible attempts. *)
Record Replies := mkReplies {
  create_primary : Reply Booking;
  create_secondary : Reply Booking;
  pay_primary : Reply string;
  pay_secondary : Reply string
}.

Inductive Outcome :=
| FieldsMissing                                   (* toast 'Please fill in ...' *)
| Redirected (paymentUrl : string)                (* window.location.href *)
| SlotUnavailable                                 (* toast 'Slot Unavailable' *)
| BookingCreatedPaymentPending (inserted : Booking).
    (* toast 'Booking Created ... You can retry payment from Booking History' *)
(* The toast 'Booking Failed' of the inner [catch] needs the store to refuse
   a statement; it is [DirectSteps.BookingFailed]. *)

Definition baseBookingFee : Z := 1000.

Definition newline : string := String (ascii_of_nat 10) EmptyString.

Definition notes_text (f : Form) : string :=
  (patientNotes f ++ newline ++ "Payment method: "
   ++ method_text (paymentMethod f))%string.

(** [.single()]: the row when exactly one matches. *)
Definition single {A} (l : list A) : option A :=
  match l with
  | [x] => Some x
  | _ => None
  end.

(** The conflict query of the final fallback. *)
Definition conflict_rows (db : Store) (doctorId date time_ : string)
  : list Booking :=
  filter (fun b => String.eqb (doctor_id b) doctorId
                   && String.eqb (appointment_date b) date
                   && String.eqb (appointment_time b) time_
                   && negb (booking_status_eqb (status b) cancelled))
         (bookings db).

Definition membership_of (db : Store) (userId : string) : option Membership :=
  single (filter (fun m => String.eqb (m_user_id m) userId) (memberships db)).

(** [x ?? 0] and [x || 0] agree on a nullable integer. *)
Definition or_zero (x : option Z) : Z :=
  match x with
  | Some v => v
  | None => 0
  end.

(** [(booking_fee, shouldDecrement)] *)
Definition fee_for (membership : option Membership) : Z * bool :=
  match membership with
  | Some m =>
      if membership_kind_eqb (membership_type m) premium
         && (0 <? or_zero (free_bookings_remaining m))
      then (0, true)
      else (baseBookingFee, false)
  | None => (baseBookingFee, false)
  end.

(** [.update({ free_bookings_remaining: (m.free_bookings_remaining || 0) - 1,
               updated_at }).eq('user_id', user.id)] *)
Definition decrement_credit (userId : string) (m : Membership) (now : string)
  (tbl : list Membership) : list Membership :=
  map (fun r => if String.eqb (m_user_id r) userId
                then mkMembership (m_user_id r) (membership_type r)
                       (Some (or_zero (free_bookings_remaining m) - 1)) now
                else r)
      tbl.

(** The body of the outer [catch]: create the booking directly.  [newId] and
    [now] are the id and the timestamp the store gives the new row.  The
    four statements are taken as one step on one store: every statement is
    answered and no other session writes between them.
    [DirectSteps.create_directly_steps] takes them one at a time. *)
Definition create_directly (db : Store) (userId : string) (doc : Doctor)
  (f : Form) (newId now : string) : Store * Outcome :=
  let conflict :=
    conflict_rows db (d_id doc) (selectedDate f) (selectedTime f) in
  if (0 <? List.length conflict)%nat then (db, SlotUnavailable)
  else
    let membership := membership_of db userId in
    let '(booking_fee, shouldDecrement) := fee_for membership in
    let inserted :=
      mkBooking newId userId (d_id doc) (selectedDate f) (selectedTime f)
                pending payment_pending (d_consultation_fee doc)
                booking_fee booking_fee (notes_text f) now in
    let members :=
      match membership with
      | Some m =>
          if shouldDecrement then decrement_credit userId m now (memberships db)
          else memberships db
      | None => memberships db
      end in
    (mkStore (bookings db ++ [inserted])%list members (doctor_schedules db),
     BookingCreatedPaymentPending inserted).

(** [createData?.booking]: the primary reply is not asked for [success]. *)
Definition booking_of_primary (r : Reply Booking) : option Booking :=
  match r with
  | Json _ (Some b) => Some b
  | _ => None
  end.

(** [json?.success && json?.booking] *)
Definition booking_of_secondary (r : Reply Booking) : option Booking :=
  match r with
  | Json true (Some b) => Some b
  | _ => None
  end.

Definition url_of_primary (r : Reply string) : option string :=
  match r with
  | Json _ (Some u) => if truthy u then Some u else None
  | _ => None
  end.

Definition url_of_secondary (r : Reply string) : option string :=
  match r with
  | Json true (Some u) => if truthy u then Some u else None
  | _ => None
  end.

(** The booking the first phase ends with, over either channel. *)
Definition obtained_booking (r : Replies) : option Booking :=
  match booking_of_primary (create_primary r) with
  | Some b => Some b
  | None => booking_of_secondary (create_secondary r)
  end.

(** The payment URL the second phase ends with, over either channel. *)
Definition obtained_url (r : Replies) : option string :=
  match url_of_primary (pay_primary r) with
  | Some u => Some u
  | None => url_of_secondary (pay_secondary r)
  end.

(** The user's membership is premium and has a free booking left. *)
Definition premium_with_credit (db : Store) (userId : string) : Prop :=
  exists m v, membership_of db userId = Some m
              /\ membership_type m = premium
              /\ free_bookings_remaining m = Some v /\ 0 < v.

(** Some booking, not cancelled, holds this doctor, date and time. *)
Definition slot_taken (db : Store) (doctorId date time_ : string) : Prop :=
  exists b, In b (bookings db) /\ doctor_id b = doctorId
            /\ appointment_date b = date /\ appointment_time b = time_
            /\ status b <> cancelled.

Definition create_booking_fn : string := "create-booking".
Definition create_payment_fn : string := "create-payfast-payment".

(** [handleBooking].  [db] is the store as the final fallback finds it (what
    the remote function wrote is already in it); the result is the store
    afterwards, what the user is shown, and the attempts made in order. *)
Definition handleBooking (f : Form) (r : Replies) (db : Store)
  (newId now : string) : Store * Outcome * list Call :=
  match user f, doctor f with
  | Some u, Some d =>
      if negb (truthy (selectedDate f)) || negb (truthy (selectedTime f))
      then (db, FieldsMissing, [])
      else
        let t1 := [mkCall Primary create_booking_fn] in
        let '(booking, t2) :=
          match booking_of_primary (create_primary r) with
          | Some b => (Some b, t1)
          | None => (booking_of_secondary (create_secondary r),
                     (t1 ++ [mkCall Secondary create_booking_fn])%list)
          end in
        match booking with
        | None =>
            let '(db', o) := create_directly db u d f newId now in (db', o, t2)
        | Some _ =>
            let t3 := (t2 ++ [mkCall Primary create_payment_fn])%list in
            let '(paymentUrl, t4) :=
              match url_of_primary (pay_primary r) with
              | Some url => (Some url, t3)
              | None => (url_of_secondary (pay_secondary r),
                         (t3 ++ [mkCall Secondary create_payment_fn])%list)
              end in
            match paymentUrl with
            | Some url => (db, Redirected url, t4)
            | None =>
                let '(db', o) := create_directly db u d f newId now in
                (db', o, t4)
            end
        end
  | _, _ => (db, FieldsMissing, [])
  end.

End Booking.

(** ** Sample stores *)

Module Samples.

Definition monday (_ : string) : Z := 1.

Definition booking_at (i u d date t : string) (st : booking_status) : Booking :=
  mkBooking i u d date t st payment_pending 50000 1000 1000 "" "".

(** Two overlapping Monday windows, one booked and one cancelled slot. *)
Definition overlapping : Store :=
  mkStore
    [booking_at "b1" "u1" "d1" "2025-01-06" "09:00" pending;
     booking_at "b2" "u2" "d1" "2025-01-06" "09:30" cancelled]
    []
    [mkWindow "d1" 1 "09:00" "11:00" true;
     mkWindow "d1" 1 "08:00:00" "10:00:00" true].

(** Bookings whose time is stored with seconds, or without the leading
    zero. *)
Definition other_texts : Store :=
  mkStore
    [booking_at "b1" "u1" "d1" "2025-01-06" "09:00:00" pending;
     booking_at "b2" "u2" "d1" "2025-01-06" "9:00" confirmed]
    []
    [mkWindow "d1" 1 "08:00" "10:00" true].

(** A slot booked, cancelled, and booked again by someone else. *)
Definition rebooked : Store :=
  mkStore
    [booking_at "b1" "u1" "d1" "2025-01-06" "09:00" cancelled;
     booking_at "b2" "u2" "d1" "2025-01-06" "09:00" pending]
    []
    [mkWindow "d1" 1 "08:00" "10:00" true].

Definition dr : Booking.Doctor := Booking.mkDoctor "d1" 50000.

Definition form_0900 (u : string) : Booking.Form :=
  Booking.mkForm (Some u) (Some dr) "2025-01-06" "09:00" "" Booking.cash.

Definition form_0930 (u : string) : Booking.Form :=
  Booking.mkForm (Some u) (Some dr) "2025-01-06" "09:30" "" Booking.cash.

(** A premium member with one free booking left, and nothing booked. *)
Definition one_credit : Store :=
  mkStore [] [mkMembership "u1" premium (Some 1) "t0"]
          [mkWindow "d1" 1 "08:00" "10:00" true].

(** What the first direct booking of that member inserts and leaves. *)
Definition first_booking : Booking :=
  mkBooking "b1" "u1" "d1" "2025-01-06" "09:00" pending payment_pending 50000
            0 0 (Booking.notes_text (form_0900 "u1")) "t1".

Definition after_first : Store :=
  mkStore [first_booking] [mkMembership "u1" premium (Some 0) "t1"]
          [mkWindow "d1" 1 "08:00" "10:00" true].

Definition second_booking : Booking :=
  mkBooking "b2" "u1" "d1" "2025-01-06" "09:30" pending payment_pending 50000
            1000 1000 (Booking.notes_text (form_0930 "u1")) "t2".

Definition after_second : Store :=
  mkStore [first_booking; second_booking]
          [mkMembership "u1" premium (Some 0) "t1"]
          [mkWindow "d1" 1 "08:00" "10:00" true].

(** Monday with a sparse selection, every other day closed. *)
Definition week : Schedule.DayStates :=
  fun d => if d =? 1
           then Some (Schedule.mkDay "08:00" "17:00" ["09:00"; "08:00"; "09:30"])
           else Some (Schedule.mkDay "08:00" "17:00" []).

(** Before the save: the doctor is open on Tuesday; another doctor has a
    Monday window. *)
Definition before_save : Store :=
  mkStore [] []
          [mkWindow "d1" 2 "08:00" "12:00" true;
           mkWindow "d2" 1 "10:00" "12:00" true].

Definition after_save : Store :=
  mkStore [] []
          [mkWindow "d2" 1 "10:00" "12:00" true;
           mkWindow "d1" 1 "08:00" "10:00" true].

(** A booking the doctor confirmed after the patient's page had loaded it
    as pending. *)
Definition shown_copy : Booking :=
  booking_at "b1" "u1" "d1" "2025-01-06" "09:00" pending.

Definition confirmed_meanwhile : Store :=
  mkStore [booking_at "b1" "u1" "d1" "2025-01-06" "09:00" confirmed;
           booking_at "b2" "u2" "d1" "2025-01-06" "09:30" pending]
          [mkMembership "u1" premium (Some 1) "t0"]
          [mkWindow "d1" 1 "08:00" "10:00" true].

(** Midnight UTC of 2025-01-06 in milliseconds, for every text. *)
Definition jan6 (_ : string) : Clock.number := Some 1736121600000.

(** Noon UTC of 2025-01-05. *)
Definition jan5_noon : Z := 1736078400000.

(** The booking the remote function created for u1 at 09:00, and the store
    holding it. *)
Definition remote_booking : Booking :=
  booking_at "b7" "u1" "d1" "2025-01-06" "09:00" pending.

Definition after_remote_create : Store :=
  mkStore [remote_booking] []
          [mkWindow "d1" 1 "08:00" "10:00" true].

(** The booking was created over the primary channel; payment cannot be
    reached over either channel. *)
Definition payment_down : Booking.Replies :=
  Booking.mkReplies (Remote.Json true (Some remote_booking)) Remote.NoResponse
                    Remote.NoResponse Remote.NoResponse.

(** The function answers, over both channels, that it refuses. *)
Definition refused : Booking.Replies :=
  Booking.mkReplies (Remote.Json false None) (Remote.Json false None)
                    Remote.NoResponse Remote.NoResponse.

(** Everything answers over the primary channel. *)
Definition all_up : Booking.Replies :=
  Booking.mkReplies (Remote.Json true (Some remote_booking)) Remote.NoResponse
                    (Remote.Json true (Some "https://pay.example/b7"))
                    Remote.NoResponse.

End Samples.

(** ** The dashboard's schedule editor (retry, loadSchedule, the slot grid) *)

Module Dashboard.
Import Clock Schedule.

(** [s.includes(sub)] *)
Fixpoint includes (s sub : string) : bool :=
  if String.prefix sub s then true
  else match s with
       | EmptyString => false
       | String _ r => includes r sub
       end.

(** What one call of [fn] does: it resolves, or it throws an error whose
    [message] is the given text (the empty text when there is none). *)
Inductive Attempt (T : Type) :=
| Resolves (v : T)
| Rejects (message : string).
Arguments Resolves {T} v.
Arguments Rejects {T} message.

(** How [retry] ends: with the value, or by throwing [lastErr], which is
    [undefined] when no call was made. *)
Inductive Ended (T : Type) :=
| Gave (v : T)
| Threw (lastErr : option string).
Arguments Gave {T} v.
Arguments Threw {T} lastErr.

Definition transient (message : string) : bool :=
  includes message "Failed to fetch".

(** The [for (let i = 0; i < attempts; i++)] loop of [retry] from turn [i]
    with [left] turns to go; [fn k] is what the call number [k] does.  The
    result comes with the number of calls made. *)
Fixpoint retry_from {T} (fn : nat -> Attempt T) (i left : nat)
  (lastErr : option string) : Ended T * nat :=
  match left with
  | O => (Threw lastErr, i)
  | S left' =>
      match fn i with
      | Resolves v => (Gave v, S i)
      | Rejects message =>
          if transient message
          then retry_from fn (S i) left' (Some message)
          else (Threw (Some message), S i)
      end
  end.

Definition retry {T} (fn : nat -> Attempt T) (attempts : nat) : Ended T * nat :=
  retry_from fn 0 attempts None.

(** [new Set(...)] with [add]: a text already present keeps its place. *)
Definition set_add (t : string) (sel : list string) : list string :=
  if Slots.has sel t then sel else (sel ++ [t])%list.

(** [set.delete(t)] *)
Definition set_delete (t : string) (sel : list string) : list string :=
  filter (fun x => negb (String.eqb x t)) sel.

(** The set built by [for (m ...) set.add(toHHMM(m))] on top of [sel]. *)
Definition add_half_hours (start end_ : string) (sel : list string)
  : list string :=
  fold_left (fun acc m => set_add (toHHMM m) acc) (half_hours start end_) sel.

Definition default_day : DayState := mkDay "08:00" "17:00" [].

(** [for (let i = 0; i < 7; i++) next[i] = { open: '08:00', ... }] *)
Definition initial_days : DayStates :=
  fun d => if (0 <=? d) && (d <? 7) then Some default_day else None.

(** [s.slice(0, 5)] *)
Definition slice5 (s : string) : string := String.substring 0 5 s.

(** What one schedule row makes of the day it belongs to. *)
Definition loaded_day (cur : option DayState) (row : ScheduleWindow) : DayState :=
  let start := slice5 (start_time row) in
  let end_ := slice5 (end_time row) in
  let st := match cur with
            | Some st => st
            | None => default_day
            end in
  mkDay (if num_gt (toMinutes (open st)) (toMinutes start) then start else open st)
        (if num_gt (toMinutes end_) (toMinutes (close st)) then end_ else close st)
        (add_half_hours start end_ (selected st)).

(** The body of [data.forEach(row => ...)] in [loadSchedule]. *)
Definition load_row (next : DayStates) (row : ScheduleWindow) : DayStates :=
  if negb (is_available row) then next
  else fun d => if d =? day_of_week row
                then Some (loaded_day (next (day_of_week row)) row)
                else next d.

(** [loadSchedule]: the state handed to [setDayStates]; without a doctor
    id the state stays as it is. *)
Definition loadSchedule (db : Store) (doctorInfo_id : string)
  (current : DayStates) : DayStates :=
  if negb (truthy doctorInfo_id) then current
  else fold_left load_row (schedules_of db doctorInfo_id) initial_days.

(** The 'Select All' button on the day [st]. *)
Definition select_all (st : DayState) : DayState :=
  mkDay (open st) (close st) (add_half_hours (open st) (close st) []).

(** The 'Clear' button. *)
Definition clear_day (st : DayState) : DayState :=
  mkDay (open st) (close st) [].

(** A click on the slot button [t]:
    [if (next.has(t)) next.delete(t); else next.add(t)]. *)
Definition toggle_slot (t : string) (st : DayState) : DayState :=
  mkDay (open st) (close st)
        (if Slots.has (selected st) t then set_delete t (selected st)
         else set_add t (selected st)).

(** The 'Copy to all days' button with [activeDay]; reading [copy.open] of
    a missing day throws, and the state stays as it is. *)
Definition copy_to_all (activeDay : Z) (prev : DayStates) : DayStates :=
  match prev activeDay with
  | None => prev
  | Some copy =>
      fun i => if (0 <=? i) && (i <? 7)
               then if i =? activeDay then prev i
                    else Some (mkDay (open copy) (close copy) (selected copy))
               else prev i
  end.

End Dashboard.

(** ** Booking history (BookingHistory.tsx, filterBookings) *)

Module History.

(** [a >= b] and [a < b] on numbers: false when either side is NaN. *)
Definition num_ge (a b : Clock.number) : bool :=
  match a, b with
  | Some x, Some y => y <=? x
  | _, _ => false
  end.

Definition num_lt (a b : Clock.number) : bool :=
  match a, b with
  | Some x, Some y => x <? y
  | _, _ => false
  end.

Section Tabs.
(** [new Date(text).getTime()], NaN for a text that is no date. *)
Variable dateMs : string -> Clock.number.

(** [filterBookings(bookings, filter)] with [now = new Date()]. *)
Definition filterBookings (nowMs : Z) (bs : list Booking) (tab : string)
  : list Booking :=
  if String.eqb tab "upcoming" then
    filter (fun b => num_ge (dateMs (appointment_date b)) (Some nowMs)
                     && negb (booking_status_eqb (status b) cancelled)) bs
  else if String.eqb tab "past" then
    filter (fun b => num_lt (dateMs (appointment_date b)) (Some nowMs)
                     || booking_status_eqb (status b) completed) bs
  else if String.eqb tab "cancelled" then
    filter (fun b => booking_status_eqb (status b) cancelled) bs
  else bs.
End Tabs.

End History.

(** ** Reads of the bookings repository *)

Module BookingsReads.

(** What [.maybeSingle()] gives: the row, [null], or an error when more
    than one row matches. *)
Inductive Fetched (A : Type) :=
| Row (a : A)
| NoRow
| TooMany.
Arguments Row {A} a.
Arguments NoRow {A}.
Arguments TooMany {A}.

Definition maybeSingle {A} (l : list A) : Fetched A :=
  match l with
  | [] => NoRow
  | [x] => Row x
  | _ => TooMany
  end.

(** [BookingsRepo.getById] *)
Definition getById (db : Store) (i : string) : Fetched Booking :=
  maybeSingle (filter (fun b => String.eqb (id b) i) (bookings db)).

(** [BookingsRepo.countForDoctor] *)
Definition countForDoctor (db : Store) (doctorId : string) : nat :=
  List.length (filter (fun b => String.eqb (doctor_id b) doctorId) (bookings db)).

End BookingsReads.

(** ** Invariants of the store *)

Module Invariants.

(** At most one booking that is not cancelled per doctor, date and time. *)
Definition one_per_slot (db : Store) : Prop :=
  forall d date t, (List.length (Booking.conflict_rows db d date t) <= 1)%nat.

(** No membership has a negative number of free bookings. *)
Definition credits_nonneg (db : Store) : Prop :=
  Forall (fun m => 0 <= Booking.or_zero (free_bookings_remaining m))
         (memberships db).

End Invariants.

(** ** The final fallback, one awaited round trip at a time *)

Module DirectSteps.
Import Remote Booking.

(** What happens around the four statements of the final fallback
    (BookAppointment.tsx 326-378), each of which is awaited on its own:
    whether the store answers a statement, and what other sessions write
    to the store before the next one is sent. *)
Record Meanwhile := mkMeanwhile {
  conflict_answered : bool;         (* [conflict] is not null *)
  after_check : Store -> Store;     (* written between the query and the read *)
  membership_answered : bool;       (* [membership] is not null for a stored row *)
  after_read : Store -> Store;      (* written between the read and the insert *)
  insert_accepted : bool;           (* [insErr] is null *)
  after_insert : Store -> Store;    (* written between the insert and the update *)
  decrement_applied : bool          (* the update reached the store *)
}.

(** No other session writes and every statement is answered. *)
Definition quiet : Meanwhile :=
  mkMeanwhile true (fun s => s) true (fun s => s) true (fun s => s) true.

(** What the user is shown, with the toast of the inner [catch]. *)
Inductive Shown :=
| Toast (o : Outcome)
| BookingFailed.                    (* toast 'Booking Failed' *)

Definition with_inserted (db : Store) (b : Booking) : Store :=
  mkStore (bookings db ++ [b])%list (memberships db) (doctor_schedules db).

(** The body of the outer [catch], statement by statement.  A query that is
    not answered leaves [conflict] null, which [(conflict || [])] reads as no
    conflict; a membership read that is not answered leaves [membership]
    null; a refused insert throws into the inner [catch]; the result of the
    decrement is not looked at. *)
Definition create_directly_steps (w : Meanwhile) (db : Store) (userId : string)
  (doc : Doctor) (f : Form) (newId now : string) : Store * Shown :=
  let conflict :=
    if conflict_answered w
    then conflict_rows db (d_id doc) (selectedDate f) (selectedTime f)
    else [] in
  if (0 <? List.length conflict)%nat then (db, Toast SlotUnavailable)
  else
    let db1 := after_check w db in
    let membership :=
      if membership_answered w then membership_of db1 userId else None in
    let '(booking_fee, shouldDecrement) := fee_for membership in
    let db2 := after_read w db1 in
    if insert_accepted w then
      let inserted :=
        mkBooking newId userId (d_id doc) (selectedDate f) (selectedTime f)
                  pending payment_pending (d_consultation_fee doc)
                  booking_fee booking_fee (notes_text f) now in
      let db3 := after_insert w (with_inserted db2 inserted) in
      let members :=
        match membership with
        | Some m =>
            if shouldDecrement && decrement_applied w
            then decrement_credit userId m now (memberships db3)
            else memberships db3
        | None => memberships db3
        end in
      (mkStore (bookings db3) members (doctor_schedules db3),
       Toast (BookingCreatedPaymentPending inserted))
    else (db2, BookingFailed).

(** [handleBooking] with the final fallback taken statement by statement;
    the attempts over the channels are those of [handleBooking]. *)
Definition handleBooking_steps (w : Meanwhile) (f : Form) (r : Replies)
  (db : Store) (newId now : string) : Store * Shown * list Call :=
  match user f, doctor f with
  | Some u, Some d =>
      if negb (truthy (selectedDate f)) || negb (truthy (selectedTime f))
      then (db, Toast FieldsMissing, [])
      else
        let trace := snd (handleBooking f r db newId now) in
        match obtained_booking r, obtained_url r with
        | Some _, Some url => (db, Toast (Redirected url), trace)
        | _, _ =>
            let '(db', o) := create_directly_steps w db u d f newId now in
            (db', o, trace)
        end
  | _, _ => (db, Toast FieldsMissing, [])
  end.

(** Another patient books the same doctor, date and time. *)
Definition rival : Booking :=
  mkBooking "b9" "u2" "d1" "2025-01-06" "09:00" pending payment_pending 50000
            1000 1000 "" "t0".

(** The rival's insert reaches the store after this session's conflict
    query and before its insert. *)
Definition rival_between : Meanwhile :=
  mkMeanwhile true (fun s => with_inserted s rival) true (fun s => s)
              true (fun s => s) true.

(** The store refuses the insert. *)
Definition insert_refused : Meanwhile :=
  mkMeanwhile true (fun s => s) true (fun s => s) false (fun s => s) true.

End DirectSteps.

(** ** A selection off the half-hour grid *)

Module EditorSamples.

(** Monday with 08:15 and 09:00 selected: the later time is not a whole
    number of half hours after the earlier one. *)
Definition quarter_week : Schedule.DayStates :=
  fun d => if d =? 1
           then Some (Schedule.mkDay "08:00" "17:00" ["09:00"; "08:15"])
           else Some (Schedule.mkDay "08:00" "17:00" []).

(** [Samples.before_save] after that week is saved for doctor d1. *)
Definition after_quarter_save : Store :=
  mkStore [] []
          [mkWindow "d2" 1 "10:00" "12:00" true;
           mkWindow "d1" 1 "08:15" "09:30" true].

End EditorSamples.

(** * Properties *)

(** ** Clock texts: round trip and order *)

Module ClockFacts.
Import Clock.

Lemma below_forall (P : Z -> bool) (n : Z) :
  forallb P (below n) = true ->
  forall z, 0 <= z < n -> P z = true.
Proof.
  intros H z Hz. rewrite forallb_forall in H. apply H.
  unfold below. apply in_map_iff. exists (Z.to_nat z). split; [lia|].
  apply in_seq. lia.
Qed.

Lemma steps30_spec (s e m : Z) :
  In m (steps30 s e) <-> exists k, 0 <= k /\ m = s + 30 * k /\ m < e.
Proof.
  funelim (steps30 s e).
  - cbn [In]. rewrite H. split.
    + intros [<- | (k & Hk & -> & Hlt)].
      * exists 0. lia.
      * exists (k + 1). lia.
    + intros (k & Hk & -> & Hlt).
      destruct (Z.eq_dec k 0) as [-> | Hne]; [left; lia|].
      right. exists (k - 1). lia.
  - cbn [In]. split; [tauto|].
    intros (k & Hk & -> & Hlt). lia.
Qed.

Lemma steps30_from_nonneg (s e m : Z) :
  0 <= s -> In m (steps30 s e) -> 0 <= m < e.
Proof. intros Hs H. apply steps30_spec in H as (k & ? & -> & ?). lia. Qed.

(** What [toMinutes] reads is never negative. *)
Lemma Number_from_ge (s : string) (acc v : Z) :
  0 <= acc -> Number_from acc s = Some v -> 0 <= v.
Proof.
  revert acc. induction s as [|c r IH]; cbn [Number_from]; intros acc Hacc H.
  - congruence.
  - unfold digit_of in H.
    destruct ((48 <=? Z.of_N (N_of_ascii c)) && (Z.of_N (N_of_ascii c) <=? 57)) eqn:E;
      [|discriminate].
    apply andb_prop in E as [E1 E2]. apply Z.leb_le in E1, E2.
    apply IH in H; [exact H|lia].
Qed.

Lemma toMinutes_nonneg (t : string) (v : Z) : toMinutes t = Some v -> 0 <= v.
Proof.
  unfold toMinutes. destruct (split_colon t) as [|a [|b l]]; simpl; try discriminate.
  - destruct (Number a); discriminate.
  - destruct (Number a) as [h|] eqn:Ha; [|discriminate].
    destruct (Number b) as [m|] eqn:Hb; [|discriminate].
    intros [= <-]. apply Number_from_ge in Ha, Hb; lia.
Qed.

Lemma pad_length (n : Z) : 0 <= n < 100 -> String.length (pad n) = 2%nat.
Proof.
  intros Hn.
  apply (below_forall (fun z => Nat.eqb (String.length (pad z)) 2) 100) in Hn.
  - now apply Nat.eqb_eq.
  - vm_compute. reflexivity.
Qed.

Lemma comparison_eqb_eq (a b : comparison) : comparison_eqb a b = true -> a = b.
Proof. destruct a, b; simpl; congruence. Qed.

Lemma pad_compare (a b : Z) :
  0 <= a < 100 -> 0 <= b < 100 -> String.compare (pad a) (pad b) = (a ?= b).
Proof.
  intros Ha Hb. apply comparison_eqb_eq.
  pose proof (below_forall
    (fun x => forallb (fun y => comparison_eqb (String.compare (pad x) (pad y)) (x ?= y))
                      (below 100)) 100) as H.
  assert (Hall : forallb
    (fun x => forallb (fun y => comparison_eqb (String.compare (pad x) (pad y)) (x ?= y))
                      (below 100)) (below 100) = true) by (vm_compute; reflexivity).
  specialize (H Hall a Ha). cbv beta in H.
  exact (below_forall _ 100 H b Hb).
Qed.

Lemma compare_app (u v s t : string) :
  String.length u = String.length v ->
  String.compare (u ++ s) (v ++ t) =
  match String.compare u v with
  | Eq => String.compare s t
  | c => c
  end.
Proof.
  revert v. induction u as [|a u IH]; intros [|b v]; simpl; try discriminate.
  - reflexivity.
  - intros [= Hl]. destruct (Ascii.compare a b); auto.
Qed.

Lemma toHHMM_unfold (m : Z) :
  toHHMM m = (pad (m / 60) ++ String ":" (pad (m mod 60)))%string.
Proof. reflexivity. Qed.

(** On two-digit hours the text order is the order of the minutes. *)
Lemma toHHMM_compare (m1 m2 : Z) :
  0 <= m1 < 6000 -> 0 <= m2 < 6000 ->
  String.compare (toHHMM m1) (toHHMM m2) = (m1 ?= m2).
Proof.
  intros H1 H2. rewrite !toHHMM_unfold.
  assert (Hh1 : 0 <= m1 / 60 < 100)
    by (split; [apply Z.div_pos; lia | apply Z.div_lt_upper_bound; lia]).
  assert (Hh2 : 0 <= m2 / 60 < 100)
    by (split; [apply Z.div_pos; lia | apply Z.div_lt_upper_bound; lia]).
  pose proof (Z.mod_pos_bound m1 60 ltac:(lia)) as Hm1.
  pose proof (Z.mod_pos_bound m2 60 ltac:(lia)) as Hm2.
  rewrite compare_app by (rewrite !pad_length; auto).
  rewrite pad_compare by assumption.
  change (String.compare (String ":" (pad (m1 mod 60))) (String ":" (pad (m2 mod 60))))
    with (String.compare (pad (m1 mod 60)) (pad (m2 mod 60))).
  rewrite pad_compare by lia.
  pose proof (Z.div_mod m1 60 ltac:(lia)) as E1.
  pose proof (Z.div_mod m2 60 ltac:(lia)) as E2.
  destruct (Z.compare_spec (m1 / 60) (m2 / 60)) as [He | Hl | Hg].
  - destruct (Z.compare_spec (m1 mod 60) (m2 mod 60));
      symmetry; [apply Z.compare_eq_iff | apply Z.compare_lt_iff | apply Z.compare_gt_iff]; lia.
  - symmetry. apply Z.compare_lt_iff. lia.
  - symmetry. apply Z.compare_gt_iff. lia.
Qed.

(** Reading back what [toHHMM] wrote. *)
Lemma toMinutes_toHHMM (m : Z) :
  0 <= m < 6000 -> toMinutes (toHHMM m) = Some m.
Proof.
  intros Hm.
  apply (below_forall (fun z => number_eqb (toMinutes (toHHMM z)) (Some z)) 6000) in Hm.
  - unfold number_eqb in Hm. destruct (toMinutes (toHHMM m)); [|discriminate].
    apply Z.eqb_eq in Hm. congruence.
  - vm_compute. reflexivity.
Qed.

Lemma toHHMM_inj (m1 m2 : Z) :
  0 <= m1 < 6000 -> 0 <= m2 < 6000 -> toHHMM m1 = toHHMM m2 -> m1 = m2.
Proof.
  intros H1 H2 E. apply (f_equal toMinutes) in E.
  rewrite !toMinutes_toHHMM in E by assumption. congruence.
Qed.

End ClockFacts.

(** ** The stable sort and the keyed map *)

Module SortFacts.
Import Slots.

Section Generic.
Context {A : Type} (cmp : A -> A -> comparison).

Lemma insert_perm (x : A) (l : list A) : Permutation (insert cmp x l) (x :: l).
Proof.
  induction l as [|y r IH]; simpl; [reflexivity|].
  destruct (cmp x y); try reflexivity.
  rewrite IH. apply perm_swap.
Qed.

Lemma sort_perm (l : list A) : Permutation (sort cmp l) l.
Proof.
  induction l as [|x r IH]; simpl; [reflexivity|].
  rewrite insert_perm. now constructor.
Qed.

Lemma sort_in (x : A) (l : list A) : In x (sort cmp l) <-> In x l.
Proof.
  split; apply Permutation_in; [|symmetry]; apply sort_perm.
Qed.

Lemma sort_Forall (P : A -> Prop) (l : list A) :
  Forall P l -> Forall P (sort cmp l).
Proof.
  rewrite !Forall_forall. intros H x Hx. apply H. now apply sort_in.
Qed.
End Generic.

(** Sorting the images under [f] is sorting the originals, when the two
    comparisons agree through [f]. *)
Section Transport.
Context {A B : Type} (f : B -> A).
Context (cmpA : A -> A -> comparison) (cmpB : B -> B -> comparison).
Context (P : B -> Prop).
Hypothesis agree : forall x y, P x -> P y -> cmpA (f x) (f y) = cmpB x y.

Lemma insert_map (x : B) (l : list B) :
  P x -> Forall P l -> insert cmpA (f x) (map f l) = map f (insert cmpB x l).
Proof.
  intros Hx Hl. induction Hl as [|y r Hy Hr IH]; simpl; [reflexivity|].
  rewrite agree by assumption.
  destruct (cmpB x y); simpl; try reflexivity. now rewrite IH.
Qed.

Lemma sort_map (l : list B) :
  Forall P l -> sort cmpA (map f l) = map f (sort cmpB l).
Proof.
  intros Hl. induction Hl as [|x r Hx Hr IH]; simpl; [reflexivity|].
  rewrite IH. apply insert_map; [assumption|]. now apply sort_Forall.
Qed.
End Transport.

Lemma insert_sorted (x : Z) (l : list Z) :
  StronglySorted Z.le l -> StronglySorted Z.le (insert Z.compare x l).
Proof.
  induction 1 as [|y r Hr IH Hy]; simpl.
  - repeat constructor.
  - destruct (Z.compare_spec x y) as [-> | Hlt | Hgt].
    + constructor; [now constructor|]. constructor; [lia|assumption].
    + constructor; [now constructor|]. constructor; [lia|].
      eapply Forall_impl; [|exact Hy]. simpl. intros; lia.
    + constructor; [assumption|].
      rewrite Forall_forall in *. intros z Hz.
      apply (Permutation_in _ (insert_perm Z.compare x r)) in Hz.
      destruct Hz as [<- | Hz]; [lia|auto].
Qed.

Lemma sort_sorted (l : list Z) : StronglySorted Z.le (sort Z.compare l).
Proof.
  induction l as [|x r IH]; simpl; [constructor|]. now apply insert_sorted.
Qed.

Lemma add_new_case (m : Z) (l : list Z) :
  (In m l /\ add_new m l = l) \/ (~ In m l /\ add_new m l = (l ++ [m])%list).
Proof.
  induction l as [|x r IH]; simpl.
  - right. split; [tauto|reflexivity].
  - destruct (Z.eqb_spec x m) as [-> | Hne].
    + left. split; [now left|reflexivity].
    + destruct IH as [[Hin E] | [Hnin E]]; rewrite E.
      * left. split; [now right|reflexivity].
      * right. split; [|reflexivity]. intros [? | ?]; [congruence|tauto].
Qed.

Lemma lt_snoc (l : list Z) (m : Z) :
  StronglySorted Z.lt l -> (forall a, In a l -> a < m) ->
  StronglySorted Z.lt (l ++ [m]).
Proof.
  induction 1 as [|y r Hr IH Hy]; simpl; intros Hall.
  - repeat constructor.
  - constructor.
    + apply IH. intros a Ha. apply Hall. now right.
    + apply Forall_app. split; [assumption|].
      constructor; [|constructor]. apply Hall. now left.
Qed.

Lemma fold_add_new_sorted (ms acc : list Z) :
  StronglySorted Z.le ms -> StronglySorted Z.lt acc ->
  (forall a m, In a acc -> In m ms -> a <= m) ->
  StronglySorted Z.lt (fold_left (fun acc m => add_new m acc) ms acc).
Proof.
  intros Hms. revert acc.
  induction Hms as [|m r Hr IH Hm]; simpl; intros acc Hacc Hle; [assumption|].
  rewrite Forall_forall in Hm.
  destruct (add_new_case m acc) as [[Hin E] | [Hnin E]]; rewrite E.
  - apply IH; [assumption|]. intros a x Ha Hx. apply Hle; [assumption|now right].
  - apply IH.
    + apply lt_snoc; [assumption|]. intros a Ha.
      assert (a <= m) by (apply Hle; [assumption|now left]).
      assert (a <> m) by congruence. lia.
    + intros a x Ha Hx. apply in_app_iff in Ha as [Ha | [<- | []]].
      * apply Hle; [assumption|now right].
      * now apply Hm.
Qed.

Lemma fold_add_new_in (x : Z) (ms acc : list Z) :
  In x (fold_left (fun acc m => add_new m acc) ms acc) <-> In x ms \/ In x acc.
Proof.
  revert acc. induction ms as [|m r IH]; simpl; intros acc; [tauto|].
  rewrite IH.
  destruct (add_new_case m acc) as [[Hin E] | [Hnin E]]; rewrite E.
  - split; [tauto|]. intros [[<- | ?] | ?]; tauto.
  - rewrite in_app_iff. simpl. tauto.
Qed.

Lemma distinct_sorted (ms : list Z) :
  StronglySorted Z.lt (distinct (sort Z.compare ms)).
Proof.
  apply fold_add_new_sorted; [apply sort_sorted|constructor|].
  intros a m [].
Qed.

Lemma distinct_in (x : Z) (ms : list Z) :
  In x (distinct (sort Z.compare ms)) <-> In x ms.
Proof.
  unfold distinct. rewrite fold_add_new_in, sort_in. simpl. tauto.
Qed.

Lemma lt_sorted_NoDup (l : list Z) : StronglySorted Z.lt l -> NoDup l.
Proof.
  induction 1 as [|y r Hr IH Hy]; constructor; [|assumption].
  intros Hin. rewrite Forall_forall in Hy. specialize (Hy _ Hin). lia.
Qed.

(** Values of the keyed map come from what was put in. *)
Lemma map_set_values {V} (k : string) (v x : V) (m : list (string * V)) :
  In x (map_values (map_set k v m)) -> x = v \/ In x (map_values m).
Proof.
  unfold map_values. induction m as [|[k' v'] r IH]; simpl.
  - intuition auto.
  - destruct (String.eqb k' k); simpl; intuition auto.
Qed.

Lemma fold_map_set_values {V} (key : V -> string) (x : V) (l : list V)
  (m : list (string * V)) :
  In x (map_values (fold_left (fun u s => map_set (key s) s u) l m)) ->
  In x l \/ In x (map_values m).
Proof.
  revert m. induction l as [|s r IH]; simpl; intros m H; [tauto|].
  apply IH in H as [H | H]; [tauto|].
  apply map_set_values in H. destruct H as [-> | H]; auto.
Qed.

End SortFacts.

(** ** Slot derivation *)

Module SlotFacts.
Import Clock Slots ClockFacts SortFacts.

Lemma status_neq_cancelled (st : booking_status) :
  negb (booking_status_eqb st cancelled) = true <-> st <> cancelled.
Proof. destruct st; simpl; split; try congruence; intros; exfalso; auto. Qed.

Lemma has_taken_iff (db : Store) (doctorId date t : string) :
  has (takenTimes db doctorId date) t = true <-> taken_by db doctorId date t.
Proof.
  unfold has, takenTimes, active_bookings_on, taken_by.
  rewrite existsb_exists. split.
  - intros (x & Hx & E). apply String.eqb_eq in E. subst x.
    apply in_map_iff in Hx as (b & Hb & Hin).
    apply filter_In in Hin as (Hin & Hf).
    apply andb_prop in Hf as [Hf H3]. apply andb_prop in Hf as [H1 H2].
    apply String.eqb_eq in H1, H2. apply status_neq_cancelled in H3.
    exists b. auto.
  - intros (b & Hin & H1 & H2 & H3 & H4). exists t. split; [|apply String.eqb_refl].
    apply in_map_iff. exists b. split; [assumption|].
    apply filter_In. split; [assumption|].
    rewrite H1, H2, !String.eqb_refl. simpl. now apply status_neq_cancelled.
Qed.

Lemma schedules_for_In (db : Store) (doctorId : string) (dow : Z) (w : ScheduleWindow) :
  In w (schedules_for db doctorId dow) <->
  In w (doctor_schedules db) /\ s_doctor_id w = doctorId
  /\ day_of_week w = dow /\ is_available w = true.
Proof.
  unfold schedules_for. rewrite filter_In. split.
  - intros (Hin & Hf). apply andb_prop in Hf as [Hf H3].
    apply andb_prop in Hf as [H1 H2].
    apply String.eqb_eq in H1. apply Z.eqb_eq in H2. apply Bool.eqb_prop in H3. auto.
  - intros (Hin & -> & -> & ->). split; [assumption|].
    now rewrite String.eqb_refl, Z.eqb_refl.
Qed.

Lemma half_hours_In (a b : string) (m : Z) :
  In m (half_hours a b) <->
  exists s e k, toMinutes a = Some s /\ toMinutes b = Some e
                /\ 0 <= k /\ m = s + 30 * k /\ m < e.
Proof.
  unfold half_hours. split.
  - destruct (toMinutes a) as [s|]; [|intros []].
    destruct (toMinutes b) as [e|]; [|intros []].
    intros H. apply steps30_spec in H as (k & ? & ? & ?). exists s, e, k. auto.
  - intros (s & e & k & -> & -> & ? & ? & ?). apply steps30_spec. exists k. auto.
Qed.

Section WithDay.
Variable getDay : string -> Z.

Lemma raw_slots_minutes (db : Store) (doctorId date : string) :
  raw_slots getDay db doctorId date =
  map (slot_at (takenTimes db doctorId date)) (raw_minutes getDay db doctorId date).
Proof.
  unfold raw_slots, raw_minutes, slot_at.
  induction (schedules_for db doctorId (getDay date)) as [|w l IH]; simpl;
    [reflexivity|].
  now rewrite map_app, IH.
Qed.

Lemma raw_minutes_In (db : Store) (doctorId date : string) (m : Z) :
  In m (raw_minutes getDay db doctorId date) <->
  exists w s e k,
    In w (doctor_schedules db) /\ s_doctor_id w = doctorId
    /\ day_of_week w = getDay date /\ is_available w = true
    /\ toMinutes (start_time w) = Some s /\ toMinutes (end_time w) = Some e
    /\ 0 <= k /\ m = s + 30 * k /\ m < e.
Proof.
  unfold raw_minutes. rewrite in_flat_map. split.
  - intros (w & Hw & Hm). apply schedules_for_In in Hw as (? & ? & ? & ?).
    apply half_hours_In in Hm as (s & e & k & ? & ? & ? & ? & ?).
    exists w, s, e, k. auto 10.
  - intros (w & s & e & k & ? & ? & ? & ? & ? & ? & ? & ? & ?).
    exists w. split; [now apply schedules_for_In|].
    apply half_hours_In. exists s, e, k. auto.
Qed.

(** Every value of the result was pushed by the loop. *)
Lemma unique_slots_In (slots : list TimeSlot) (sl : TimeSlot) :
  In sl (unique_slots slots) -> In sl slots.
Proof.
  unfold unique_slots. intros H.
  apply fold_map_set_values in H as [H | []]. now apply sort_in in H.
Qed.

Lemma loadAvailability_In_raw (db : Store) (doctorId date : string) (sl : TimeSlot) :
  In sl (loadAvailability getDay db doctorId date) ->
  exists m, In m (raw_minutes getDay db doctorId date)
            /\ sl = slot_at (takenTimes db doctorId date) m.
Proof.
  unfold loadAvailability.
  destruct (String.eqb doctorId "" || String.eqb date ""); [intros []|].
  intros H. apply unique_slots_In in H. rewrite raw_slots_minutes in H.
  apply in_map_iff in H as (m & <- & Hm). eauto.
Qed.
End WithDay.

Section Keyed.
Variable taken : list string.

Lemma map_set_entry (m : Z) (acc : list Z) :
  hour_range m -> Forall hour_range acc ->
  map_set (toHHMM m) (slot_at taken m) (map (entry taken) acc) = map (entry taken) (add_new m acc).
Proof.
  intros Hm Hacc. induction Hacc as [|x r Hx Hr IH]; simpl; [reflexivity|].
  destruct (String.eqb_spec (toHHMM x) (toHHMM m)) as [E | NE].
  - apply toHHMM_inj in E; [|assumption..]. subst x.
    now rewrite Z.eqb_refl.
  - destruct (Z.eqb_spec x m) as [-> | _]; [congruence|].
    simpl. now rewrite IH.
Qed.

Lemma add_new_range (m : Z) (acc : list Z) :
  hour_range m -> Forall hour_range acc -> Forall hour_range (add_new m acc).
Proof.
  intros Hm Hacc.
  destruct (add_new_case m acc) as [[_ E] | [_ E]]; rewrite E; [assumption|].
  apply Forall_app. auto.
Qed.

Lemma fold_map_set_entry (ms acc : list Z) :
  Forall hour_range ms -> Forall hour_range acc ->
  fold_left (fun u s => map_set (time s) s u) (map (slot_at taken) ms) (map (entry taken) acc)
  = map (entry taken) (fold_left (fun a m => add_new m a) ms acc).
Proof.
  intros Hms. revert acc. induction Hms as [|m r Hm Hr IH]; simpl; intros acc Hacc;
    [reflexivity|].
  rewrite map_set_entry by assumption.
  apply IH. now apply add_new_range.
Qed.

(** On two-digit hours the derivation is sorting and de-duplicating the
    minutes themselves. *)
Lemma unique_slots_minutes (ms : list Z) :
  Forall hour_range ms ->
  unique_slots (map (slot_at taken) ms)
  = map (slot_at taken) (distinct (sort Z.compare ms)).
Proof.
  intros Hms. unfold unique_slots, distinct.
  rewrite (sort_map (slot_at taken) by_time Z.compare hour_range).
  - change (@nil (string * TimeSlot)) with (map (entry taken) []).
    rewrite fold_map_set_entry; [|now apply sort_Forall|constructor].
    unfold map_values. rewrite map_map. reflexivity.
  - intros x y Hx Hy. unfold by_time, localeCompare. simpl.
    now apply toHHMM_compare.
  - assumption.
Qed.
End Keyed.

Lemma NoDup_map_on {A B} (f : A -> B) (l : list A) :
  NoDup l -> (forall x y, In x l -> In y l -> f x = f y -> x = y) ->
  NoDup (map f l).
Proof.
  induction 1 as [|x r Hx Hr IH]; simpl; intros Hinj; constructor.
  - intros Hin. apply in_map_iff in Hin as (y & E & Hy).
    apply Hinj in E; [|now right|now left]. now subst y.
  - apply IH. intros a b Ha Hb. apply Hinj; now right.
Qed.

Lemma raw_slot_shape (getDay : string -> Z) (db : Store) (doctorId date : string)
  (x : TimeSlot) :
  In x (raw_slots getDay db doctorId date) ->
  x = mkSlot (time x) (negb (has (takenTimes db doctorId date) (time x))).
Proof.
  rewrite raw_slots_minutes. intros H.
  apply in_map_iff in H as (m & <- & _). reflexivity.
Qed.

Lemma raw_minutes_day (getDay : string -> Z) (db : Store) (doctorId date : string) :
  (forall w e, In w (schedules_for db doctorId (getDay date)) ->
               toMinutes (end_time w) = Some e -> e <= day_minutes) ->
  Forall (fun m => 0 <= m < day_minutes) (raw_minutes getDay db doctorId date).
Proof.
  intros Hday. apply Forall_forall. intros m Hm.
  apply raw_minutes_In in Hm as (w & s & e & k & H1 & H2 & H3 & H4 & Hs & He & Hk & -> & Hlt).
  apply toMinutes_nonneg in Hs.
  assert (e <= day_minutes).
  { apply (Hday w); [|assumption]. now apply schedules_for_In. }
  lia.
Qed.

(** C3.  Slot derivation for a doctor and a date whose available windows
    close by 24:00: a slot is in the result exactly when its time is a
    30-minute step of such a window, from the window's start (inclusive) to
    its end (exclusive), and its flag says that no non-cancelled booking of
    the doctor on that date holds that time; no time occurs twice; each
    slot of the result is the one computed last for its time; the times
    are strictly ascending; and with no window for the weekday the result is
    empty. *)
Theorem loadAvailability_derivation (getDay : string -> Z) (db : Store)
  (doctorId date : string) :
  doctorId <> "" -> date <> "" ->
  (forall w e, In w (schedules_for db doctorId (getDay date)) ->
               toMinutes (end_time w) = Some e -> e <= day_minutes) ->
  let r := loadAvailability getDay db doctorId date in
  (forall sl, In sl r <->
     (exists w s e k,
        In w (doctor_schedules db) /\ s_doctor_id w = doctorId
        /\ day_of_week w = getDay date /\ is_available w = true
        /\ toMinutes (start_time w) = Some s /\ toMinutes (end_time w) = Some e
        /\ 0 <= k /\ s + 30 * k < e /\ time sl = toHHMM (s + 30 * k))
     /\ (available sl = true <-> ~ taken_by db doctorId date (time sl)))
  /\ NoDup (map time r)
  /\ (forall sl, In sl r ->
        last_with_time (time sl) (raw_slots getDay db doctorId date) = Some sl)
  /\ (exists ms, map time r = map toHHMM ms /\ StronglySorted Z.lt ms
                 /\ Forall (fun m => 0 <= m < day_minutes) ms)
  /\ (schedules_for db doctorId (getDay date) = [] -> r = []).
Proof.
  intros Hd Hdate Hday r.
  set (taken := takenTimes db doctorId date).
  set (raw := raw_minutes getDay db doctorId date).
  pose proof (raw_minutes_day getDay db doctorId date Hday) as Hraw.
  fold raw in Hraw.
  assert (Hhr : Forall hour_range raw).
  { eapply Forall_impl; [|exact Hraw]. unfold hour_range, day_minutes. simpl. lia. }
  set (D := distinct (sort Z.compare raw)).
  assert (Er : r = map (slot_at taken) D).
  { unfold r, loadAvailability.
    apply String.eqb_neq in Hd, Hdate. rewrite Hd, Hdate. simpl.
    rewrite raw_slots_minutes. now apply unique_slots_minutes. }
  assert (HD : forall m, In m D <-> In m raw) by (intros m; apply distinct_in).
  assert (Hflag : forall t, negb (has taken t) = true <-> ~ taken_by db doctorId date t).
  { intros t. rewrite <- has_taken_iff. fold taken.
    destruct (has taken t); simpl; split; congruence. }
  repeat split.
  - (* a slot of the result is a step of a window *)
    rewrite Er in H. apply in_map_iff in H as (m & <- & Hm).
    apply HD, raw_minutes_In in Hm
      as (w & s & e & k & H1 & H2 & H3 & H4 & Hs & He & Hk & -> & Hlt).
    exists w, s, e, k. simpl. auto 12.
  - rewrite Er in H. apply in_map_iff in H as (m & <- & Hm).
    simpl. apply Hflag.
  - rewrite Er in H. apply in_map_iff in H as (m & <- & Hm).
    simpl. apply Hflag.
  - (* a step of a window is a slot of the result *)
    intros [(w & s & e & k & H1 & H2 & H3 & H4 & Hs & He & Hk & Hlt & Ht) Hav].
    rewrite Er. apply in_map_iff. exists (s + 30 * k). split.
    + destruct sl as [t a]. cbn [time available] in *. subst t.
      unfold slot_at. f_equal.
      specialize (Hflag (toHHMM (s + 30 * k))).
      destruct a, (negb (has taken (toHHMM (s + 30 * k)))); try reflexivity.
      * apply Hflag, Hav. reflexivity.
      * symmetry. apply Hav, Hflag. reflexivity.
    + apply HD, raw_minutes_In. exists w, s, e, k. auto 12.
  - (* no time twice *)
    rewrite Er, map_map. simpl.
    apply NoDup_map_on; [apply lt_sorted_NoDup, distinct_sorted|].
    intros x y Hx Hy. rewrite Forall_forall in Hhr.
    apply toHHMM_inj; apply Hhr; now apply HD.
  - (* the slot computed last *)
    intros sl Hsl.
    assert (Hin : In sl (raw_slots getDay db doctorId date)).
    { rewrite Er in Hsl. apply in_map_iff in Hsl as (m & <- & Hm).
      rewrite raw_slots_minutes. apply in_map. now apply HD. }
    unfold last_with_time.
    destruct (find (fun s => String.eqb (time s) (time sl))
                   (rev (raw_slots getDay db doctorId date))) as [x|] eqn:F.
    + apply find_some in F as [Hx Ex]. apply String.eqb_eq in Ex.
      apply in_rev in Hx.
      rewrite (raw_slot_shape _ _ _ _ _ Hx), (raw_slot_shape _ _ _ _ _ Hin).
      now rewrite Ex.
    + apply in_rev in Hin. apply (find_none _ _ F) in Hin.
      cbv beta in Hin. rewrite String.eqb_refl in Hin. discriminate.
  - (* ascending *)
    exists D. rewrite Er, map_map. simpl. repeat split.
    + apply distinct_sorted.
    + rewrite Forall_forall in *. intros m Hm. now apply Hraw, HD.
  - (* closed that day *)
    intros Hnone. unfold r, loadAvailability, raw_slots. rewrite Hnone.
    destruct (String.eqb doctorId "" || String.eqb date ""); reflexivity.
Qed.

(** C10.  A slot of the result carries the text [toHHMM] wrote for its
    minute, and it is marked unavailable exactly when that text is, as a
    string, the [appointment_time] of a non-cancelled booking of the same
    doctor and date; a booking whose time is written in any other way
    (["09:00:00"], ["9:00"]) is not such a booking for ["09:00"]. *)
Theorem unavailable_iff_same_text (getDay : string -> Z) (db : Store)
  (doctorId date : string) (sl : TimeSlot) :
  In sl (loadAvailability getDay db doctorId date) ->
  (exists m, time sl = toHHMM m)
  /\ (available sl = false <->
      exists b, In b (bookings db) /\ doctor_id b = doctorId
                /\ appointment_date b = date /\ status b <> cancelled
                /\ String.eqb (appointment_time b) (time sl) = true).
Proof.
  intros H. apply loadAvailability_In_raw in H as (m & _ & ->). split.
  - exists m. reflexivity.
  - simpl. rewrite negb_false_iff, has_taken_iff. unfold taken_by.
    split; intros (b & ? & ? & ? & ? & E); exists b; repeat split; auto.
    + now apply String.eqb_eq.
    + now apply String.eqb_eq in E.
Qed.

Lemma loadAvailability_derivation_witness :
  NoDup (map time (loadAvailability Samples.monday Samples.overlapping
                                    "d1" "2025-01-06"))
  /\ map time (loadAvailability Samples.monday Samples.overlapping
                                "d1" "2025-01-06")
     = ["08:00"; "08:30"; "09:00"; "09:30"; "10:00"; "10:30"].
Proof.
  split; [|reflexivity].
  refine (proj1 (proj2 (loadAvailability_derivation Samples.monday
                          Samples.overlapping "d1" "2025-01-06" _ _ _))).
  - discriminate.
  - discriminate.
  - intros w e Hw. vm_compute in Hw.
    destruct Hw as [<- | [<- | []]]; vm_compute; intros [= <-]; discriminate.
Defined.

Lemma unavailable_iff_same_text_witness :
  In (mkSlot "09:00" true)
     (loadAvailability Samples.monday Samples.other_texts "d1" "2025-01-06")
  /\ ~ (exists b, In b (bookings Samples.other_texts) /\ doctor_id b = "d1"
                  /\ appointment_date b = "2025-01-06" /\ status b <> cancelled
                  /\ String.eqb (appointment_time b) "09:00" = true).
Proof.
  assert (Hin : In (mkSlot "09:00" true)
                   (loadAvailability Samples.monday Samples.other_texts
                                     "d1" "2025-01-06")).
  { vm_compute. right. right. left. reflexivity. }
  split; [exact Hin|].
  intros H.
  apply (proj2 (unavailable_iff_same_text Samples.monday Samples.other_texts
                  "d1" "2025-01-06" (mkSlot "09:00" true) Hin)) in H.
  discriminate H.
Defined.

End SlotFacts.

(** ** Conflict guard and direct creation *)

Module BookingFacts.
Import Remote Booking.

Lemma conflict_rows_In (db : Store) (d date t : string) (b : Booking) :
  In b (conflict_rows db d date t) <->
  In b (bookings db) /\ doctor_id b = d /\ appointment_date b = date
  /\ appointment_time b = t /\ status b <> cancelled.
Proof.
  unfold conflict_rows. rewrite filter_In. split.
  - intros (Hin & Hf). apply andb_prop in Hf as [Hf H4].
    apply andb_prop in Hf as [Hf H3]. apply andb_prop in Hf as [H1 H2].
    apply String.eqb_eq in H1, H2, H3.
    apply SlotFacts.status_neq_cancelled in H4. auto.
  - intros (Hin & -> & -> & -> & H4). split; [assumption|].
    rewrite !String.eqb_refl. simpl. now apply SlotFacts.status_neq_cancelled.
Qed.

Lemma conflict_guard (db : Store) (d date t : string) :
  (0 <? List.length (conflict_rows db d date t))%nat = true <-> slot_taken db d date t.
Proof.
  unfold slot_taken. split.
  - destruct (conflict_rows db d date t) as [|b l] eqn:E; simpl; [discriminate|].
    intros _. exists b. apply conflict_rows_In. rewrite E. now left.
  - intros (b & Hb). apply conflict_rows_In in Hb.
    destruct (conflict_rows db d date t); [destruct Hb|reflexivity].
Qed.

(** The write-time check of the direct path: a taken slot is refused and
    the store is left as it was. *)
Lemma create_directly_refuses (db : Store) (u : string) (doc : Doctor) (f : Form)
  (newId now : string) :
  slot_taken db (d_id doc) (selectedDate f) (selectedTime f) ->
  create_directly db u doc f newId now = (db, SlotUnavailable).
Proof.
  intros H. apply conflict_guard in H. unfold create_directly. now rewrite H.
Qed.

(** A free slot is booked: one row is appended, for that doctor, date and
    time. *)
Lemma create_directly_proceeds (db : Store) (u : string) (doc : Doctor) (f : Form)
  (newId now : string) :
  ~ slot_taken db (d_id doc) (selectedDate f) (selectedTime f) ->
  exists db' b,
    create_directly db u doc f newId now = (db', BookingCreatedPaymentPending b)
    /\ bookings db' = (bookings db ++ [b])%list
    /\ id b = newId /\ user_id b = u /\ doctor_id b = d_id doc
    /\ appointment_date b = selectedDate f /\ appointment_time b = selectedTime f
    /\ status b = pending /\ payment_status b = payment_pending.
Proof.
  intros H. rewrite <- conflict_guard in H. apply not_true_is_false in H.
  unfold create_directly. rewrite H.
  destruct (fee_for (membership_of db u)) as [fee dec].
  eexists _, _. split; [reflexivity|]. simpl. auto 12.
Qed.

(** C1.  The repository's guard at a store where the slot was booked,
    cancelled and booked again: a non-cancelled booking holds the slot, yet
    [hasConflict] answers false, because it keeps one row before it looks at
    the status; the direct path of [handleBooking] refuses the same slot. *)
Theorem hasConflict_misses_active_booking :
  slot_taken Samples.rebooked "d1" "2025-01-06" "09:00"
  /\ BookingsRepo.hasConflict Samples.rebooked "d1" "2025-01-06" "09:00" = false
  /\ create_directly Samples.rebooked "u3" Samples.dr (Samples.form_0900 "u3")
                     "b3" "t1"
     = (Samples.rebooked, SlotUnavailable).
Proof.
  split; [|split].
  - exists (Samples.booking_at "b2" "u2" "d1" "2025-01-06" "09:00" pending).
    simpl. repeat split; auto. discriminate.
  - reflexivity.
  - reflexivity.
Qed.

Lemma filter_map_same {A} (p : A -> bool) (g : A -> A) (l : list A) :
  (forall x, p (g x) = p x) -> filter p (map g l) = map g (filter p l).
Proof.
  intros H. induction l as [|x r IH]; simpl; [reflexivity|].
  rewrite H. destruct (p x); simpl; now rewrite IH.
Qed.

Lemma membership_of_user (db : Store) (u : string) (m : Membership) :
  membership_of db u = Some m -> m_user_id m = u.
Proof.
  unfold membership_of, single. intros H.
  destruct (filter _ (memberships db)) as [|x [|y l]] eqn:E; try discriminate.
  injection H as ->.
  assert (Hin : In m (filter (fun m => String.eqb (m_user_id m) u) (memberships db)))
    by (rewrite E; now left).
  apply filter_In in Hin as [_ Hu]. now apply String.eqb_eq.
Qed.

Lemma membership_after_decrement (db : Store) (u now : string) (m : Membership)
  (bs : list Booking) :
  membership_of db u = Some m ->
  membership_of (mkStore bs (decrement_credit u m now (memberships db))
                         (doctor_schedules db)) u
  = Some (mkMembership u (membership_type m)
                       (Some (or_zero (free_bookings_remaining m) - 1)) now).
Proof.
  intros H. pose proof (membership_of_user _ _ _ H) as Hu.
  unfold membership_of in *. simpl. unfold decrement_credit.
  rewrite filter_map_same.
  - unfold single in H.
    destruct (filter _ (memberships db)) as [|x [|y l]]; try discriminate.
    injection H as ->. simpl. rewrite Hu, String.eqb_refl. reflexivity.
  - intros x. destruct (String.eqb (m_user_id x) u) eqn:E; simpl; assumption.
Qed.

Lemma fee_for_credit (db : Store) (u : string) :
  premium_with_credit db u -> fee_for (membership_of db u) = (0, true).
Proof.
  intros (m & v & -> & Hp & Hv & Hpos). unfold fee_for. rewrite Hp, Hv. simpl.
  apply Z.ltb_lt in Hpos. now rewrite Hpos.
Qed.

Lemma fee_for_no_credit (db : Store) (u : string) :
  ~ premium_with_credit db u -> fee_for (membership_of db u) = (baseBookingFee, false).
Proof.
  intros H. unfold fee_for.
  destruct (membership_of db u) as [m|] eqn:E; [|reflexivity].
  destruct (membership_kind_eqb (membership_type m) premium) eqn:Ek; [|reflexivity].
  destruct (0 <? or_zero (free_bookings_remaining m)) eqn:Ev; [|reflexivity].
  exfalso. apply H. unfold premium_with_credit. rewrite E.
  apply Z.ltb_lt in Ev.
  destruct (free_bookings_remaining m) as [v|] eqn:Ef; simpl in Ev; [|lia].
  exists m, v. repeat split; auto.
  destruct (membership_type m); [discriminate|reflexivity].
Qed.

(** C2.  A booking created by the direct path: its fee is 0 for a premium
    member with a free booking left and 1000 otherwise; it is inserted with
    status pending, payment pending and the fee as total; a consumed credit
    takes the counter down by one; and a premium member starting with one
    free booking pays 0, is left with 0, and pays 1000 for the next
    booking. *)
Theorem direct_booking_fee (db db' : Store) (u : string) (doc : Doctor) (f : Form)
  (newId now : string) (b : Booking) :
  create_directly db u doc f newId now = (db', BookingCreatedPaymentPending b) ->
  (premium_with_credit db u -> booking_fee b = 0)
  /\ (~ premium_with_credit db u -> booking_fee b = 1000)
  /\ status b = pending /\ payment_status b = payment_pending
  /\ total_amount b = booking_fee b
  /\ bookings db' = (bookings db ++ [b])%list
  /\ (forall m v, membership_of db u = Some m -> membership_type m = premium ->
                  free_bookings_remaining m = Some v -> 0 < v ->
                  membership_of db' u = Some (mkMembership u premium (Some (v - 1)) now))
  /\ (~ premium_with_credit db u -> memberships db' = memberships db)
  /\ (forall m, membership_of db u = Some m -> membership_type m = premium ->
                free_bookings_remaining m = Some 1 ->
                booking_fee b = 0
                /\ (exists m', membership_of db' u = Some m'
                               /\ free_bookings_remaining m' = Some 0)
                /\ forall doc2 f2 id2 now2 db2 b2,
                     create_directly db' u doc2 f2 id2 now2
                     = (db2, BookingCreatedPaymentPending b2) ->
                     booking_fee b2 = 1000).
Proof.
  unfold create_directly.
  destruct (0 <? List.length (conflict_rows db (d_id doc) (selectedDate f) (selectedTime f)))%nat;
    [discriminate|].
  destruct (fee_for (membership_of db u)) as [fee dec] eqn:Efee.
  intros [= <- <-]. cbn [booking_fee status payment_status total_amount bookings memberships].
  assert (Hcredit : forall m v, membership_of db u = Some m -> membership_type m = premium ->
            free_bookings_remaining m = Some v -> 0 < v ->
            fee = 0 /\
            membership_of
              (mkStore (bookings db ++ [mkBooking newId u (d_id doc) (selectedDate f)
                          (selectedTime f) pending payment_pending
                          (d_consultation_fee doc) fee fee (notes_text f) now])%list
                 match membership_of db u with
                 | Some m0 => if dec then decrement_credit u m0 now (memberships db)
                              else memberships db
                 | None => memberships db
                 end (doctor_schedules db)) u
            = Some (mkMembership u premium (Some (v - 1)) now)).
  { intros m v Hm Hp Hv Hpos.
    assert (Hc : premium_with_credit db u) by (exists m, v; auto).
    rewrite (fee_for_credit _ _ Hc) in Efee. injection Efee as <- <-.
    split; [reflexivity|]. rewrite Hm.
    rewrite (membership_after_decrement db u now m _ Hm), Hp, Hv. reflexivity. }
  repeat split.
  - intros Hc. rewrite (fee_for_credit _ _ Hc) in Efee. congruence.
  - intros Hn. rewrite (fee_for_no_credit _ _ Hn) in Efee. unfold baseBookingFee in Efee.
    congruence.
  - intros m v Hm Hp Hv Hpos. now apply (Hcredit m v).
  - intros Hn. rewrite (fee_for_no_credit _ _ Hn) in Efee. injection Efee as <- <-.
    destruct (membership_of db u); reflexivity.
  - destruct (Hcredit m 1 H H0 H1 ltac:(lia)) as [E _]. exact E.
  - destruct (Hcredit m 1 H H0 H1 ltac:(lia)) as [_ E].
    eexists. split; [exact E|reflexivity].
  - intros doc2 f2 id2 now2 db2 b2.
    destruct (Hcredit m 1 H H0 H1 ltac:(lia)) as [_ E].
    destruct (0 <? List.length _)%nat; [discriminate|].
    rewrite E. simpl. intros [= <- <-]. reflexivity.
Qed.

Lemma direct_booking_fee_witness :
  booking_fee Samples.first_booking = 0
  /\ membership_of Samples.after_first "u1"
     = Some (mkMembership "u1" premium (Some 0) "t1")
  /\ create_directly Samples.after_first "u1" Samples.dr (Samples.form_0930 "u1")
                     "b2" "t2"
     = (Samples.after_second, BookingCreatedPaymentPending Samples.second_booking)
  /\ booking_fee Samples.second_booking = 1000.
Proof.
  pose proof (direct_booking_fee Samples.one_credit Samples.after_first "u1"
                Samples.dr (Samples.form_0900 "u1") "b1" "t1"
                Samples.first_booking eq_refl) as H.
  destruct H as (_ & _ & _ & _ & _ & _ & Hdec & _ & H).
  destruct (H (mkMembership "u1" premium (Some 1) "t0") eq_refl eq_refl eq_refl)
    as (H1 & _ & H3).
  split; [exact H1|].
  split; [exact (Hdec (mkMembership "u1" premium (Some 1) "t0") 1
                      eq_refl eq_refl eq_refl eq_refl)|].
  split; [reflexivity|].
  exact (H3 Samples.dr (Samples.form_0930 "u1") "b2" "t2" Samples.after_second
            Samples.second_booking eq_refl).
Defined.

End BookingFacts.

(** ** The book-and-pay flow *)

Module FlowFacts.
Import Remote Booking BookingFacts.

Lemma truthy_true (s : string) : truthy s = true <-> s <> "".
Proof.
  unfold truthy. destruct (String.eqb_spec s ""); simpl; split; congruence.
Qed.

(** The flow only ever appends to [bookings]: no row is removed and no row
    is rewritten, whatever the channels answer. *)
Lemma handleBooking_keeps_bookings (f : Form) (r : Replies) (db : Store)
  (newId now : string) :
  exists extra,
    bookings (fst (fst (handleBooking f r db newId now)))
    = (bookings db ++ extra)%list
    /\ (List.length extra <= 1)%nat.
Proof.
  assert (Hdirect : forall u d,
    exists extra,
      bookings (fst (create_directly db u d f newId now)) = (bookings db ++ extra)%list
      /\ (List.length extra <= 1)%nat).
  { intros u d. unfold create_directly.
    destruct (0 <? List.length _)%nat.
    - exists []. simpl. rewrite app_nil_r. auto.
    - destruct (fee_for (membership_of db u)) as [fee dec]. simpl.
      eexists [_]. simpl. auto. }
  assert (Hsame : exists extra,
            bookings db = (bookings db ++ extra)%list /\ (List.length extra <= 1)%nat).
  { exists []. simpl. rewrite app_nil_r. auto. }
  unfold handleBooking.
  destruct (user f) as [u|]; [|exact Hsame].
  destruct (doctor f) as [d|]; [|exact Hsame].
  destruct (negb (truthy (selectedDate f)) || negb (truthy (selectedTime f)));
    [exact Hsame|].
  specialize (Hdirect u d).
  destruct (create_directly db u d f newId now) as [db' o].
  destruct (booking_of_primary (create_primary r));
    [|destruct (booking_of_secondary (create_secondary r)); [|exact Hdirect]];
    (destruct (url_of_primary (pay_primary r));
     [exact Hsame|destruct (url_of_secondary (pay_secondary r)); [exact Hsame|exact Hdirect]]).
Qed.

(** When neither channel yields a booking and the slot is free, the direct
    path inserts the booking with payment pending. *)
Lemma functions_unreachable_fallback (f : Form) (r : Replies) (db : Store)
  (newId now u : string) (d : Doctor) :
  user f = Some u -> doctor f = Some d ->
  selectedDate f <> "" -> selectedTime f <> "" ->
  obtained_booking r = None ->
  ~ slot_taken db (d_id d) (selectedDate f) (selectedTime f) ->
  exists db' b,
    fst (handleBooking f r db newId now) = (db', BookingCreatedPaymentPending b)
    /\ bookings db' = (bookings db ++ [b])%list
    /\ payment_status b = payment_pending /\ status b = pending.
Proof.
  intros Hu Hd Hdate Htime Hnone Hfree.
  apply truthy_true in Hdate, Htime.
  unfold handleBooking, obtained_booking in *. rewrite Hu, Hd, Hdate, Htime. simpl.
  destruct (create_directly_proceeds db u d f newId now Hfree)
    as (db' & b & E & Hb & _ & _ & _ & _ & _ & Hs & Hp).
  destruct (booking_of_primary (create_primary r)); [discriminate|].
  rewrite Hnone, E. simpl. exists db', b. auto.
Qed.

(** When a booking was obtained and is in the store, and no payment URL can
    be had, the final fallback finds that very booking in its conflict
    check. *)
Lemma payment_failure_after_creation (f : Form) (r : Replies) (db : Store)
  (newId now u : string) (d : Doctor) (b : Booking) :
  user f = Some u -> doctor f = Some d ->
  selectedDate f <> "" -> selectedTime f <> "" ->
  obtained_booking r = Some b -> obtained_url r = None ->
  In b (bookings db) -> doctor_id b = d_id d ->
  appointment_date b = selectedDate f -> appointment_time b = selectedTime f ->
  status b <> cancelled ->
  fst (handleBooking f r db newId now) = (db, SlotUnavailable).
Proof.
  intros Hu Hd Hdate Htime Hb Hurl Hin H1 H2 H3 H4.
  apply truthy_true in Hdate, Htime.
  assert (Hc : create_directly db u d f newId now = (db, SlotUnavailable)).
  { apply create_directly_refuses. exists b. auto. }
  unfold handleBooking, obtained_booking, obtained_url in *.
  rewrite Hu, Hd, Hdate, Htime, Hc. simpl.
  destruct (booking_of_primary (create_primary r));
    [|destruct (booking_of_secondary (create_secondary r)); [|discriminate]];
    (destruct (url_of_primary (pay_primary r)); [discriminate|];
     rewrite Hurl; reflexivity).
Qed.

(** C6.  Payment initiation fails over both channels after the remote
    function created the booking: the final fallback's conflict check meets
    that booking, nothing is inserted, and the user is shown 'Slot
    Unavailable' instead of the retry-payment-later outcome.  The created
    booking stays in the store untouched. *)
Theorem payment_failure_reports_slot_unavailable :
  obtained_booking Samples.payment_down = Some Samples.remote_booking
  /\ obtained_url Samples.payment_down = None
  /\ In Samples.remote_booking (bookings Samples.after_remote_create)
  /\ handleBooking (Samples.form_0900 "u1") Samples.payment_down
                   Samples.after_remote_create "b8" "t1"
     = (Samples.after_remote_create, SlotUnavailable,
        [mkCall Primary create_booking_fn;
         mkCall Primary create_payment_fn;
         mkCall Secondary create_payment_fn]).
Proof.
  repeat split; try reflexivity. now left.
Qed.

(** C7, as stated, fails: a refusal by the function ([success: false], or a
    non-2xx answer through [invokeWithFallback]) is followed by an attempt
    over the secondary channel, and when the primary channel answers, the
    secondary channel is not tried at all. *)
Lemma secondary_tried_after_rejection :
  (business_rejection (create_primary Samples.refused)
   /\ ~ transport_failure (create_primary Samples.refused)
   /\ attempts (mkCall Secondary create_booking_fn)
               (snd (handleBooking (Samples.form_0900 "u1") Samples.refused
                                   Samples.after_remote_create "b8" "t1"))
      = 1%nat)
  /\ (business_rejection (@HttpStatus Booking 409)
      /\ ~ transport_failure (@HttpStatus Booking 409)
      /\ attempts (mkCall Secondary create_booking_fn)
                  (snd (invokeWithFallback create_booking_fn
                          (@HttpStatus Booking 409) NoResponse))
         = 1%nat)
  /\ attempts (mkCall Secondary create_booking_fn)
              (snd (handleBooking (Samples.form_0900 "u1") Samples.all_up
                                  Samples.after_remote_create "b8" "t1"))
     = 0%nat.
Proof.
  repeat split; try reflexivity; try discriminate.
  - right. reflexivity.
  - left. now exists 409.
Qed.

(** C7, amended.  Each function the flow reaches is tried once over the
    primary channel and at most once over the secondary channel, and the
    payment function is reached only once a booking was obtained.  In
    [handleBooking] the secondary channel is tried exactly when the primary
    reply carries no booking (no payment URL): after a transport failure,
    after an answer with an error status and after a 2xx body that refuses
    alike.  In [invokeWithFallback] the secondary channel is tried exactly
    when the primary invocation returns an error, that is after a transport
    failure and after an answer with an error status; a 2xx body is returned
    as it is, also when it says [success: false], with no second attempt. *)
Theorem channel_attempts (f : Form) (r : Replies) (db : Store)
  (newId now u : string) (d : Doctor) :
  user f = Some u -> doctor f = Some d ->
  selectedDate f <> "" -> selectedTime f <> "" ->
  let trace := snd (handleBooking f r db newId now) in
  attempts (mkCall Primary create_booking_fn) trace = 1%nat
  /\ attempts (mkCall Secondary create_booking_fn) trace
     = once_if (is_none (booking_of_primary (create_primary r)))
  /\ attempts (mkCall Primary create_payment_fn) trace
     = once_if (is_some (obtained_booking r))
  /\ attempts (mkCall Secondary create_payment_fn) trace
     = once_if (is_some (obtained_booking r)
                && is_none (url_of_primary (pay_primary r)))
  /\ (transport_failure (create_primary r) \/ business_rejection (create_primary r) ->
      attempts (mkCall Secondary create_booking_fn) trace = 1%nat)
  /\ (forall (A : Type) (name : string) (p s : Reply A),
        let t := snd (invokeWithFallback name p s) in
        attempts (mkCall Primary name) t = 1%nat
        /\ attempts (mkCall Secondary name) t = once_if (negb (answered p))
        /\ (transport_failure p \/ (exists code, p = HttpStatus code) ->
            attempts (mkCall Secondary name) t = 1%nat)
        /\ (forall ok data, p = Json ok data ->
            attempts (mkCall Secondary name) t = 0%nat
            /\ fst (invokeWithFallback name p s) = Returned ok data)).
Proof.
  intros Hu Hd Hdate Htime trace.
  apply truthy_true in Hdate, Htime.
  assert (Hsec : attempts (mkCall Secondary create_booking_fn) trace
                 = once_if (is_none (booking_of_primary (create_primary r)))).
  { unfold trace, handleBooking. rewrite Hu, Hd, Hdate, Htime. simpl.
    destruct (create_directly db u d f newId now) as [db' o].
    destruct (booking_of_primary (create_primary r));
      [|destruct (booking_of_secondary (create_secondary r))];
      try (destruct (url_of_primary (pay_primary r));
           [|destruct (url_of_secondary (pay_secondary r))]);
      reflexivity. }
  split; [|split; [exact Hsec|split; [|split; [|split]]]].
  - unfold trace, handleBooking. rewrite Hu, Hd, Hdate, Htime. simpl.
    destruct (create_directly db u d f newId now) as [db' o].
    destruct (booking_of_primary (create_primary r));
      [|destruct (booking_of_secondary (create_secondary r))];
      try (destruct (url_of_primary (pay_primary r));
           [|destruct (url_of_secondary (pay_secondary r))]);
      reflexivity.
  - unfold trace, handleBooking, obtained_booking. rewrite Hu, Hd, Hdate, Htime. simpl.
    destruct (create_directly db u d f newId now) as [db' o].
    destruct (booking_of_primary (create_primary r));
      [|destruct (booking_of_secondary (create_secondary r))];
      try (destruct (url_of_primary (pay_primary r));
           [|destruct (url_of_secondary (pay_secondary r))]);
      reflexivity.
  - unfold trace, handleBooking, obtained_booking. rewrite Hu, Hd, Hdate, Htime. simpl.
    destruct (create_directly db u d f newId now) as [db' o].
    destruct (booking_of_primary (create_primary r));
      [|destruct (booking_of_secondary (create_secondary r))];
      try (destruct (url_of_primary (pay_primary r));
           [|destruct (url_of_secondary (pay_secondary r))]);
      reflexivity.
  - rewrite Hsec. unfold transport_failure, business_rejection.
    intros [-> | [[code ->] | ->]]; reflexivity.
  - intros A name p s t. unfold t, invokeWithFallback, attempts, Call_eqb.
    destruct p; simpl; rewrite String.eqb_refl; simpl; repeat split;
      try reflexivity; try discriminate.
    + intros [H | [code H]]; discriminate H.
    + injection H as -> ->. reflexivity.
Qed.

Lemma channel_attempts_witness :
  attempts (mkCall Secondary create_booking_fn)
           (snd (handleBooking (Samples.form_0900 "u1") Samples.refused
                               Samples.after_remote_create "b8" "t1"))
  = 1%nat
  /\ attempts (mkCall Primary create_payment_fn)
              (snd (handleBooking (Samples.form_0900 "u1") Samples.refused
                                  Samples.after_remote_create "b8" "t1"))
     = 0%nat
  /\ attempts (mkCall Secondary create_booking_fn)
              (snd (invokeWithFallback create_booking_fn
                      (@Json Booking false None) NoResponse))
     = 0%nat
  /\ attempts (mkCall Secondary create_booking_fn)
              (snd (invokeWithFallback create_booking_fn
                      (@HttpStatus Booking 409) NoResponse))
     = 1%nat.
Proof.
  pose proof (channel_attempts (Samples.form_0900 "u1") Samples.refused
                Samples.after_remote_create "b8" "t1" "u1" Samples.dr
                eq_refl eq_refl) as H.
  assert (H1 : selectedDate (Samples.form_0900 "u1") <> "") by discriminate.
  assert (H2 : selectedTime (Samples.form_0900 "u1") <> "") by discriminate.
  specialize (H H1 H2). cbv zeta in H.
  destruct H as (_ & _ & Hpay & _ & Hsec & Hinv).
  split; [apply Hsec; right; right; reflexivity|]. split; [exact Hpay|]. split.
  - destruct (Hinv Booking create_booking_fn (Json false None) NoResponse)
      as (_ & _ & _ & Hok).
    exact (proj1 (Hok false None eq_refl)).
  - destruct (Hinv Booking create_booking_fn (HttpStatus 409) NoResponse)
      as (_ & _ & Herr & _).
    apply Herr. right. now exists 409.
Defined.

End FlowFacts.

(** ** Status transitions *)

Module TransitionFacts.
Import Transitions.

Lemma own_pending_decided (d bookingId : string) (b : Booking) :
  own_pending d bookingId b = true <-> decided (Some d) bookingId b.
Proof.
  unfold own_pending, decided. split.
  - intros H. apply andb_prop in H as [H H3]. apply andb_prop in H as [H1 H2].
    apply String.eqb_eq in H1, H2. subst.
    destruct (status b); try discriminate. auto.
  - intros (-> & [= ->] & ->). now rewrite !String.eqb_refl.
Qed.

Lemma update_where_Forall2 (sel : Booking -> bool) (f : Booking -> Booking)
  (tbl : list Booking) :
  Forall2 (fun b b' => (sel b = true -> b' = f b) /\ (sel b = false -> b' = b))
          tbl (update_where sel f tbl).
Proof.
  induction tbl as [|b r IH]; simpl; constructor; [|assumption].
  destruct (sel b); split; congruence.
Qed.

Lemma decision_scope (st : booking_status) (db : Store) (doctorInfo : option string)
  (bookingId now : string) :
  let db' := match doctorInfo with
             | None => db
             | Some d =>
                 with_bookings db
                   (update_where (own_pending d bookingId) (set_status_at st now)
                                 (bookings db))
             end in
  memberships db' = memberships db
  /\ doctor_schedules db' = doctor_schedules db
  /\ Forall2 (fun b b' =>
                (decided doctorInfo bookingId b ->
                 status b' = st /\ updated_at b' = now
                 /\ same_but_status_and_stamp b b')
                /\ (~ decided doctorInfo bookingId b -> b' = b))
             (bookings db) (bookings db').
Proof.
  destruct doctorInfo as [d|]; simpl.
  - repeat split.
    eapply Forall2_impl; [|apply update_where_Forall2].
    intros b b' [Hyes Hno]. split.
    + intros Hd. apply own_pending_decided in Hd. rewrite (Hyes Hd).
      unfold same_but_status_and_stamp. simpl. auto 12.
    + intros Hn. apply Hno. rewrite <- own_pending_decided in Hn.
      now apply not_true_is_false.
  - repeat split.
    induction (bookings db) as [|b r IH]; constructor; [|assumption].
    split; [|reflexivity]. intros (_ & [=] & _).
Qed.

(** C9.  [approveBooking] and [rejectBooking] rewrite only the booking with
    the given id that is the acting doctor's own and still pending, setting
    its status (confirmed, cancelled) and [updated_at] and no other field;
    every other booking, each membership and each schedule row is left as
    it was. *)
Theorem doctor_decision_scope (db : Store) (doctorInfo : option string)
  (bookingId now : string) :
  (let db' := approveBooking db doctorInfo bookingId now in
   memberships db' = memberships db
   /\ doctor_schedules db' = doctor_schedules db
   /\ Forall2 (fun b b' =>
                 (decided doctorInfo bookingId b ->
                  status b' = confirmed /\ updated_at b' = now
                  /\ same_but_status_and_stamp b b')
                 /\ (~ decided doctorInfo bookingId b -> b' = b))
              (bookings db) (bookings db'))
  /\ (let db' := rejectBooking db doctorInfo bookingId now in
      memberships db' = memberships db
      /\ doctor_schedules db' = doctor_schedules db
      /\ Forall2 (fun b b' =>
                    (decided doctorInfo bookingId b ->
                     status b' = cancelled /\ updated_at b' = now
                     /\ same_but_status_and_stamp b b')
                    /\ (~ decided doctorInfo bookingId b -> b' = b))
                 (bookings db) (bookings db')).
Proof.
  split.
  - exact (decision_scope confirmed db doctorInfo bookingId now).
  - exact (decision_scope cancelled db doctorInfo bookingId now).
Qed.

(** The patient's cancellation writes [status] of the rows with the given
    id and nothing else. *)
Lemma cancelBooking_scope (db : Store) (bookingId : string) :
  let db' := cancelBooking db bookingId in
  memberships db' = memberships db
  /\ doctor_schedules db' = doctor_schedules db
  /\ Forall2 (fun b b' =>
                (id b = bookingId ->
                 status b' = cancelled /\ updated_at b' = updated_at b
                 /\ same_but_status_and_stamp b b')
                /\ (id b <> bookingId -> b' = b))
             (bookings db) (bookings db').
Proof.
  simpl. repeat split.
  eapply Forall2_impl; [|apply update_where_Forall2].
  intros b b' [Hyes Hno]. split.
  - intros E. rewrite Hyes by (now apply String.eqb_eq).
    unfold same_but_status_and_stamp. simpl. auto 12.
  - intros NE. apply Hno. now apply String.eqb_neq.
Qed.

Section Guard.
Variable dateMs : string -> Clock.number.

(** A click changes the store only when the page's copy is pending and
    dated after now, and then by [cancelBooking] on the copy's id. *)
Lemma click_cancel_guarded (nowMs : Z) (shown : Booking) (db : Store) :
  click_cancel dateMs nowMs shown db = db
  \/ (status shown = pending
      /\ (exists ms, dateMs (appointment_date shown) = Some ms /\ nowMs < ms)
      /\ click_cancel dateMs nowMs shown db = cancelBooking db (id shown)).
Proof.
  unfold click_cancel.
  destruct (cancel_offered dateMs nowMs shown) eqn:G; [right|now left].
  unfold cancel_offered in G. apply andb_prop in G as [G1 G2].
  split; [destruct (status shown); try discriminate; reflexivity|].
  split; [|reflexivity].
  unfold Clock.num_gt in G2.
  destruct (dateMs (appointment_date shown)) as [ms|]; [|discriminate].
  exists ms. split; [reflexivity|]. now apply Z.ltb_lt.
Qed.
End Guard.

(** C8.  The guard of the Cancel button reads the page's copy of the
    booking, and the write selects by id alone: after the doctor confirmed
    the booking, a click on the copy still shown as pending cancels the
    confirmed booking.  Only [status] of that row is written; the other
    booking and the membership are untouched. *)
Theorem stale_copy_cancels_confirmed_booking :
  cancel_offered Samples.jan6 Samples.jan5_noon Samples.shown_copy = true
  /\ (exists stored, In stored (bookings Samples.confirmed_meanwhile)
                     /\ id stored = id Samples.shown_copy
                     /\ status stored = confirmed)
  /\ click_cancel Samples.jan6 Samples.jan5_noon Samples.shown_copy
                  Samples.confirmed_meanwhile
     = mkStore
         [Samples.booking_at "b1" "u1" "d1" "2025-01-06" "09:00" cancelled;
          Samples.booking_at "b2" "u2" "d1" "2025-01-06" "09:30" pending]
         (memberships Samples.confirmed_meanwhile)
         (doctor_schedules Samples.confirmed_meanwhile).
Proof.
  split; [reflexivity|]. split; [|reflexivity].
  eexists. split; [left; reflexivity|]. split; reflexivity.
Qed.

End TransitionFacts.

(** ** Schedule persistence *)

Module ScheduleFacts.
Import Clock Schedule ClockFacts SortFacts.

Lemma day_rows_shape (doc : string) (d : Z) (st : option DayState) :
  day_rows doc d st = []
  \/ exists a b, day_rows doc d st = [mkWindow doc d a b true]
                 /\ num_gt (toMinutes b) (toMinutes a) = true.
Proof.
  unfold day_rows. destruct st as [st|]; [|now left].
  destruct (sorted_selection st) as [|start rest]; [now left|].
  destruct (num_gt _ (toMinutes start)) eqn:E; [right; eauto|now left].
Qed.

Lemma num_gt_neq (a b : string) :
  num_gt (toMinutes b) (toMinutes a) = true -> a <> b.
Proof.
  intros H ->. unfold num_gt in H.
  destruct (toMinutes b); [apply Z.ltb_lt in H; lia|discriminate].
Qed.

Section Days.
Variables (doc : string) (ds : DayStates).

Lemma rows_over_In (l : list Z) (w : ScheduleWindow) :
  In w (rows_over doc ds l) ->
  s_doctor_id w = doc /\ In (day_of_week w) l /\ is_available w = true
  /\ start_time w <> end_time w.
Proof.
  unfold rows_over. rewrite in_flat_map. intros (d & Hd & Hw).
  destruct (day_rows_shape doc d (ds d)) as [E | (a & b & E & G)];
    rewrite E in Hw; [destruct Hw|].
  destruct Hw as [<- | []]. simpl. repeat split; auto.
  now apply num_gt_neq.
Qed.

Lemma day_rows_filter (x d : Z) :
  filter (fun w => day_of_week w =? d) (day_rows doc x (ds x))
  = if x =? d then day_rows doc x (ds x) else [].
Proof.
  destruct (day_rows_shape doc x (ds x)) as [E | (a & b & E & _)]; rewrite E; simpl.
  - now destruct (x =? d).
  - now destruct (x =? d).
Qed.

Lemma rows_over_filter_out (l : list Z) (d : Z) :
  ~ In d l -> filter (fun w => day_of_week w =? d) (rows_over doc ds l) = [].
Proof.
  induction l as [|x r IH]; simpl; intros Hn; [reflexivity|].
  rewrite filter_app, day_rows_filter, IH by tauto.
  destruct (Z.eqb_spec x d); [exfalso; tauto|reflexivity].
Qed.

Lemma rows_over_filter_in (l : list Z) (d : Z) :
  NoDup l -> In d l ->
  filter (fun w => day_of_week w =? d) (rows_over doc ds l) = day_rows doc d (ds d).
Proof.
  induction 1 as [|x r Hx Hr IH]; simpl; intros Hin; [destruct Hin|].
  rewrite filter_app, day_rows_filter.
  destruct (Z.eqb_spec x d) as [-> | NE].
  - now rewrite rows_over_filter_out, app_nil_r.
  - destruct Hin as [E | Hin]; [congruence|]. now rewrite IH.
Qed.

Lemma rows_over_NoDup (l : list Z) :
  NoDup l -> NoDup (map day_of_week (rows_over doc ds l)).
Proof.
  induction 1 as [|x r Hx Hr IH]; simpl; [constructor|].
  rewrite map_app.
  destruct (day_rows_shape doc x (ds x)) as [E | (a & b & E & _)]; rewrite E; simpl.
  - assumption.
  - constructor; [|assumption].
    intros Hin. apply in_map_iff in Hin as (w & Ew & Hw).
    apply rows_over_In in Hw as (_ & Hw & _). congruence.
Qed.
End Days.

Lemma weekdays_NoDup : NoDup weekdays.
Proof.
  unfold weekdays. repeat constructor; simpl; intuition discriminate.
Qed.

Lemma upsert_row_fresh (r : ScheduleWindow) (tbl : list ScheduleWindow) :
  (forall x, In x tbl -> same_key x r = false) -> upsert_row r tbl = (tbl ++ [r])%list.
Proof.
  induction tbl as [|x t IH]; simpl; intros H; [reflexivity|].
  rewrite (H x) by now left. rewrite IH; [reflexivity|]. intros y Hy. apply H. now right.
Qed.

Lemma upsert_fresh (rows tbl : list ScheduleWindow) :
  NoDup (map day_of_week rows) ->
  (forall x r, In x tbl -> In r rows -> same_key x r = false) ->
  upsert rows tbl = (tbl ++ rows)%list.
Proof.
  unfold upsert. revert tbl.
  induction rows as [|r rs IH]; simpl; intros tbl Hnd Hk; [now rewrite app_nil_r|].
  inversion Hnd as [|? ? Hr Hrs]; subst.
  rewrite upsert_row_fresh by (intros x Hx; apply Hk; [assumption|now left]).
  rewrite IH; [now rewrite <- app_assoc|assumption|].
  intros x r' Hx Hr'. apply in_app_iff in Hx as [Hx | [<- | []]].
  - apply Hk; [assumption|now right].
  - unfold same_key. destruct (Z.eqb_spec (day_of_week r) (day_of_week r')) as [E|];
      [|apply andb_false_r].
    exfalso. apply Hr. rewrite E. now apply in_map.
Qed.

(** What the save leaves in the store: the other doctors' rows, then the
    computed rows. *)
Lemma saveSchedule_written (db db' : Store) (di ei : string) (ds : DayStates) :
  saveSchedule db di ei ds = (db', ScheduleLive) ->
  let doc := resolve_doctor di ei in
  doctor_schedules db'
  = (delete_for doc (doctor_schedules db) ++ schedule_rows doc ds)%list
  /\ bookings db' = bookings db /\ memberships db' = memberships db.
Proof.
  unfold saveSchedule.
  destruct (negb (truthy (resolve_doctor di ei))); [discriminate|].
  intros [= <-]. simpl. repeat split.
  set (doc := resolve_doctor di ei).
  destruct (schedule_rows doc ds) as [|r rs] eqn:E; [now rewrite app_nil_r|].
  rewrite <- E. apply upsert_fresh.
  - apply rows_over_NoDup, weekdays_NoDup.
  - intros x r' Hx Hr'. apply filter_In in Hx as [_ Hx].
    apply rows_over_In in Hr' as (Hd & _). unfold same_key. rewrite Hd.
    apply negb_true_iff in Hx. now rewrite Hx.
Qed.

Lemma filter_none {A} (p : A -> bool) (l : list A) :
  (forall x, In x l -> p x = false) -> filter p l = [].
Proof.
  induction l as [|x r IH]; simpl; intros H; [reflexivity|].
  rewrite (H x) by now left. apply IH. intros y Hy. apply H. now right.
Qed.

Lemma filter_all {A} (p : A -> bool) (l : list A) :
  (forall x, In x l -> p x = true) -> filter p l = l.
Proof.
  induction l as [|x r IH]; simpl; intros H; [reflexivity|].
  rewrite (H x) by now left. f_equal. apply IH. intros y Hy. apply H. now right.
Qed.

Lemma saveSchedule_read_back (db db' : Store) (di ei : string) (ds : DayStates) :
  saveSchedule db di ei ds = (db', ScheduleLive) ->
  schedules_of db' (resolve_doctor di ei) = schedule_rows (resolve_doctor di ei) ds.
Proof.
  intros H. pose proof (saveSchedule_written _ _ _ _ _ H) as (E & _).
  unfold schedules_of. rewrite E, filter_app.
  rewrite filter_none, filter_all; [reflexivity| |].
  - intros w Hw. apply rows_over_In in Hw as (-> & _). apply String.eqb_refl.
  - intros w Hw. apply filter_In in Hw as [_ Hw]. now apply negb_true_iff in Hw.
Qed.

(** C5.  A save that reports 'Schedule is live' has replaced the doctor's
    schedule: reading the doctor's rows afterwards returns exactly the rows
    computed from the selections, in order, so no earlier row of the doctor
    is left; the rows of every other doctor, the bookings and the
    memberships are as before. *)
Theorem saveSchedule_full_replace (db db' : Store) (di ei : string) (ds : DayStates) :
  saveSchedule db di ei ds = (db', ScheduleLive) ->
  let doctorId := resolve_doctor di ei in
  schedules_of db' doctorId = schedule_rows doctorId ds
  /\ (forall other, other <> doctorId ->
                    schedules_of db' other = schedules_of db other)
  /\ bookings db' = bookings db /\ memberships db' = memberships db.
Proof.
  intros H doctorId. split; [exact (saveSchedule_read_back _ _ _ _ _ H)|].
  pose proof (saveSchedule_written _ _ _ _ _ H) as (E & Hb & Hm).
  fold doctorId in E.
  repeat split; try assumption.
  intros other Hne. unfold schedules_of. rewrite E, filter_app.
  rewrite (filter_none _ (schedule_rows doctorId ds)).
  - rewrite app_nil_r. unfold delete_for. clear E.
    induction (doctor_schedules db) as [|w l IH]; simpl; [reflexivity|].
    destruct (String.eqb_spec (s_doctor_id w) doctorId) as [Ew | NEw]; simpl.
    + rewrite IH. destruct (String.eqb_spec (s_doctor_id w) other); [congruence|reflexivity].
    + rewrite IH. reflexivity.
  - intros w Hw. apply rows_over_In in Hw as (-> & _). now apply String.eqb_neq.
Qed.

Lemma saveSchedule_full_replace_witness :
  Schedule.schedules_of Samples.after_save "d1"
  = [mkWindow "d1" 1 "08:00" "10:00" true]
  /\ Schedule.schedules_of Samples.after_save "d2"
     = Schedule.schedules_of Samples.before_save "d2".
Proof.
  pose proof (saveSchedule_full_replace Samples.before_save Samples.after_save
                "d1" "" Samples.week eq_refl) as H.
  cbv zeta in H. destruct H as (H1 & H2 & _).
  split; [exact H1|]. apply H2. discriminate.
Defined.

Lemma canonical_minutes (l : list string) :
  (forall t, In t l -> exists m, 0 <= m < Slots.day_minutes /\ t = toHHMM m) ->
  exists ms, l = map toHHMM ms /\ Forall (fun m => 0 <= m < Slots.day_minutes) ms.
Proof.
  induction l as [|t r IH]; intros H.
  - exists []. split; [reflexivity|constructor].
  - destruct (H t (or_introl eq_refl)) as (m & Hm & ->).
    destruct IH as (ms & -> & Hms); [intros x Hx; apply H; now right|].
    exists (m :: ms). split; [reflexivity|now constructor].
Qed.

Lemma last_In {A} (l : list A) (d : A) : l <> [] -> In (last l d) l.
Proof.
  induction l as [|x r IH]; [congruence|]. intros _.
  destruct r as [|y r']; [now left|].
  right. apply IH. discriminate.
Qed.

Lemma last_of_map {A B} (f : A -> B) (l : list A) (d : A) :
  last (map f l) (f d) = f (last l d).
Proof.
  induction l as [|x r IH]; [reflexivity|].
  destruct r as [|y r']; [reflexivity|]. exact IH.
Qed.

Lemma sorted_last_max (l : list Z) (d y : Z) :
  StronglySorted Z.le l -> In y l -> y <= last l d.
Proof.
  induction 1 as [|x r Hr IH Hx]; intros Hy; [destruct Hy|].
  destruct r as [|z r'].
  - destruct Hy as [<- | []]. simpl. lia.
  - change (last (x :: z :: r') d) with (last (z :: r') d).
    destruct Hy as [<- | Hy]; [|now apply IH].
    rewrite Forall_forall in Hx. apply Hx. apply last_In. discriminate.
Qed.

(** The row one weekday contributes when its selection is a non-empty set
    of clock times: from the earliest selected time to half an hour past the
    latest. *)
Lemma day_rows_span (doc : string) (d : Z) (st : DayState) :
  selected st <> [] ->
  (forall t, In t (selected st) ->
             exists m, 0 <= m < Slots.day_minutes /\ t = toHHMM m) ->
  exists lo hi,
    0 <= lo /\ lo <= hi /\ hi < Slots.day_minutes
    /\ In (toHHMM lo) (selected st) /\ In (toHHMM hi) (selected st)
    /\ (forall m, 0 <= m < Slots.day_minutes -> In (toHHMM m) (selected st) ->
                  lo <= m <= hi)
    /\ day_rows doc d (Some st)
       = [mkWindow doc d (toHHMM lo) (toHHMM (hi + 30)) true].
Proof.
  intros Hne Hcan. apply canonical_minutes in Hcan as (ms & E & Hms).
  assert (Hhr : Forall hour_range ms).
  { eapply Forall_impl; [|exact Hms]. unfold hour_range, Slots.day_minutes.
    simpl. lia. }
  assert (Es : sorted_selection st = map toHHMM (Slots.sort Z.compare ms)).
  { unfold sorted_selection. rewrite E.
    apply (sort_map toHHMM String.compare Z.compare hour_range);
      [|assumption].
    intros x y Hx Hy. now apply toHHMM_compare. }
  pose proof (sort_sorted ms) as Hsorted.
  pose proof (sort_perm Z.compare ms) as Hperm.
  assert (Hin : forall x, In x (Slots.sort Z.compare ms) <-> In x ms)
    by (intros x; apply sort_in).
  destruct (Slots.sort Z.compare ms) as [|lo rest] eqn:ES.
  { apply Permutation_nil in Hperm. subst ms. simpl in E. congruence. }
  set (hi := last (lo :: rest) lo).
  assert (Hhi : In hi (lo :: rest)) by (apply last_In; discriminate).
  rewrite Forall_forall in Hms.
  assert (Hlo_r : 0 <= lo < Slots.day_minutes) by (apply Hms, Hin; now left).
  assert (Hhi_r : 0 <= hi < Slots.day_minutes) by (apply Hms, Hin; exact Hhi).
  assert (Hle : forall m, In m ms -> lo <= m <= hi).
  { intros m Hm. apply Hin in Hm. split.
    - inversion Hsorted as [|? ? _ Hall]; subst.
      destruct Hm as [<- | Hm]; [lia|]. rewrite Forall_forall in Hall. now apply Hall.
    - now apply sorted_last_max. }
  exists lo, hi. unfold Slots.day_minutes in *.
  split; [lia|]. split; [apply Hle, Hin; now left|]. split; [lia|].
  split; [rewrite E; apply in_map, Hin; now left|].
  split; [rewrite E; apply in_map, Hin; exact Hhi|].
  split.
  - intros m Hm Hsel. apply Hle. rewrite E in Hsel.
    apply in_map_iff in Hsel as (m' & Em & Hm').
    apply toHHMM_inj in Em; [now subst m'| |lia].
    specialize (Hms _ Hm'). lia.
  - unfold day_rows. rewrite Es. cbn [map].
    change (toHHMM lo :: map toHHMM rest) with (map toHHMM (lo :: rest)).
    rewrite last_of_map. fold hi.
    rewrite (toMinutes_toHHMM hi) by lia. cbn [plus30 toHHMM_of].
    rewrite (toMinutes_toHHMM (hi + 30)) by lia.
    rewrite (toMinutes_toHHMM lo) by lia. cbn [num_gt].
    assert (lo <= hi) by (apply Hle, Hin; now left).
    destruct (Z.ltb_spec lo (hi + 30)); [reflexivity|lia].
Qed.

(** C4.  After a save that reports 'Schedule is live': a weekday whose
    selection is a non-empty set of clock times has exactly one persisted
    row, from the earliest selected time to half an hour past the latest,
    marked available, whatever was left unselected in between; a weekday
    with no selection has no row; and no persisted row of the doctor has its
    start equal to its end. *)
Theorem saveSchedule_windows (db db' : Store) (di ei : string) (ds : DayStates) :
  saveSchedule db di ei ds = (db', ScheduleLive) ->
  let doctorId := resolve_doctor di ei in
  let persisted := fun d : Z =>
    filter (fun w => day_of_week w =? d) (schedules_of db' doctorId) in
  (forall d st,
     In d weekdays -> ds d = Some st -> selected st <> [] ->
     (forall t, In t (selected st) ->
                exists m, 0 <= m < Slots.day_minutes /\ t = toHHMM m) ->
     exists lo hi,
       0 <= lo /\ lo <= hi /\ hi < Slots.day_minutes
       /\ In (toHHMM lo) (selected st) /\ In (toHHMM hi) (selected st)
       /\ (forall m, 0 <= m < Slots.day_minutes -> In (toHHMM m) (selected st) ->
                     lo <= m <= hi)
       /\ persisted d = [mkWindow doctorId d (toHHMM lo) (toHHMM (hi + 30)) true])
  /\ (forall d, ds d = None \/ (exists st, ds d = Some st /\ selected st = []) ->
                persisted d = [])
  /\ (forall w, In w (schedules_of db' doctorId) ->
                start_time w <> end_time w /\ is_available w = true
                /\ In (day_of_week w) weekdays).
Proof.
  intros H doctorId persisted.
  pose proof (saveSchedule_read_back _ _ _ _ _ H) as E. fold doctorId in E.
  unfold persisted. rewrite E. unfold schedule_rows.
  fold (rows_over doctorId ds weekdays).
  split; [|split].
  - intros d st Hd Hst Hne Hcan.
    rewrite (rows_over_filter_in doctorId ds weekdays d weekdays_NoDup Hd), Hst.
    now apply day_rows_span.
  - intros d Hempty.
    destruct (in_dec Z.eq_dec d weekdays) as [Hd | Hd].
    + rewrite (rows_over_filter_in doctorId ds weekdays d weekdays_NoDup Hd).
      destruct Hempty as [-> | (st & -> & Hsel)]; [reflexivity|].
      unfold day_rows, sorted_selection. now rewrite Hsel.
    + now apply rows_over_filter_out.
  - intros w Hw. apply rows_over_In in Hw as (_ & Hd & Ha & Hse). auto.
Qed.

Lemma saveSchedule_windows_witness :
  (exists lo hi,
     In (toHHMM lo) ["09:00"; "08:00"; "09:30"]
     /\ In (toHHMM hi) ["09:00"; "08:00"; "09:30"]
     /\ filter (fun w => day_of_week w =? 1) (schedules_of Samples.after_save "d1")
        = [mkWindow "d1" 1 (toHHMM lo) (toHHMM (hi + 30)) true])
  /\ filter (fun w => day_of_week w =? 1) (schedules_of Samples.after_save "d1")
     = [mkWindow "d1" 1 "08:00" "10:00" true]
  /\ filter (fun w => day_of_week w =? 2) (schedules_of Samples.after_save "d1")
     = [].
Proof.
  pose proof (saveSchedule_windows Samples.before_save Samples.after_save
                "d1" "" Samples.week eq_refl) as H.
  cbv zeta in H. destruct H as (H1 & H2 & _).
  split; [|split; [reflexivity|]].
  - destruct (H1 1 (mkDay "08:00" "17:00" ["09:00"; "08:00"; "09:30"]))
      as (lo & hi & _ & _ & _ & Hlo & Hhi & _ & E).
    + right. left. reflexivity.
    + reflexivity.
    + discriminate.
    + intros t [<- | [<- | [<- | []]]].
      * exists 540. split; [unfold Slots.day_minutes; lia|reflexivity].
      * exists 480. split; [unfold Slots.day_minutes; lia|reflexivity].
      * exists 570. split; [unfold Slots.day_minutes; lia|reflexivity].
    + exists lo, hi. auto.
  - apply H2. right. eexists. split; reflexivity.
Defined.

End ScheduleFacts.

(** ** The retry helper *)

Module RetryFacts.
Import Dashboard.

Lemma retry_from_spec {T} (fn : nat -> Attempt T) (left i : nat)
  (lastErr : option string) :
  let r := retry_from fn i left lastErr in
  (i <= snd r <= i + left)%nat
  /\ (forall k, (i <= k)%nat -> (S k < snd r)%nat ->
                exists message, fn k = Rejects message /\ transient message = true)
  /\ match fst r with
     | Gave v => exists k, (i <= k)%nat /\ snd r = S k /\ fn k = Resolves v
     | Threw e =>
         (snd r = i /\ left = 0%nat /\ e = lastErr)
         \/ (exists k message,
               (i <= k)%nat /\ snd r = S k /\ e = Some message
               /\ fn k = Rejects message
               /\ (transient message = false \/ snd r = (i + left)%nat))
     end.
Proof.
  revert i lastErr. induction left as [|left IH]; intros i lastErr; cbn [retry_from].
  - cbn. split; [lia|]. split; [intros; lia|]. left. auto.
  - destruct (fn i) as [v | message] eqn:E.
    + cbn. split; [lia|]. split; [intros; lia|]. exists i. auto.
    + destruct (transient message) eqn:Et.
      * specialize (IH (S i) (Some message)). cbv zeta in IH.
        destruct IH as (Hb & Hprev & Hres).
        split; [lia|]. split.
        -- intros k Hk Hlt. destruct (Nat.eq_dec k i) as [-> | Hne]; [eauto|].
           apply Hprev; lia.
        -- destruct (fst (retry_from fn (S i) left (Some message))) as [v | e].
           ++ destruct Hres as (k & Hk & Hs & Hf). exists k. split; [lia|auto].
           ++ right. destruct Hres as [(Hs & Hl & ->) | (k & msg & Hk & Hs & He & Hf & Hlast)].
              ** exists i, message. rewrite Hs. repeat split; auto. right. lia.
              ** exists k, msg. repeat split; auto; try lia.
                 destruct Hlast as [? | Hlast]; [auto|right; lia].
      * cbn. split; [lia|]. split; [intros; lia|].
        right. exists i, message. repeat split; auto.
Qed.

(** X1.  [retry] calls [fn] at most [attempts] times; every call but the
    last one threw an error whose message includes 'Failed to fetch'; it
    gives the value of the last call when that call resolved, and otherwise
    throws that call's error, which is either not such an error or the one
    of the last permitted call; with no permitted call it throws
    [undefined] without calling. *)
Theorem retry_calls {T} (fn : nat -> Attempt T) (attempts : nat) :
  let r := retry fn attempts in
  (snd r <= attempts)%nat
  /\ (forall k, (S k < snd r)%nat ->
                exists message, fn k = Rejects message /\ transient message = true)
  /\ match fst r with
     | Gave v => exists k, snd r = S k /\ fn k = Resolves v
     | Threw None => attempts = 0%nat /\ snd r = 0%nat
     | Threw (Some message) =>
         exists k, snd r = S k /\ fn k = Rejects message
                   /\ (transient message = false \/ snd r = attempts)
     end.
Proof.
  pose proof (retry_from_spec fn attempts 0 None) as H. cbv zeta in *.
  unfold retry. destruct H as (Hb & Hprev & Hres).
  split; [lia|]. split; [intros k Hk; apply Hprev; lia|].
  destruct (fst (retry_from fn 0 attempts None)) as [v | e].
  - destruct Hres as (k & _ & Hs & Hf). eauto.
  - destruct Hres as [(Hs & Hl & ->) | (k & msg & _ & Hs & -> & Hf & Hlast)].
    + auto.
    + exists k. repeat split; auto.
Qed.

End RetryFacts.

(** ** The half-hour loop and the clock texts *)

Module LoopFacts.
Import Clock ClockFacts Slots SortFacts.

Lemma steps30_lower (s e m : Z) : In m (steps30 s e) -> s <= m.
Proof. intros H. apply steps30_spec in H as (k & ? & -> & ?). lia. Qed.

Lemma steps30_sorted (s e : Z) : StronglySorted Z.lt (steps30 s e).
Proof.
  funelim (steps30 s e); constructor; [assumption|].
  apply Forall_forall. intros x Hx. apply steps30_lower in Hx. lia.
Qed.

Lemma steps30_length (s e : Z) :
  List.length (steps30 s e) = Z.to_nat ((e - s + 29) / 30).
Proof.
  funelim (steps30 s e); cbn [List.length].
  - rewrite H.
    replace (upto - m + 29) with ((upto - (m + 30) + 29) + 1 * 30) by lia.
    rewrite Z.div_add by lia.
    assert (0 <= (upto - (m + 30) + 29) / 30) by (apply Z.div_pos; lia).
    lia.
  - assert ((upto - m + 29) / 30 <= 0).
    { assert ((upto - m + 29) / 30 < 1) by (apply Z.div_lt_upper_bound; lia). lia. }
    lia.
Qed.

Lemma steps30_none (s e : Z) : e <= s -> steps30 s e = [].
Proof.
  intros H. destruct (steps30 s e) as [|x l] eqn:E; [reflexivity|].
  assert (Hx : In x (steps30 s e)) by (rewrite E; now left).
  apply steps30_spec in Hx as (k & ? & -> & ?). lia.
Qed.

Lemma steps30_head (s e : Z) : s < e -> exists rest, steps30 s e = s :: rest.
Proof.
  intros H. funelim (steps30 s e); [eauto|lia].
Qed.

(** X2.  The half-hour loop over [s, e): it makes no turn when [e <= s],
    starts at [s] otherwise, takes strictly ascending values that are [s]
    plus a multiple of 30 and below [e], and makes as many turns as there
    are half hours begun in the window. *)
Theorem half_hour_loop (s e : Z) :
  (e <= s -> steps30 s e = [])
  /\ (s < e -> exists rest, steps30 s e = s :: rest)
  /\ StronglySorted Z.lt (steps30 s e)
  /\ (forall m, In m (steps30 s e) <-> exists k, 0 <= k /\ m = s + 30 * k /\ m < e)
  /\ List.length (steps30 s e) = Z.to_nat ((e - s + 29) / 30).
Proof.
  split; [apply steps30_none|]. split; [apply steps30_head|].
  split; [apply steps30_sorted|]. split; [intros m; apply steps30_spec|].
  apply steps30_length.
Qed.

Lemma toHHMM_length (m : Z) : 0 <= m < 6000 -> String.length (toHHMM m) = 5%nat.
Proof.
  intros Hm.
  apply (below_forall (fun z => Nat.eqb (String.length (toHHMM z)) 5) 6000) in Hm.
  - now apply Nat.eqb_eq.
  - vm_compute. reflexivity.
Qed.

Lemma slice5_toHHMM (m : Z) :
  0 <= m < 6000 -> Dashboard.slice5 (toHHMM m) = toHHMM m.
Proof.
  intros Hm.
  apply (below_forall
           (fun z => String.eqb (Dashboard.slice5 (toHHMM z)) (toHHMM z)) 6000) in Hm.
  - now apply String.eqb_eq.
  - vm_compute. reflexivity.
Qed.

Lemma seconds_ignored (m : Z) :
  0 <= m < 6000 ->
  toMinutes (toHHMM m ++ ":00") = Some m
  /\ Dashboard.slice5 (toHHMM m ++ ":00") = toHHMM m.
Proof.
  intros Hm.
  apply (below_forall
           (fun z => number_eqb (toMinutes (toHHMM z ++ ":00")) (Some z)
                     && String.eqb (Dashboard.slice5 (toHHMM z ++ ":00")) (toHHMM z))
           6000) in Hm.
  - apply andb_prop in Hm as [H1 H2]. apply String.eqb_eq in H2. split; [|assumption].
    unfold number_eqb in H1. destruct (toMinutes (toHHMM m ++ ":00")); [|discriminate].
    apply Z.eqb_eq in H1. congruence.
  - vm_compute. reflexivity.
Qed.

(** X3.  Clock texts of two-digit hours: [toMinutes] reads back the minute
    [toHHMM] wrote, with or without a seconds suffix; the text has five
    characters, which is what [slice(0, 5)] keeps of the text with seconds;
    two minutes give the same text only when equal; and [localeCompare]
    orders the texts as the minutes are ordered. *)
Theorem clock_text_round_trip (m : Z) :
  0 <= m < 6000 ->
  toMinutes (toHHMM m) = Some m
  /\ toMinutes (toHHMM m ++ ":00") = Some m
  /\ String.length (toHHMM m) = 5%nat
  /\ Dashboard.slice5 (toHHMM m ++ ":00") = toHHMM m
  /\ (forall m', 0 <= m' < 6000 ->
                 (toHHMM m = toHHMM m' -> m = m')
                 /\ localeCompare (toHHMM m) (toHHMM m') = (m ?= m')).
Proof.
  intros Hm. split; [now apply toMinutes_toHHMM|].
  destruct (seconds_ignored m Hm) as [H1 H2].
  split; [exact H1|]. split; [now apply toHHMM_length|]. split; [exact H2|].
  intros m' Hm'. split; [now apply toHHMM_inj|].
  unfold localeCompare. now apply toHHMM_compare.
Qed.

Lemma clock_text_round_trip_witness :
  toMinutes (toHHMM 1410) = Some 1410
  /\ localeCompare (toHHMM 570) (toHHMM 600) = Lt.
Proof.
  assert (H1 : 0 <= 1410 < 6000) by lia.
  assert (H2 : 0 <= 570 < 6000) by lia.
  assert (H3 : 0 <= 600 < 6000) by lia.
  split.
  - exact (proj1 (clock_text_round_trip 1410 H1)).
  - destruct (clock_text_round_trip 570 H2) as (_ & _ & _ & _ & H).
    exact (proj2 (H 600 H3)).
Defined.

Lemma insert_below (x : Z) (l : list Z) :
  Forall (Z.lt x) l -> insert Z.compare x l = x :: l.
Proof.
  destruct l as [|y r]; [reflexivity|]. intros H. inversion H as [|? ? Hy _]; subst.
  simpl. apply Z.compare_lt_iff in Hy. now rewrite Hy.
Qed.

Lemma sort_of_sorted (l : list Z) :
  StronglySorted Z.lt l -> sort Z.compare l = l.
Proof.
  induction 1 as [|x r Hr IH Hx]; simpl; [reflexivity|].
  rewrite IH. now apply insert_below.
Qed.

Lemma fold_add_new_fresh (ms acc : list Z) :
  NoDup (acc ++ ms) ->
  fold_left (fun a m => add_new m a) ms acc = (acc ++ ms)%list.
Proof.
  revert acc. induction ms as [|m r IH]; simpl; intros acc Hnd;
    [now rewrite app_nil_r|].
  destruct (add_new_case m acc) as [[Hin _] | [_ E]].
  - exfalso. apply NoDup_remove_2 in Hnd. apply Hnd. apply in_app_iff. now left.
  - rewrite E, IH; rewrite <- app_assoc; [reflexivity|exact Hnd].
Qed.

Lemma distinct_of_sorted (l : list Z) :
  StronglySorted Z.lt l -> distinct (sort Z.compare l) = l.
Proof.
  intros H. rewrite (sort_of_sorted l H). unfold distinct.
  rewrite fold_add_new_fresh; [reflexivity|]. simpl. now apply lt_sorted_NoDup.
Qed.

(** Which clock texts the half-hour loop from [lo] to [e] produces. *)
Lemma steps30_grid (lo e m : Z) :
  0 <= lo -> e <= 6000 -> 0 <= m < 6000 ->
  In (toHHMM m) (map toHHMM (steps30 lo e))
  <-> lo <= m < e /\ (m - lo) mod 30 = 0.
Proof.
  intros Hlo He Hm. rewrite in_map_iff. split.
  - intros (x & E & Hx). apply steps30_spec in Hx as (k & Hk & -> & Hlt).
    apply toHHMM_inj in E; [|lia|lia]. subst m. split; [lia|].
    replace (lo + 30 * k - lo) with (k * 30) by lia. apply Z_mod_mult.
  - intros [[H1 H2] H3]. exists m. split; [reflexivity|].
    apply steps30_spec. exists ((m - lo) / 30). split; [|split].
    + apply Z.div_pos; lia.
    + pose proof (Z_div_mod_eq_full (m - lo) 30). lia.
    + exact H2.
Qed.

End LoopFacts.

(** ** The schedule editor: saving, reloading, the buttons *)

Module EditorFacts.
Import Clock Schedule Dashboard ClockFacts SortFacts LoopFacts ScheduleFacts.

Lemma resolve_truthy (di ei : string) : di <> "" -> resolve_doctor di ei = di.
Proof.
  intros H. unfold resolve_doctor, truthy.
  apply String.eqb_neq in H. now rewrite H.
Qed.

Lemma truthy_ne (s : string) : s <> "" -> negb (truthy s) = false.
Proof.
  intros H. unfold truthy. apply String.eqb_neq in H. now rewrite H.
Qed.

Lemma delete_for_rows (doc : string) (ds : DayStates) (l : list Z) :
  delete_for doc (rows_over doc ds l) = [].
Proof.
  apply filter_none. intros w Hw. apply rows_over_In in Hw as (-> & _).
  now rewrite String.eqb_refl.
Qed.

Lemma delete_for_twice (doc : string) (tbl : list ScheduleWindow) :
  delete_for doc (delete_for doc tbl) = delete_for doc tbl.
Proof.
  apply filter_all. intros w Hw. now apply filter_In in Hw.
Qed.

Lemma saveSchedule_again (db db1 : Store) (di ei : string) (ds ds' : DayStates) :
  saveSchedule db di ei ds = (db1, ScheduleLive) ->
  schedule_rows (resolve_doctor di ei) ds' = schedule_rows (resolve_doctor di ei) ds ->
  saveSchedule db1 di ei ds' = (db1, ScheduleLive).
Proof.
  intros H Hrows.
  pose proof (saveSchedule_written _ _ _ _ _ H) as (E & Hb & Hm). cbv zeta in E.
  destruct (saveSchedule db1 di ei ds') as [db2 o] eqn:H2.
  assert (o = ScheduleLive).
  { unfold saveSchedule in H, H2.
    destruct (negb (truthy (resolve_doctor di ei))); [discriminate|].
    now injection H2 as _ <-. }
  subst o. f_equal.
  pose proof (saveSchedule_written _ _ _ _ _ H2) as (E2 & Hb2 & Hm2). cbv zeta in E2.
  rewrite Hrows, E in E2. unfold delete_for at 1 in E2. rewrite filter_app in E2.
  fold (delete_for (resolve_doctor di ei) (delete_for (resolve_doctor di ei) (doctor_schedules db))) in E2.
  fold (delete_for (resolve_doctor di ei) (schedule_rows (resolve_doctor di ei) ds)) in E2.
  unfold schedule_rows in E2 at 1.
  fold (rows_over (resolve_doctor di ei) ds weekdays) in E2.
  rewrite delete_for_rows, delete_for_twice, app_nil_r in E2.
  destruct db1 as [b1 m1 s1], db2 as [b2 m2 s2]. simpl in *. congruence.
Qed.

(** X4.  Saving is idempotent: saving the same selections again leaves the
    store exactly as the first save left it. *)
Theorem saveSchedule_idempotent (db db1 : Store) (di ei : string) (ds : DayStates) :
  saveSchedule db di ei ds = (db1, ScheduleLive) ->
  saveSchedule db1 di ei ds = (db1, ScheduleLive).
Proof.
  intros H. now apply (saveSchedule_again db db1 di ei ds ds).
Qed.

Lemma saveSchedule_idempotent_witness :
  saveSchedule Samples.after_save "d1" "" Samples.week
  = (Samples.after_save, ScheduleLive).
Proof.
  exact (saveSchedule_idempotent Samples.before_save Samples.after_save
           "d1" "" Samples.week eq_refl).
Defined.

(** X5.  For selections that hold clock times of the day (the texts the
    slot grid offers): [saveSchedule] reports 'No doctor profile' exactly
    when both ids are absent, and then changes nothing; a save that reports
    'Schedule is live' leaves the doctor at most one row per weekday, at
    most seven in all, each for a weekday 0..6 whose selection holds the
    row's start time, marked available, ending at least 30 minutes after it
    starts and at most 30 minutes after the last minute of the day. *)
Theorem saveSchedule_rows_wellformed (db db' : Store) (di ei : string)
  (ds : DayStates) (o : SaveOutcome) :
  saveSchedule db di ei ds = (db', o) ->
  (forall d st t, In d weekdays -> ds d = Some st -> In t (selected st) ->
                  exists m, 0 <= m < Slots.day_minutes /\ t = toHHMM m) ->
  (o = NoDoctorProfile <-> di = "" /\ ei = "")
  /\ (o = NoDoctorProfile -> db' = db)
  /\ (o = ScheduleLive ->
      resolve_doctor di ei <> ""
      /\ NoDup (map day_of_week (schedules_of db' (resolve_doctor di ei)))
      /\ (List.length (schedules_of db' (resolve_doctor di ei)) <= 7)%nat
      /\ forall w, In w (schedules_of db' (resolve_doctor di ei)) ->
                   0 <= day_of_week w <= 6 /\ is_available w = true
                   /\ exists st s e,
                        ds (day_of_week w) = Some st
                        /\ In (start_time w) (selected st)
                        /\ start_time w = toHHMM s /\ end_time w = toHHMM e
                        /\ toMinutes (start_time w) = Some s
                        /\ toMinutes (end_time w) = Some e
                        /\ 0 <= s /\ s + 30 <= e /\ e < Slots.day_minutes + 30).
Proof.
  intros H Hclock. split; [|split].
  - unfold saveSchedule in H. split.
    + intros ->.
      destruct (negb (truthy (resolve_doctor di ei))) eqn:E; [|discriminate].
      unfold resolve_doctor, truthy in E.
      destruct (String.eqb di "") eqn:Ed; simpl in E.
      * apply String.eqb_eq in Ed.
        destruct (String.eqb ei "") eqn:Ee; simpl in E.
        -- apply String.eqb_eq in Ee. auto.
        -- rewrite Ee in E. discriminate.
      * rewrite Ed in E. discriminate.
    + intros [-> ->]. cbn in H. congruence.
  - intros ->. unfold saveSchedule in H.
    destruct (negb (truthy (resolve_doctor di ei))) eqn:E; [|discriminate].
    now injection H as <-.
  - intros ->. split.
    + unfold saveSchedule in H.
      destruct (negb (truthy (resolve_doctor di ei))) eqn:E; [discriminate|].
      unfold truthy in E. rewrite negb_involutive in E. now apply String.eqb_neq.
    + rewrite (saveSchedule_read_back _ _ _ _ _ H). unfold schedule_rows.
      fold (rows_over (resolve_doctor di ei) ds weekdays).
      pose proof (rows_over_NoDup (resolve_doctor di ei) ds weekdays weekdays_NoDup) as Hnd.
      split; [exact Hnd|]. split.
      * rewrite <- (length_map day_of_week).
        change 7%nat with (List.length weekdays).
        apply NoDup_incl_length; [exact Hnd|].
        intros x Hx. apply in_map_iff in Hx as (w & <- & Hw).
        now apply rows_over_In in Hw as (_ & Hd & _).
      * intros w Hw. pose proof Hw as Hw'.
        apply rows_over_In in Hw as (_ & Hd & Ha & _).
        split; [|split; [exact Ha|]].
        -- unfold weekdays in Hd. simpl in Hd. lia.
        -- unfold rows_over in Hw'. apply in_flat_map in Hw' as (d & Hdw & Hw').
           destruct (ds d) as [st|] eqn:Est; [|destruct Hw'].
           destruct (selected st) as [|t0 r0] eqn:Esel.
           { unfold day_rows, sorted_selection in Hw'. rewrite Esel in Hw'.
             destruct Hw'. }
           destruct (day_rows_span (resolve_doctor di ei) d st)
             as (lo & hi & Hlo & Hle & Hhi & Hinlo & _ & _ & Erow).
           { rewrite Esel. discriminate. }
           { intros t Ht. now apply (Hclock d st t). }
           rewrite Erow in Hw'. destruct Hw' as [<- | []].
           cbn [day_of_week start_time end_time].
           unfold Slots.day_minutes in *.
           exists st, lo, (hi + 30). rewrite Est.
           rewrite !toMinutes_toHHMM by lia.
           repeat split; auto; lia.
Qed.

Lemma saveSchedule_rows_wellformed_witness :
  NoDup (map day_of_week (schedules_of Samples.after_save "d1"))
  /\ forall w, In w (schedules_of Samples.after_save "d1") ->
               exists st s e,
                 Samples.week (day_of_week w) = Some st
                 /\ In (start_time w) (selected st)
                 /\ start_time w = toHHMM s /\ end_time w = toHHMM e
                 /\ toMinutes (start_time w) = Some s
                 /\ toMinutes (end_time w) = Some e
                 /\ 0 <= s /\ s + 30 <= e /\ e < Slots.day_minutes + 30.
Proof.
  pose proof (saveSchedule_rows_wellformed Samples.before_save Samples.after_save
                "d1" "" Samples.week ScheduleLive eq_refl) as H.
  destruct H as (_ & _ & H).
  - intros d st t _ Hst Ht. unfold Samples.week in Hst.
    destruct (d =? 1); injection Hst as <-; cbn [selected] in Ht.
    + destruct Ht as [<- | [<- | [<- | []]]].
      * exists 540. split; [unfold Slots.day_minutes; lia|reflexivity].
      * exists 480. split; [unfold Slots.day_minutes; lia|reflexivity].
      * exists 570. split; [unfold Slots.day_minutes; lia|reflexivity].
    + destruct Ht.
  - destruct (H eq_refl) as (_ & Hnd & _ & Hrows). split; [exact Hnd|].
    intros w Hw. now apply Hrows in Hw as (_ & _ & Hw).
Defined.

End EditorFacts.

(** ** Reloading what was saved *)

Module ReloadFacts.
Import Clock Schedule Dashboard ClockFacts SortFacts LoopFacts ScheduleFacts EditorFacts.

Lemma has_texts (pre : list Z) (m : Z) :
  Forall hour_range pre -> hour_range m ->
  (Slots.has (map toHHMM pre) (toHHMM m) = true <-> In m pre).
Proof.
  intros Hpre Hm. unfold Slots.has. rewrite existsb_exists. split.
  - intros (t & Ht & E). apply String.eqb_eq in E. subst t.
    apply in_map_iff in Ht as (x & Ex & Hx).
    rewrite Forall_forall in Hpre.
    apply toHHMM_inj in Ex; [now subst x|now apply Hpre|assumption].
  - intros Hin. exists (toHHMM m). split; [now apply in_map|apply String.eqb_refl].
Qed.

Lemma fold_set_add (ms pre : list Z) :
  NoDup (pre ++ ms) -> Forall hour_range (pre ++ ms) ->
  fold_left (fun acc m => set_add (toHHMM m) acc) ms (map toHHMM pre)
  = map toHHMM (pre ++ ms).
Proof.
  revert pre. induction ms as [|m r IH]; simpl; intros pre Hnd Hr;
    [now rewrite app_nil_r|].
  assert (Hpre : Forall hour_range pre) by (apply Forall_app in Hr; tauto).
  assert (Hm : hour_range m).
  { apply Forall_app in Hr as [_ Hr]. now inversion Hr. }
  assert (Hnot : ~ In m pre).
  { intros Hin. apply NoDup_remove_2 in Hnd. apply Hnd, in_app_iff. now left. }
  unfold set_add at 2.
  destruct (Slots.has (map toHHMM pre) (toHHMM m)) eqn:Eh.
  - exfalso. apply Hnot. now apply has_texts.
  - change (map toHHMM pre ++ [toHHMM m])%list with (map toHHMM pre ++ map toHHMM [m])%list.
    rewrite <- map_app, IH; rewrite <- app_assoc; auto.
Qed.

Lemma steps30_range (a b : Z) :
  0 <= a -> b <= 6000 -> Forall hour_range (steps30 a b).
Proof.
  intros Ha Hb. apply Forall_forall. intros m Hm.
  apply steps30_spec in Hm as (k & ? & -> & ?). unfold hour_range. lia.
Qed.

(** The set the loops build from nothing: the texts of the loop's minutes,
    in order. *)
Lemma add_half_hours_fresh (a b : Z) :
  0 <= a < 6000 -> 0 <= b < 6000 ->
  add_half_hours (toHHMM a) (toHHMM b) [] = map toHHMM (steps30 a b).
Proof.
  intros Ha Hb. unfold add_half_hours, half_hours.
  rewrite !toMinutes_toHHMM by assumption.
  change (@nil string) with (map toHHMM []).
  rewrite fold_set_add; [reflexivity| |]; simpl.
  - apply lt_sorted_NoDup, steps30_sorted.
  - apply steps30_range; lia.
Qed.

Lemma load_row_other (next : DayStates) (row : ScheduleWindow) (d : Z) :
  day_of_week row <> d -> load_row next row d = next d.
Proof.
  intros H. unfold load_row. destruct (negb (is_available row)); [reflexivity|].
  destruct (Z.eqb_spec d (day_of_week row)); [congruence|reflexivity].
Qed.

Lemma fold_load_row_skip (rows : list ScheduleWindow) (next : DayStates) (d : Z) :
  (forall row, In row rows -> day_of_week row <> d) ->
  fold_left load_row rows next d = next d.
Proof.
  revert next. induction rows as [|row r IH]; simpl; intros next H; [reflexivity|].
  rewrite IH by (intros x Hx; apply H; now right).
  apply load_row_other. apply H. now left.
Qed.

Lemma rows_over_app (doc : string) (ds : DayStates) (l1 l2 : list Z) :
  rows_over doc ds (l1 ++ l2) = (rows_over doc ds l1 ++ rows_over doc ds l2)%list.
Proof. unfold rows_over. apply flat_map_app. Qed.

(** After the rows of a save are loaded, a day holds what its own row made
    of it. *)
Lemma fold_load_row_day (doc : string) (ds : DayStates) (l : list Z)
  (next : DayStates) (d : Z) :
  NoDup l -> In d l ->
  fold_left load_row (rows_over doc ds l) next d
  = match day_rows doc d (ds d) with
    | [] => next d
    | row :: _ => Some (loaded_day (next d) row)
    end.
Proof.
  intros Hnd Hin. apply in_split in Hin as (l1 & l2 & ->).
  assert (H1 : ~ In d l1 /\ ~ In d l2).
  { apply NoDup_remove_2 in Hnd. rewrite in_app_iff in Hnd. tauto. }
  rewrite rows_over_app, fold_left_app.
  change (d :: l2) with ([d] ++ l2)%list. rewrite rows_over_app, fold_left_app.
  rewrite fold_load_row_skip.
  2:{ intros row Hr. apply rows_over_In in Hr as (_ & Hd & _). intros E.
      rewrite E in Hd. tauto. }
  assert (Hone : rows_over doc ds [d] = day_rows doc d (ds d))
    by (unfold rows_over; simpl; apply app_nil_r).
  rewrite Hone.
  assert (Hpre : fold_left load_row (rows_over doc ds l1) next d = next d).
  { apply fold_load_row_skip. intros row Hr.
    apply rows_over_In in Hr as (_ & Hd & _). intros E. rewrite E in Hd. tauto. }
  destruct (day_rows_shape doc d (ds d)) as [E | (a & b & E & _)]; rewrite E; simpl.
  - exact Hpre.
  - cbn [fold_left]. unfold load_row at 1. cbn [is_available negb day_of_week].
    rewrite Z.eqb_refl. now rewrite Hpre.
Qed.

Lemma initial_weekday (d : Z) : In d weekdays -> initial_days d = Some default_day.
Proof.
  unfold weekdays. simpl.
  intros [<- | [<- | [<- | [<- | [<- | [<- | [<- | []]]]]]]]; reflexivity.
Qed.

(** What a reload makes of the day whose saved row runs from [lo] to
    [hi + 30]. *)
Lemma reload_row (db db' : Store) (di ei : string) (ds cur : DayStates) (d lo hi : Z) :
  saveSchedule db di ei ds = (db', ScheduleLive) -> di <> "" -> In d weekdays ->
  0 <= lo -> lo <= hi -> hi < Slots.day_minutes ->
  day_rows di d (ds d) = [mkWindow di d (toHHMM lo) (toHHMM (hi + 30)) true] ->
  loadSchedule db' di cur d
  = Some (mkDay (if lo <? 480 then toHHMM lo else "08:00")
                (if 1020 <? hi + 30 then toHHMM (hi + 30) else "17:00")
                (map toHHMM (steps30 lo (hi + 30)))).
Proof.
  intros H Hdi Hd Hlo Hle Hhi Hrow. unfold Slots.day_minutes in Hhi.
  pose proof (saveSchedule_read_back _ _ _ _ _ H) as E.
  rewrite (resolve_truthy di ei Hdi) in E.
  unfold loadSchedule. apply truthy_ne in Hdi. rewrite Hdi. simpl.
  rewrite E. unfold schedule_rows. fold (rows_over di ds weekdays).
  rewrite (fold_load_row_day di ds weekdays initial_days d weekdays_NoDup Hd).
  rewrite Hrow, (initial_weekday d Hd).
  unfold loaded_day. cbn [start_time end_time open close selected default_day].
  rewrite !slice5_toHHMM by lia.
  rewrite add_half_hours_fresh by lia.
  rewrite !toMinutes_toHHMM by lia.
  change (toMinutes "08:00") with (Some 480).
  change (toMinutes "17:00") with (Some 1020).
  reflexivity.
Qed.

(** X6.  Reloading after a save: a weekday saved with a non-empty
    selection of clock times comes back with the half-hour steps counted
    from the earliest selected time, up to the last step before 30 minutes
    past the latest selected time, as its selection.  So a time of the day
    is selected after the reload exactly when it is a whole number of half
    hours after the earliest selected time and less than 30 minutes after
    the latest one: times left out in between come back selected when they
    lie on those steps, and a selected time stays selected exactly when it
    lies on them (08:15 and 09:00 come back as 08:15, 08:45 and 09:15).
    Open and close are widened to the saved window when it reaches beyond
    08:00-17:00.  A weekday saved with no selection comes back as the
    default day with nothing selected. *)
Theorem reload_after_save (db db' : Store) (di ei : string) (ds cur : DayStates)
  (d : Z) :
  saveSchedule db di ei ds = (db', ScheduleLive) -> di <> "" -> In d weekdays ->
  (forall st,
     ds d = Some st -> selected st <> [] ->
     (forall t, In t (selected st) ->
                exists m, 0 <= m < Slots.day_minutes /\ t = toHHMM m) ->
     exists lo hi reloaded,
       0 <= lo /\ lo <= hi /\ hi < Slots.day_minutes
       /\ In (toHHMM lo) (selected st) /\ In (toHHMM hi) (selected st)
       /\ (forall m, 0 <= m < Slots.day_minutes -> In (toHHMM m) (selected st) ->
                     lo <= m <= hi)
       /\ loadSchedule db' di cur d
          = Some (mkDay (if lo <? 480 then toHHMM lo else "08:00")
                        (if 1020 <? hi + 30 then toHHMM (hi + 30) else "17:00")
                        reloaded)
       /\ reloaded = map toHHMM (steps30 lo (hi + 30))
       /\ (forall m, 0 <= m < Slots.day_minutes + 30 ->
                     (In (toHHMM m) reloaded
                      <-> lo <= m < hi + 30 /\ (m - lo) mod 30 = 0))
       /\ (forall m, 0 <= m < Slots.day_minutes -> In (toHHMM m) (selected st) ->
                     (In (toHHMM m) reloaded <-> (m - lo) mod 30 = 0)))
  /\ (ds d = None \/ (exists st, ds d = Some st /\ selected st = []) ->
      loadSchedule db' di cur d = Some default_day).
Proof.
  intros H Hdi Hd. split.
  - intros st Hst Hne Hcan.
    destruct (day_rows_span di d st Hne Hcan)
      as (lo & hi & Hlo & Hle & Hhi & Hinlo & Hinhi & Hall & Hrow).
    exists lo, hi, (map toHHMM (steps30 lo (hi + 30))).
    assert (Hgrid : forall m, 0 <= m < Slots.day_minutes + 30 ->
              (In (toHHMM m) (map toHHMM (steps30 lo (hi + 30)))
               <-> lo <= m < hi + 30 /\ (m - lo) mod 30 = 0)).
    { intros m Hm. unfold Slots.day_minutes in *. apply steps30_grid; lia. }
    split; [exact Hlo|]. split; [exact Hle|]. split; [exact Hhi|].
    split; [exact Hinlo|]. split; [exact Hinhi|]. split; [exact Hall|].
    split; [|split; [reflexivity|split; [exact Hgrid|]]].
    + apply (reload_row db db' di ei ds cur d lo hi); auto. now rewrite Hst.
    + intros m Hm Hin. specialize (Hall m Hm Hin).
      rewrite Hgrid by (unfold Slots.day_minutes in *; lia).
      split; [now intros [_ ?]|]. intros ?. split; [lia|assumption].
  - intros Hempty.
    pose proof (saveSchedule_read_back _ _ _ _ _ H) as E.
    rewrite (resolve_truthy di ei Hdi) in E.
    unfold loadSchedule. rewrite (truthy_ne di Hdi), E.
    unfold schedule_rows. fold (rows_over di ds weekdays).
    rewrite (fold_load_row_day di ds weekdays initial_days d weekdays_NoDup Hd).
    assert (Hnone : day_rows di d (ds d) = []).
    { destruct Hempty as [-> | (st & -> & Hsel)]; [reflexivity|].
      unfold day_rows, sorted_selection. now rewrite Hsel. }
    rewrite Hnone. now apply initial_weekday.
Qed.

Lemma reload_after_save_witness :
  (exists lo hi reloaded,
     In (toHHMM lo) ["09:00"; "08:15"] /\ In (toHHMM hi) ["09:00"; "08:15"]
     /\ loadSchedule EditorSamples.after_quarter_save "d1" Dashboard.initial_days 1
        = Some (mkDay (if lo <? 480 then toHHMM lo else "08:00")
                      (if 1020 <? hi + 30 then toHHMM (hi + 30) else "17:00")
                      reloaded)
     /\ (In (toHHMM 540) reloaded <-> (540 - lo) mod 30 = 0))
  /\ loadSchedule EditorSamples.after_quarter_save "d1" Dashboard.initial_days 1
     = Some (mkDay "08:00" "17:00" ["08:15"; "08:45"; "09:15"])
  /\ loadSchedule EditorSamples.after_quarter_save "d1" Dashboard.initial_days 2
     = Some default_day.
Proof.
  assert (Hdi : "d1" <> "") by discriminate.
  assert (H1 : In 1 weekdays) by (right; left; reflexivity).
  assert (H2 : In 2 weekdays) by (right; right; left; reflexivity).
  split; [|split].
  - destruct (proj1 (reload_after_save Samples.before_save
                       EditorSamples.after_quarter_save "d1" ""
                       EditorSamples.quarter_week Dashboard.initial_days 1
                       eq_refl Hdi H1)
                    (mkDay "08:00" "17:00" ["09:00"; "08:15"]) eq_refl)
      as (lo & hi & reloaded & _ & _ & _ & Hlo & Hhi & _ & E & _ & _ & Hkeep).
    + discriminate.
    + intros t [<- | [<- | []]].
      * exists 540. split; [unfold Slots.day_minutes; lia|reflexivity].
      * exists 495. split; [unfold Slots.day_minutes; lia|reflexivity].
    + exists lo, hi, reloaded. repeat split; auto; apply (Hkeep 540);
        try (unfold Slots.day_minutes; lia); now left.
  - reflexivity.
  - apply (proj2 (reload_after_save Samples.before_save
                    EditorSamples.after_quarter_save "d1" ""
                    EditorSamples.quarter_week Dashboard.initial_days 2
                    eq_refl Hdi H2)).
    right. eexists. split; reflexivity.
Defined.

Lemma flat_map_same {A B} (f g : A -> list B) (l : list A) :
  (forall x, In x l -> f x = g x) -> flat_map f l = flat_map g l.
Proof.
  induction l as [|x r IH]; simpl; intros H; [reflexivity|].
  rewrite (H x) by now left. rewrite IH; [reflexivity|]. intros y Hy. apply H. now right.
Qed.

(** Selections whose times are half hours of the day: 00:00, 00:30, ... *)
Lemma span_on_grid (doc : string) (d : Z) (st : DayState) :
  selected st <> [] ->
  (forall t, In t (selected st) -> exists k, 0 <= k < 48 /\ t = toHHMM (30 * k)) ->
  exists lo q,
    0 <= lo /\ 0 <= q /\ lo + 30 * q < Slots.day_minutes
    /\ day_rows doc d (Some st)
       = [mkWindow doc d (toHHMM lo) (toHHMM (lo + 30 * q + 30)) true].
Proof.
  intros Hne Hgrid.
  assert (Hcan : forall t, In t (selected st) ->
                           exists m, 0 <= m < Slots.day_minutes /\ t = toHHMM m).
  { intros t Ht. destruct (Hgrid t Ht) as (k & Hk & ->). exists (30 * k).
    unfold Slots.day_minutes. split; [lia|reflexivity]. }
  destruct (day_rows_span doc d st Hne Hcan)
    as (lo & hi & Hlo & Hle & Hhi & Hinlo & Hinhi & _ & Hrow).
  unfold Slots.day_minutes in *.
  destruct (Hgrid _ Hinlo) as (k1 & Hk1 & E1).
  destruct (Hgrid _ Hinhi) as (k2 & Hk2 & E2).
  apply toHHMM_inj in E1; [|lia|lia]. apply toHHMM_inj in E2; [|lia|lia].
  exists lo, (k2 - k1). repeat split; try lia.
  rewrite Hrow. repeat f_equal; lia.
Qed.

Lemma day_rows_of_reloaded (doc : string) (d lo q : Z) (o c : string) :
  0 <= lo -> 0 <= q -> lo + 30 * q < Slots.day_minutes ->
  day_rows doc d (Some (mkDay o c (map toHHMM (steps30 lo (lo + 30 * q + 30)))))
  = [mkWindow doc d (toHHMM lo) (toHHMM (lo + 30 * q + 30)) true].
Proof.
  intros Hlo Hq Hhi. unfold Slots.day_minutes in Hhi.
  set (sel := map toHHMM (steps30 lo (lo + 30 * q + 30))).
  assert (Hmem : forall m, 0 <= m < 6000 ->
                           (In (toHHMM m) sel <-> In m (steps30 lo (lo + 30 * q + 30)))).
  { intros m Hm. unfold sel. rewrite in_map_iff. split.
    - intros (x & Ex & Hx). pose proof Hx as Hx'.
      apply steps30_spec in Hx' as (k & ? & -> & ?).
      apply toHHMM_inj in Ex; [now subst m|lia|assumption].
    - intros Hx. eauto. }
  assert (Hne : selected (mkDay o c sel) <> []).
  { simpl. unfold sel. destruct (steps30_head lo (lo + 30 * q + 30)) as (rest & ->); [lia|].
    discriminate. }
  assert (Hcan : forall t, In t (selected (mkDay o c sel)) ->
                           exists m, 0 <= m < Slots.day_minutes /\ t = toHHMM m).
  { simpl. intros t Ht. unfold sel in Ht. apply in_map_iff in Ht as (m & <- & Hm).
    apply steps30_spec in Hm as (k & Hk & -> & Hlt). exists (lo + 30 * k).
    unfold Slots.day_minutes. split; [lia|reflexivity]. }
  destruct (day_rows_span doc d (mkDay o c sel) Hne Hcan)
    as (lo' & hi' & Hlo' & Hle' & Hhi' & Hinlo & Hinhi & Hall & Hrow).
  simpl in Hinlo, Hinhi, Hall. unfold Slots.day_minutes in *.
  apply Hmem in Hinlo; [|lia]. apply Hmem in Hinhi; [|lia].
  apply steps30_spec in Hinlo as (k1 & Hk1 & E1 & _).
  apply steps30_spec in Hinhi as (k2 & Hk2 & E2 & Hlt2).
  assert (Hlo_in : In (toHHMM lo) sel).
  { apply Hmem; [lia|]. apply steps30_spec. exists 0. lia. }
  assert (Hhi_in : In (toHHMM (lo + 30 * q)) sel).
  { apply Hmem; [lia|]. apply steps30_spec. exists q. lia. }
  apply Hall in Hlo_in; [|lia]. apply Hall in Hhi_in; [|lia].
  assert (El : lo' = lo) by lia. assert (Eh : hi' = lo + 30 * q) by lia.
  rewrite Hrow, El, Eh. reflexivity.
Qed.

(** X7.  For selections made of half hours of the day, a reload followed
    by a save of what was reloaded leaves the store as the first save left
    it. *)
Theorem save_reload_save (db db1 : Store) (di ei : string) (ds cur : DayStates) :
  saveSchedule db di ei ds = (db1, ScheduleLive) -> di <> "" ->
  (forall d st t, In d weekdays -> ds d = Some st -> In t (selected st) ->
                  exists k, 0 <= k < 48 /\ t = toHHMM (30 * k)) ->
  saveSchedule db1 di ei (loadSchedule db1 di cur) = (db1, ScheduleLive).
Proof.
  intros H Hdi Hgrid.
  apply (saveSchedule_again db db1 di ei ds); [assumption|].
  rewrite (resolve_truthy di ei Hdi). unfold schedule_rows.
  apply flat_map_same. intros d Hd.
  destruct (ds d) as [st|] eqn:Hst.
  - destruct (selected st) as [|t0 sel0] eqn:Hsel.
    + rewrite (proj2 (reload_after_save db db1 di ei ds cur d H Hdi Hd)).
      * unfold day_rows, sorted_selection. now rewrite Hsel.
      * right. exists st. auto.
    + assert (Hne : selected st <> []) by (rewrite Hsel; discriminate).
      destruct (span_on_grid di d st Hne (fun t Ht => Hgrid d st t Hd Hst Ht))
        as (lo & q & Hlo & Hq & Hhi & Hrow).
      rewrite Hrow.
      rewrite (reload_row db db1 di ei ds cur d lo (lo + 30 * q) H Hdi Hd);
        try lia; [|now rewrite Hst].
      now apply day_rows_of_reloaded.
  - rewrite (proj2 (reload_after_save db db1 di ei ds cur d H Hdi Hd)); auto.
Qed.

Lemma save_reload_save_witness :
  saveSchedule Samples.after_save "d1" ""
               (loadSchedule Samples.after_save "d1" Dashboard.initial_days)
  = (Samples.after_save, ScheduleLive).
Proof.
  assert (Hdi : "d1" <> "") by discriminate.
  apply (save_reload_save Samples.before_save Samples.after_save "d1" ""
           Samples.week Dashboard.initial_days eq_refl Hdi).
  intros d st t _ Hst Ht. unfold Samples.week in Hst.
  destruct (d =? 1); injection Hst as <-; simpl in Ht.
  - destruct Ht as [<- | [<- | [<- | []]]].
    + exists 18. split; [lia|reflexivity].
    + exists 16. split; [lia|reflexivity].
    + exists 19. split; [lia|reflexivity].
  - destruct Ht.
Defined.

(** X8.  'Select All' on a day that opens at [o] and closes at [c], both
    clock times with [o] before [c]: every half hour from the opening time
    that begins before the closing time is selected, and the row a save
    pushes for the day starts at the opening time and ends at the first
    half-hour step at or after the closing time. *)
Theorem select_all_then_save (doc : string) (d : Z) (st : DayState) (o c : Z) :
  open st = toHHMM o -> close st = toHHMM c ->
  0 <= o -> o < c -> c < Slots.day_minutes ->
  selected (select_all st) = map toHHMM (steps30 o c)
  /\ exists e, c <= e < c + 30 /\ (e - o) mod 30 = 0
               /\ day_rows doc d (Some (select_all st))
                  = [mkWindow doc d (toHHMM o) (toHHMM e) true].
Proof.
  intros Ho Hc Hpos Hlt Hday. unfold Slots.day_minutes in Hday.
  assert (Hsel : selected (select_all st) = map toHHMM (steps30 o c)).
  { unfold select_all. cbn [selected]. rewrite Ho, Hc.
    apply add_half_hours_fresh; lia. }
  split; [exact Hsel|].
  set (q := (c - o - 1) / 30).
  assert (Hq : 0 <= q /\ o + 30 * q < c /\ c <= o + 30 * q + 30).
  { unfold q. pose proof (Z.div_mod (c - o - 1) 30 ltac:(lia)) as Hdm.
    pose proof (Z.mod_pos_bound (c - o - 1) 30 ltac:(lia)) as Hmb.
    assert (0 <= (c - o - 1) / 30) by (apply Z.div_pos; lia). lia. }
  exists (o + 30 * q + 30). split; [lia|]. split.
  - replace (o + 30 * q + 30 - o) with ((q + 1) * 30) by lia. apply Z_mod_mult.
  - assert (E : steps30 o c = steps30 o (o + 30 * q + 30)).
    { assert (Hsame : forall m, In m (steps30 o c) <-> In m (steps30 o (o + 30 * q + 30))).
      { intros m. rewrite !steps30_spec. split; intros (k & Hk & -> & Hm);
          exists k; repeat split; auto; lia. }
      clear - Hsame.
      pose proof (steps30_sorted o c) as S1.
      pose proof (steps30_sorted o (o + 30 * q + 30)) as S2.
      revert Hsame S1 S2.
      generalize (steps30 o c) (steps30 o (o + 30 * q + 30)).
      induction l as [|x r IH]; intros [|y r'] Hsame S1 S2; try reflexivity.
      - exfalso. apply (proj2 (Hsame y)). now left.
      - exfalso. apply (proj1 (Hsame x)). now left.
      - inversion S1 as [|? ? S1r F1]; inversion S2 as [|? ? S2r F2]; subst.
        rewrite Forall_forall in F1, F2.
        assert (x = y).
        { destruct (proj1 (Hsame x) (or_introl eq_refl)) as [E | Hx]; [auto|].
          destruct (proj2 (Hsame y) (or_introl eq_refl)) as [E | Hy]; [auto|].
          specialize (F2 _ Hx). specialize (F1 _ Hy). lia. }
        subst y. f_equal. apply IH; auto.
        intros m. split; intros Hm.
        + destruct (proj1 (Hsame m) (or_intror Hm)) as [E | ?]; [|assumption].
          specialize (F1 _ Hm). lia.
        + destruct (proj2 (Hsame m) (or_intror Hm)) as [E | ?]; [|assumption].
          specialize (F2 _ Hm). lia. }
    destruct st as [op cl sel]. unfold select_all in *. cbn [open close selected] in *.
    rewrite Hsel, E. apply day_rows_of_reloaded; unfold Slots.day_minutes; lia.
Qed.

Lemma select_all_then_save_witness :
  selected (select_all (mkDay "08:15" "10:00" []))
  = ["08:15"; "08:45"; "09:15"; "09:45"]
  /\ exists e, 600 <= e < 630
               /\ day_rows "d1" 1 (Some (select_all (mkDay "08:15" "10:00" [])))
                  = [mkWindow "d1" 1 "08:15" (toHHMM e) true].
Proof.
  assert (H1 : 0 <= 495) by lia.
  assert (H2 : 495 < 600) by lia.
  assert (H3 : 600 < Slots.day_minutes) by (unfold Slots.day_minutes; lia).
  destruct (select_all_then_save "d1" 1 (mkDay "08:15" "10:00" []) 495 600
              eq_refl eq_refl H1 H2 H3) as (Hs & e & He & _ & Hrow).
  split; [reflexivity|]. exists e. split; [exact He|exact Hrow].
Defined.

End ReloadFacts.

(** ** The slot buttons *)

Module ButtonFacts.
Import Clock Schedule Dashboard ScheduleFacts.

Lemma has_In (sel : list string) (t : string) : Slots.has sel t = true <-> In t sel.
Proof.
  unfold Slots.has. rewrite existsb_exists. split.
  - intros (x & Hx & E). apply String.eqb_eq in E. now subst x.
  - intros H. exists t. split; [assumption|apply String.eqb_refl].
Qed.

Lemma set_delete_In (sel : list string) (t x : string) :
  In x (set_delete t sel) <-> In x sel /\ x <> t.
Proof.
  unfold set_delete. rewrite filter_In, negb_true_iff, String.eqb_neq. tauto.
Qed.

(** X9.  A click on a slot button flips that time and no other: the time
    is selected afterwards exactly when it was not before, every other time
    keeps its state, a selection without repetition stays so, and open and
    close are untouched; two clicks restore the selected times. *)
Theorem toggle_slot_flips (t : string) (st : DayState) :
  (In t (selected (toggle_slot t st)) <-> ~ In t (selected st))
  /\ (forall x, x <> t ->
                (In x (selected (toggle_slot t st)) <-> In x (selected st)))
  /\ (NoDup (selected st) -> NoDup (selected (toggle_slot t st)))
  /\ open (toggle_slot t st) = open st /\ close (toggle_slot t st) = close st
  /\ (forall x, In x (selected (toggle_slot t (toggle_slot t st)))
                <-> In x (selected st)).
Proof.
  assert (Hflip : forall s, In t (selected (toggle_slot t s)) <-> ~ In t (selected s)).
  { intros s. unfold toggle_slot. cbn [selected].
    destruct (Slots.has (selected s) t) eqn:E.
    - apply has_In in E. rewrite set_delete_In. tauto.
    - assert (~ In t (selected s)) by (rewrite <- has_In, E; discriminate).
      unfold set_add. rewrite E, in_app_iff. simpl. tauto. }
  assert (Hkeep : forall s x, x <> t ->
            (In x (selected (toggle_slot t s)) <-> In x (selected s))).
  { intros s x Hx. unfold toggle_slot. cbn [selected].
    destruct (Slots.has (selected s) t) eqn:E.
    - rewrite set_delete_In. tauto.
    - unfold set_add. rewrite E, in_app_iff. simpl. split; [|tauto].
      intros [? | [? | []]]; [assumption|congruence]. }
  split; [apply Hflip|]. split; [apply Hkeep|]. split; [|split; [reflexivity|split; [reflexivity|]]].
  - intros Hnd. unfold toggle_slot. cbn [selected].
    destruct (Slots.has (selected st) t) eqn:E.
    + unfold set_delete. now apply NoDup_filter.
    + unfold set_add. rewrite E.
      apply NoDup_app; [assumption|repeat constructor; auto|].
      intros x Hx [<- | []]. apply has_In in Hx. congruence.
  - intros x. destruct (String.eqb_spec x t) as [-> | Hne].
    + rewrite Hflip, Hflip.
      destruct (Slots.has (selected st) t) eqn:E.
      * apply has_In in E. tauto.
      * assert (~ In t (selected st)) by (rewrite <- has_In, E; discriminate). tauto.
    + now rewrite !Hkeep.
Qed.

(** X10.  'Copy to all days' gives each weekday 0..6 the open time, close
    time and selection of the active day, leaves other keys alone, and a
    save then pushes for every weekday a row with the active day's start and
    end. *)
Theorem copy_to_all_days (activeDay : Z) (prev : DayStates) (st : DayState) :
  prev activeDay = Some st ->
  (forall i, In i weekdays -> copy_to_all activeDay prev i = Some st)
  /\ (forall i, ~ In i weekdays -> copy_to_all activeDay prev i = prev i)
  /\ (forall doc i, In i weekdays ->
        map (fun w => (start_time w, end_time w))
            (day_rows doc i (copy_to_all activeDay prev i))
        = map (fun w => (start_time w, end_time w))
              (day_rows doc activeDay (Some st))).
Proof.
  intros Hst.
  assert (Hall : forall i, In i weekdays -> copy_to_all activeDay prev i = Some st).
  { intros i Hi. unfold copy_to_all. rewrite Hst.
    assert (Hr : (0 <=? i) && (i <? 7) = true).
    { unfold weekdays in Hi. simpl in Hi.
      destruct Hi as [<- | [<- | [<- | [<- | [<- | [<- | [<- | []]]]]]]]; reflexivity. }
    rewrite Hr. destruct (Z.eqb_spec i activeDay) as [-> | _]; [assumption|].
    now destruct st. }
  split; [exact Hall|]. split.
  - intros i Hi. unfold copy_to_all. rewrite Hst.
    destruct ((0 <=? i) && (i <? 7)) eqn:Hr; [|reflexivity].
    exfalso. apply Hi. apply andb_prop in Hr as [H1 H2].
    apply Z.leb_le in H1. apply Z.ltb_lt in H2. unfold weekdays. simpl.
    assert (i = 0 \/ i = 1 \/ i = 2 \/ i = 3 \/ i = 4 \/ i = 5 \/ i = 6) by lia.
    intuition auto.
  - intros doc i Hi. rewrite (Hall i Hi).
    destruct (day_rows_shape doc i (Some st)) as [E | (a & b & E & G)].
    + unfold day_rows in *. destruct (sorted_selection st) as [|s r]; [reflexivity|].
      destruct (num_gt _ (toMinutes s)); [discriminate|reflexivity].
    + unfold day_rows in *. destruct (sorted_selection st) as [|s r]; [discriminate|].
      destruct (num_gt _ (toMinutes s)); [reflexivity|discriminate].
Qed.

Lemma copy_to_all_days_witness :
  copy_to_all 1 Samples.week 5
  = Some (mkDay "08:00" "17:00" ["09:00"; "08:00"; "09:30"]).
Proof.
  apply (proj1 (copy_to_all_days 1 Samples.week _ eq_refl)).
  unfold weekdays. simpl. auto 10.
Defined.

End ButtonFacts.

(** ** From the schedule to the offered slots, and from a booking back *)

Module CompositionFacts.
Import Clock Slots Schedule Booking Transitions.
Import ClockFacts SortFacts SlotFacts LoopFacts ScheduleFacts BookingFacts.

Lemma schedules_for_of (db : Store) (doc : string) (dow : Z) :
  schedules_for db doc dow
  = filter (fun w => (day_of_week w =? dow) && Bool.eqb (is_available w) true)
           (schedules_of db doc).
Proof.
  unfold schedules_for, schedules_of.
  induction (doctor_schedules db) as [|w l IH]; simpl; [reflexivity|].
  destruct (String.eqb (s_doctor_id w) doc); simpl; [|exact IH].
  destruct ((day_of_week w =? dow) && Bool.eqb (is_available w) true); now rewrite IH.
Qed.

Lemma schedules_for_after_save (db db' : Store) (di ei : string) (ds : DayStates)
  (dow : Z) :
  saveSchedule db di ei ds = (db', ScheduleLive) -> In dow weekdays ->
  schedules_for db' (resolve_doctor di ei) dow
  = day_rows (resolve_doctor di ei) dow (ds dow).
Proof.
  intros H Hd. rewrite schedules_for_of, (saveSchedule_read_back _ _ _ _ _ H).
  unfold schedule_rows. fold (rows_over (resolve_doctor di ei) ds weekdays).
  rewrite <- (rows_over_filter_in (resolve_doctor di ei) ds weekdays dow weekdays_NoDup Hd).
  apply filter_ext_in. intros w Hw.
  apply rows_over_In in Hw as (_ & _ & -> & _). simpl. apply andb_true_r.
Qed.

(** X11.  From a save to the patient's view: for a date whose weekday was
    saved with a non-empty selection of clock times, the slots derived for
    the doctor are exactly the half-hour steps counted from the earliest
    selected time, up to the last step before 30 minutes past the latest
    selected time, in ascending order.  So a time of the day is offered
    exactly when it is a whole number of half hours after the earliest
    selected time and less than 30 minutes after the latest one, whether or
    not it was selected; a selected time is offered exactly when it lies on
    those steps (08:15 and 09:00 are offered as 08:15, 08:45 and 09:15).
    Each offered slot is available unless a non-cancelled booking holds it.
    For a date whose weekday was saved with no selection there is no
    slot. *)
Theorem saved_window_is_offered (getDay : string -> Z) (db db' : Store)
  (di ei : string) (ds : DayStates) (date : string) :
  saveSchedule db di ei ds = (db', ScheduleLive) ->
  date <> "" -> In (getDay date) weekdays ->
  let doctorId := resolve_doctor di ei in
  let offered := loadAvailability getDay db' doctorId date in
  (forall st,
     ds (getDay date) = Some st -> selected st <> [] ->
     (forall t, In t (selected st) ->
                exists m, 0 <= m < day_minutes /\ t = toHHMM m) ->
     exists lo hi,
       0 <= lo /\ lo <= hi /\ hi < day_minutes
       /\ In (toHHMM lo) (selected st) /\ In (toHHMM hi) (selected st)
       /\ (forall m, 0 <= m < day_minutes -> In (toHHMM m) (selected st) ->
                     lo <= m <= hi)
       /\ map time offered = map toHHMM (steps30 lo (hi + 30))
       /\ (forall sl, In sl offered ->
                      (available sl = true <-> ~ taken_by db' doctorId date (time sl)))
       /\ (forall m, 0 <= m < day_minutes + 30 ->
                     (In (toHHMM m) (map time offered)
                      <-> lo <= m < hi + 30 /\ (m - lo) mod 30 = 0))
       /\ (forall m, 0 <= m < day_minutes -> In (toHHMM m) (selected st) ->
                     (In (toHHMM m) (map time offered) <-> (m - lo) mod 30 = 0)))
  /\ (ds (getDay date) = None
      \/ (exists st, ds (getDay date) = Some st /\ selected st = []) ->
      offered = []).
Proof.
  intros H Hdate Hd doctorId offered.
  assert (Hdoc : doctorId <> "").
  { unfold doctorId. unfold saveSchedule in H.
    destruct (negb (truthy (resolve_doctor di ei))) eqn:E; [discriminate|].
    unfold truthy in E. rewrite negb_involutive in E. now apply String.eqb_neq. }
  pose proof (schedules_for_after_save db db' di ei ds (getDay date) H Hd) as Hs.
  fold doctorId in Hs.
  assert (Hoff : offered = unique_slots (raw_slots getDay db' doctorId date)).
  { unfold offered, loadAvailability.
    apply String.eqb_neq in Hdoc, Hdate. now rewrite Hdoc, Hdate. }
  split.
  - intros st Hst Hne Hcan.
    destruct (day_rows_span doctorId (getDay date) st Hne Hcan)
      as (lo & hi & Hlo & Hle & Hhi & Hinlo & Hinhi & Hall & Hrow).
    exists lo, hi. unfold day_minutes in *.
    assert (Hraw : raw_minutes getDay db' doctorId date = steps30 lo (hi + 30)).
    { unfold raw_minutes. rewrite Hs, Hst, Hrow. simpl. rewrite app_nil_r.
      unfold half_hours. now rewrite !toMinutes_toHHMM by lia. }
    assert (Hr : offered = map (slot_at (takenTimes db' doctorId date))
                               (steps30 lo (hi + 30))).
    { rewrite Hoff, raw_slots_minutes, Hraw.
      rewrite unique_slots_minutes.
      - now rewrite distinct_of_sorted by apply steps30_sorted.
      - apply Forall_forall. intros m Hm.
        apply steps30_spec in Hm as (k & ? & -> & ?). unfold hour_range. lia. }
    assert (Htimes : map time offered = map toHHMM (steps30 lo (hi + 30))).
    { rewrite Hr, map_map. reflexivity. }
    assert (Hgrid : forall m, 0 <= m < 1440 + 30 ->
              (In (toHHMM m) (map time offered)
               <-> lo <= m < hi + 30 /\ (m - lo) mod 30 = 0)).
    { intros m Hm. rewrite Htimes. apply steps30_grid; lia. }
    split; [exact Hlo|]. split; [exact Hle|]. split; [exact Hhi|].
    split; [exact Hinlo|]. split; [exact Hinhi|]. split; [exact Hall|].
    split; [exact Htimes|]. split; [|split; [exact Hgrid|]].
    + intros sl Hsl. rewrite Hr in Hsl. apply in_map_iff in Hsl as (m & <- & _).
      simpl. rewrite <- has_taken_iff.
      destruct (has (takenTimes db' doctorId date) (toHHMM m)); split;
        try discriminate; try congruence; auto.
    + intros m Hm Hin. specialize (Hall m Hm Hin). rewrite Hgrid by lia.
      split; [now intros [_ ?]|]. intros ?. split; [lia|assumption].
  - intros Hempty. rewrite Hoff. unfold raw_slots. rewrite Hs.
    assert (Hnone : day_rows doctorId (getDay date) (ds (getDay date)) = []).
    { destruct Hempty as [-> | (st & -> & Hsel)]; [reflexivity|].
      unfold day_rows, sorted_selection. now rewrite Hsel. }
    rewrite Hnone. reflexivity.
Qed.

Lemma saved_window_is_offered_witness :
  map time (loadAvailability Samples.monday EditorSamples.after_quarter_save
              "d1" "2025-01-06")
  = ["08:15"; "08:45"; "09:15"]
  /\ exists lo hi,
       In (toHHMM lo) ["09:00"; "08:15"] /\ In (toHHMM hi) ["09:00"; "08:15"]
       /\ map time (loadAvailability Samples.monday EditorSamples.after_quarter_save
                      "d1" "2025-01-06")
          = map toHHMM (steps30 lo (hi + 30))
       /\ (In (toHHMM 540)
              (map time (loadAvailability Samples.monday
                           EditorSamples.after_quarter_save "d1" "2025-01-06"))
           <-> (540 - lo) mod 30 = 0).
Proof.
  split; [reflexivity|].
  assert (Hdate : "2025-01-06" <> "") by discriminate.
  assert (Hd : In (Samples.monday "2025-01-06") weekdays) by (right; left; reflexivity).
  pose proof (saved_window_is_offered Samples.monday Samples.before_save
                EditorSamples.after_quarter_save "d1" ""
                EditorSamples.quarter_week "2025-01-06"
                eq_refl Hdate Hd) as H.
  cbv zeta in H. destruct H as [H _].
  destruct (H (mkDay "08:00" "17:00" ["09:00"; "08:15"]) eq_refl)
    as (lo & hi & _ & _ & _ & Hlo & Hhi & _ & E & _ & _ & Hkeep).
  - discriminate.
  - intros t [<- | [<- | []]].
    + exists 540. split; [unfold day_minutes; lia|reflexivity].
    + exists 495. split; [unfold day_minutes; lia|reflexivity].
  - exists lo, hi. repeat split; auto; apply (Hkeep 540);
      try (unfold day_minutes; lia); now left.
Defined.

(** What a successful direct creation tells about the store before and
    after. *)
Lemma create_directly_inserted (db db' : Store) (u : string) (doc : Doctor)
  (f : Form) (newId now : string) (b : Booking) :
  create_directly db u doc f newId now = (db', BookingCreatedPaymentPending b) ->
  bookings db' = (bookings db ++ [b])%list
  /\ doctor_schedules db' = doctor_schedules db
  /\ id b = newId /\ user_id b = u /\ doctor_id b = d_id doc
  /\ appointment_date b = selectedDate f /\ appointment_time b = selectedTime f
  /\ status b = pending
  /\ ~ slot_taken db (d_id doc) (selectedDate f) (selectedTime f).
Proof.
  unfold create_directly.
  destruct (0 <? List.length (conflict_rows db (d_id doc) (selectedDate f) (selectedTime f)))%nat
    eqn:G; [discriminate|].
  destruct (fee_for (membership_of db u)) as [fee dec].
  intros [= <- <-]. simpl. repeat split; auto.
  rewrite <- conflict_guard, G. discriminate.
Qed.

(** X12.  After a booking was created directly, every later derivation for
    that doctor and date shows the booked time as unavailable. *)
Theorem booked_slot_is_unavailable (getDay : string -> Z) (db db' : Store)
  (u : string) (doc : Doctor) (f : Form) (newId now : string) (b : Booking)
  (sl : TimeSlot) :
  create_directly db u doc f newId now = (db', BookingCreatedPaymentPending b) ->
  In sl (loadAvailability getDay db' (d_id doc) (selectedDate f)) ->
  time sl = selectedTime f ->
  available sl = false.
Proof.
  intros H Hin Ht.
  apply create_directly_inserted in H as (Hb & _ & _ & _ & Hd & Hdate & Htime & Hs & _).
  apply loadAvailability_In_raw in Hin as (m & _ & ->). simpl in *.
  apply negb_false_iff, has_taken_iff. exists b. rewrite Hb, in_app_iff.
  repeat split; auto; [right; now left|rewrite Hs; discriminate|congruence].
Qed.

Lemma booked_slot_is_unavailable_witness :
  In (mkSlot "09:00" false)
     (loadAvailability Samples.monday Samples.after_first "d1" "2025-01-06")
  /\ available (mkSlot "09:00" false) = false.
Proof.
  assert (Hin : In (mkSlot "09:00" false)
                   (loadAvailability Samples.monday Samples.after_first
                                     "d1" "2025-01-06")).
  { vm_compute. right. right. left. reflexivity. }
  split; [exact Hin|].
  exact (booked_slot_is_unavailable Samples.monday Samples.one_credit
           Samples.after_first "u1" Samples.dr (Samples.form_0900 "u1") "b1" "t1"
           Samples.first_booking (mkSlot "09:00" false) eq_refl Hin eq_refl).
Defined.

Lemma update_where_In (sel : Booking -> bool) (g : Booking -> Booking)
  (tbl : list Booking) (b' : Booking) :
  In b' (update_where sel g tbl) ->
  exists b, In b tbl /\ b' = (if sel b then g b else b).
Proof.
  unfold update_where. rewrite in_map_iff. intros (b & E & Hb). eauto.
Qed.

(** X13.  After the patient's cancellation of the only non-cancelled
    booking that held a time, every later derivation for that doctor and
    date shows the time as available again. *)
Theorem cancelled_slot_is_available (getDay : string -> Z) (db : Store)
  (bookingId d date t : string) (sl : TimeSlot) :
  (forall b, In b (bookings db) -> doctor_id b = d -> appointment_date b = date ->
             appointment_time b = t -> status b <> cancelled -> id b = bookingId) ->
  In sl (loadAvailability getDay (cancelBooking db bookingId) d date) ->
  time sl = t ->
  available sl = true.
Proof.
  intros Honly Hin Ht.
  apply loadAvailability_In_raw in Hin as (m & _ & ->). simpl in *.
  apply negb_true_iff. apply not_true_is_false. rewrite has_taken_iff.
  intros (b' & Hb' & H1 & H2 & H3 & H4).
  unfold cancelBooking in Hb'. simpl in Hb'.
  apply update_where_In in Hb' as (b & Hb & E).
  destruct (String.eqb_spec (id b) bookingId) as [Eid | Nid]; subst b'.
  - simpl in H3. congruence.
  - apply Nid. apply Honly; auto. congruence.
Qed.

Lemma cancelled_slot_is_available_witness :
  available (mkSlot "09:00" true) = true
  /\ In (mkSlot "09:00" true)
        (loadAvailability Samples.monday
           (cancelBooking Samples.after_remote_create "b7") "d1" "2025-01-06").
Proof.
  assert (Hin : In (mkSlot "09:00" true)
                   (loadAvailability Samples.monday
                      (cancelBooking Samples.after_remote_create "b7")
                      "d1" "2025-01-06")).
  { vm_compute. right. right. left. reflexivity. }
  split; [|exact Hin].
  apply (cancelled_slot_is_available Samples.monday Samples.after_remote_create
           "b7" "d1" "2025-01-06" "09:00" (mkSlot "09:00" true)); [|exact Hin|reflexivity].
  intros b [<- | []] _ _ _ _. reflexivity.
Defined.

End CompositionFacts.

(** ** Invariants the writes keep *)

Module InvariantFacts.
Import Booking Transitions Remote Invariants BookingsReads DirectSteps.
Import BookingFacts FlowFacts CompositionFacts.

Lemma conflict_rows_after_insert (db db' : Store) (b : Booking) (d date t : string) :
  bookings db' = (bookings db ++ [b])%list ->
  conflict_rows db' d date t
  = (conflict_rows db d date t
     ++ filter (fun b => String.eqb (doctor_id b) d
                         && String.eqb (appointment_date b) date
                         && String.eqb (appointment_time b) t
                         && negb (booking_status_eqb (status b) cancelled)) [b])%list.
Proof.
  intros E. unfold conflict_rows. rewrite E. apply filter_app.
Qed.

Lemma handleBooking_store (f : Form) (r : Replies) (db : Store) (newId now : string) :
  fst (fst (handleBooking f r db newId now)) = db
  \/ exists u d, user f = Some u /\ doctor f = Some d
                 /\ fst (fst (handleBooking f r db newId now))
                    = fst (create_directly db u d f newId now)
                 /\ snd (fst (handleBooking f r db newId now))
                    = snd (create_directly db u d f newId now).
Proof.
  unfold handleBooking.
  destruct (user f) as [u|]; [|now left].
  destruct (doctor f) as [d|]; [|now left].
  destruct (negb (truthy (selectedDate f)) || negb (truthy (selectedTime f)));
    [now left|].
  destruct (create_directly db u d f newId now) as [db' o] eqn:E.
  destruct (booking_of_primary (create_primary r));
    [|destruct (booking_of_secondary (create_secondary r))];
    try (destruct (url_of_primary (pay_primary r));
         [|destruct (url_of_secondary (pay_secondary r))]);
    simpl; try (now left); right; exists u, d; rewrite ?E; auto.
Qed.

Lemma one_per_slot_bookings (a b : Store) :
  bookings b = bookings a -> one_per_slot a -> one_per_slot b.
Proof.
  intros E H d date t. specialize (H d date t).
  unfold conflict_rows in *. now rewrite E.
Qed.

Lemma with_inserted_one_per_slot (db : Store) (b : Booking) :
  one_per_slot db ->
  conflict_rows db (doctor_id b) (appointment_date b) (appointment_time b) = [] ->
  one_per_slot (with_inserted db b).
Proof.
  intros Hinv Hnone d date t.
  rewrite (conflict_rows_after_insert db (with_inserted db b) b d date t eq_refl),
    length_app.
  simpl.
  destruct (String.eqb_spec (doctor_id b) d) as [E1|];
    [|simpl; specialize (Hinv d date t); lia].
  destruct (String.eqb_spec (appointment_date b) date) as [E2|];
    [|simpl; specialize (Hinv d date t); lia].
  destruct (String.eqb_spec (appointment_time b) t) as [E3|];
    [|simpl; specialize (Hinv d date t); lia].
  rewrite <- E1, <- E2, <- E3, Hnone. simpl. destruct (negb _); simpl; lia.
Qed.

Lemma create_directly_steps_quiet (db : Store) (u : string) (doc : Doctor)
  (f : Form) (newId now : string) :
  create_directly_steps quiet db u doc f newId now
  = (fst (create_directly db u doc f newId now),
     Toast (snd (create_directly db u doc f newId now))).
Proof.
  unfold create_directly_steps, create_directly, quiet, with_inserted. simpl.
  destruct (0 <? List.length _)%nat; [reflexivity|].
  destruct (fee_for (membership_of db u)) as [fee dec]. simpl.
  rewrite andb_true_r. reflexivity.
Qed.

Lemma handleBooking_steps_quiet (f : Form) (r : Replies) (db : Store)
  (newId now : string) :
  handleBooking_steps quiet f r db newId now
  = (fst (fst (handleBooking f r db newId now)),
     Toast (snd (fst (handleBooking f r db newId now))),
     snd (handleBooking f r db newId now)).
Proof.
  unfold handleBooking_steps, obtained_booking, obtained_url, handleBooking.
  destruct (user f) as [u|]; [|reflexivity].
  destruct (doctor f) as [d|]; [|reflexivity].
  destruct (negb (truthy (selectedDate f)) || negb (truthy (selectedTime f)));
    [reflexivity|].
  rewrite create_directly_steps_quiet.
  destruct (create_directly db u d f newId now) as [db' o].
  destruct (booking_of_primary (create_primary r));
    [|destruct (booking_of_secondary (create_secondary r))];
    try (destruct (url_of_primary (pay_primary r));
         [|destruct (url_of_secondary (pay_secondary r))]);
    reflexivity.
Qed.

(** X14.  The final fallback sends its conflict query and its insert as two
    separate statements.  It keeps the store free of double bookings (no
    doctor, date and time with two bookings that are not cancelled) under
    these conditions: the conflict query is answered, the store is free of
    double bookings at the query and at the insert, no other session has
    put a booking that is not cancelled on the chosen doctor, date and time
    between the two, and what is written after the insert keeps the store
    free of double bookings.  The condition on the time between query and
    insert is needed: when a rival's insert for the same doctor, date and
    time arrives in between, with every other condition met, both bookings
    are stored. *)
Theorem check_then_insert_one_per_slot :
  (forall (w : Meanwhile) (db : Store) (u : string) (doc : Doctor) (f : Form)
          (newId now : string),
      conflict_answered w = true ->
      one_per_slot db ->
      one_per_slot (after_read w (after_check w db)) ->
      (conflict_rows db (d_id doc) (selectedDate f) (selectedTime f) = [] ->
       conflict_rows (after_read w (after_check w db))
                     (d_id doc) (selectedDate f) (selectedTime f) = []) ->
      (forall s, one_per_slot s -> one_per_slot (after_insert w s)) ->
      one_per_slot (fst (create_directly_steps w db u doc f newId now)))
  /\ (conflict_answered rival_between = true
      /\ one_per_slot Samples.one_credit
      /\ one_per_slot (after_read rival_between
                         (after_check rival_between Samples.one_credit))
      /\ (forall s, one_per_slot s -> one_per_slot (after_insert rival_between s))
      /\ ~ one_per_slot (fst (create_directly_steps rival_between Samples.one_credit
                                "u1" Samples.dr (Samples.form_0900 "u1") "b1" "t1"))).
Proof.
  split.
  - intros w db u doc f newId now Hans Hdb Hmid Hslot Hafter.
    unfold create_directly_steps. rewrite Hans.
    destruct (conflict_rows db (d_id doc) (selectedDate f) (selectedTime f))
      as [|x l] eqn:Ec; [|exact Hdb].
    cbn [List.length Nat.ltb Nat.leb].
    destruct (fee_for _) as [fee dec].
    destruct (insert_accepted w); [|exact Hmid].
    cbn [fst].
    apply (one_per_slot_bookings
             (after_insert w
                (with_inserted (after_read w (after_check w db))
                   (mkBooking newId u (d_id doc) (selectedDate f) (selectedTime f)
                      pending payment_pending (d_consultation_fee doc)
                      fee fee (notes_text f) now)))); [reflexivity|].
    apply Hafter, with_inserted_one_per_slot; [exact Hmid|exact (Hslot eq_refl)].
  - split; [reflexivity|]. split; [|split; [|split]].
    + intros d date t. simpl. lia.
    + intros d date t. unfold conflict_rows. simpl.
      destruct (_ && _); simpl; lia.
    + intros s H. exact H.
    + intros H. specialize (H "d1" "2025-01-06" "09:00").
      vm_compute in H. lia.
Qed.

Lemma check_then_insert_one_per_slot_witness :
  one_per_slot (fst (create_directly_steps rival_between Samples.one_credit
                       "u1" Samples.dr (Samples.form_0930 "u1") "b1" "t1")).
Proof.
  apply (proj1 check_then_insert_one_per_slot).
  - reflexivity.
  - intros d date t. simpl. lia.
  - intros d date t. unfold conflict_rows. simpl.
    destruct (_ && _); simpl; lia.
  - intros _. reflexivity.
  - intros s H. exact H.
Defined.

Lemma filter_update_le (p sel : Booking -> bool) (g : Booking -> Booking)
  (tbl : list Booking) :
  (forall b, sel b = true -> p (g b) = true -> p b = true) ->
  (List.length (filter p (update_where sel g tbl)) <= List.length (filter p tbl))%nat.
Proof.
  intros H. induction tbl as [|b r IH]; simpl; [lia|].
  destruct (sel b) eqn:Es.
  - destruct (p (g b)) eqn:Eg.
    + rewrite (H b Es Eg). simpl. lia.
    + destruct (p b); simpl; lia.
  - destruct (p b); simpl; lia.
Qed.

Lemma filter_update_same (p sel : Booking -> bool) (g : Booking -> Booking)
  (tbl : list Booking) :
  (forall b, sel b = true -> p (g b) = p b) ->
  List.length (filter p (update_where sel g tbl)) = List.length (filter p tbl).
Proof.
  intros H. induction tbl as [|b r IH]; simpl; [reflexivity|].
  destruct (sel b) eqn:Es.
  - rewrite (H b Es). destruct (p b); simpl; lia.
  - destruct (p b); simpl; lia.
Qed.

(** X15.  No status transition adds to the bookings that hold a slot: for
    every doctor, date and time, [approveBooking] leaves the number of
    bookings that are not cancelled as it is, and [rejectBooking] and
    [cancelBooking] leave it as it is or lower it.  So a store with at most
    one such booking per doctor, date and time is still one after each of
    the three. *)
Theorem transitions_never_add_to_a_slot (db : Store) (doctorInfo : option string)
  (bookingId now d date t : string) :
  List.length (conflict_rows (approveBooking db doctorInfo bookingId now) d date t)
  = List.length (conflict_rows db d date t)
  /\ (List.length (conflict_rows (rejectBooking db doctorInfo bookingId now) d date t)
      <= List.length (conflict_rows db d date t))%nat
  /\ (List.length (conflict_rows (cancelBooking db bookingId) d date t)
      <= List.length (conflict_rows db d date t))%nat
  /\ (one_per_slot db ->
      one_per_slot (approveBooking db doctorInfo bookingId now)
      /\ one_per_slot (rejectBooking db doctorInfo bookingId now)
      /\ one_per_slot (cancelBooking db bookingId)).
Proof.
  assert (Happ : forall d date t,
            List.length (conflict_rows (approveBooking db doctorInfo bookingId now) d date t)
            = List.length (conflict_rows db d date t)).
  { intros d0 date0 t0. unfold approveBooking.
    destruct doctorInfo as [doc|]; [|reflexivity].
    unfold conflict_rows. simpl. apply filter_update_same.
    intros b Hs. simpl. unfold own_pending in Hs. apply andb_prop in Hs as [_ Hs].
    destruct (status b); try discriminate. reflexivity. }
  assert (Hrej : forall d date t,
            (List.length (conflict_rows (rejectBooking db doctorInfo bookingId now) d date t)
             <= List.length (conflict_rows db d date t))%nat).
  { intros d0 date0 t0. unfold rejectBooking.
    destruct doctorInfo as [doc|]; [|lia].
    unfold conflict_rows. simpl. apply filter_update_le.
    intros b _. simpl. rewrite andb_false_r. discriminate. }
  assert (Hcan : forall d date t,
            (List.length (conflict_rows (cancelBooking db bookingId) d date t)
             <= List.length (conflict_rows db d date t))%nat).
  { intros d0 date0 t0. unfold cancelBooking, conflict_rows. simpl.
    apply filter_update_le. intros b _. simpl. rewrite andb_false_r. discriminate. }
  split; [apply Happ|]. split; [apply Hrej|]. split; [apply Hcan|].
  intros Hinv. repeat split; intros d0 date0 t0; specialize (Hinv d0 date0 t0).
  - rewrite Happ. exact Hinv.
  - specialize (Hrej d0 date0 t0). lia.
  - specialize (Hcan d0 date0 t0). lia.
Qed.

Lemma transitions_never_add_to_a_slot_witness :
  List.length (conflict_rows (rejectBooking Samples.confirmed_meanwhile (Some "d1")
                                "b2" "t9") "d1" "2025-01-06" "09:30") = 0%nat
  /\ List.length (conflict_rows Samples.confirmed_meanwhile
                    "d1" "2025-01-06" "09:30") = 1%nat
  /\ one_per_slot (approveBooking Samples.confirmed_meanwhile (Some "d1") "b2" "t9")
  /\ one_per_slot (rejectBooking Samples.confirmed_meanwhile (Some "d1") "b2" "t9")
  /\ one_per_slot (cancelBooking Samples.confirmed_meanwhile "b2").
Proof.
  split; [reflexivity|]. split; [reflexivity|].
  apply (transitions_never_add_to_a_slot Samples.confirmed_meanwhile (Some "d1")
           "b2" "t9" "d1" "2025-01-06" "09:30").
  intros d date t.
  unfold conflict_rows, Samples.confirmed_meanwhile, Samples.booking_at.
  cbn [bookings filter doctor_id appointment_date appointment_time status
       booking_status_eqb negb].
  destruct (String.eqb_spec "09:00" t) as [<-|_].
  - change (String.eqb "09:30" "09:00") with false.
    destruct (String.eqb "d1" d), (String.eqb "2025-01-06" date); cbn; lia.
  - destruct (String.eqb "d1" d), (String.eqb "2025-01-06" date),
      (String.eqb "09:30" t); cbn; lia.
Defined.

(** X16.  [hasConflict] never reports a conflict that is not there: when
    it answers true, a booking that is not cancelled holds the doctor, date
    and time.  It answers true for every held slot as long as the store has
    no cancelled booking for that same doctor, date and time. *)
Theorem hasConflict_sound (db : Store) (d date t : string) :
  (BookingsRepo.hasConflict db d date t = true -> slot_taken db d date t)
  /\ ((forall b, In b (bookings db) -> doctor_id b = d -> appointment_date b = date ->
                 appointment_time b = t -> status b <> cancelled) ->
      slot_taken db d date t -> BookingsRepo.hasConflict db d date t = true).
Proof.
  unfold BookingsRepo.hasConflict, slot_taken.
  set (p := fun b => String.eqb (doctor_id b) d && String.eqb (appointment_date b) date
                     && String.eqb (appointment_time b) t).
  assert (Hp : forall b, p b = true <->
                         doctor_id b = d /\ appointment_date b = date /\ appointment_time b = t).
  { intros b. unfold p. rewrite !andb_true_iff, !String.eqb_eq. tauto. }
  split.
  - destruct (filter p (bookings db)) as [|x l] eqn:E; simpl; [discriminate|].
    destruct (negb (booking_status_eqb (status x) cancelled)) eqn:Ex; [|discriminate].
    intros _. assert (Hx : In x (filter p (bookings db))) by (rewrite E; now left).
    apply filter_In in Hx as [Hin Hpx]. apply Hp in Hpx as (? & ? & ?).
    exists x. repeat split; auto. now apply SlotFacts.status_neq_cancelled.
  - intros Hnc (b & Hin & H1 & H2 & H3 & _).
    destruct (filter p (bookings db)) as [|x l] eqn:E.
    + exfalso. assert (Hb : In b (filter p (bookings db)))
        by (apply filter_In; split; [assumption|apply Hp; auto]).
      rewrite E in Hb. destruct Hb.
    + simpl. assert (Hx : In x (filter p (bookings db))) by (rewrite E; now left).
      apply filter_In in Hx as [Hxin Hpx]. apply Hp in Hpx as (? & ? & ?).
      assert (Hs : status x <> cancelled) by (apply Hnc; auto).
      apply SlotFacts.status_neq_cancelled in Hs. now rewrite Hs.
Qed.

Lemma url_of_primary_truthy (x : Reply string) (u : string) :
  url_of_primary x = Some u -> u <> "".
Proof.
  unfold url_of_primary. destruct x as [| |s [v|]]; try discriminate.
  destruct (truthy v) eqn:Tv; [|discriminate]. intros [= <-].
  now apply truthy_true.
Qed.

Lemma url_of_secondary_truthy (x : Reply string) (u : string) :
  url_of_secondary x = Some u -> u <> "".
Proof.
  unfold url_of_secondary. destruct x as [| |[|] [v|]]; try discriminate.
  destruct (truthy v) eqn:Tv; [|discriminate]. intros [= <-].
  now apply truthy_true.
Qed.

Lemma obtained_url_truthy (r : Replies) (u : string) :
  obtained_url r = Some u -> u <> "".
Proof.
  unfold obtained_url.
  destruct (url_of_primary (pay_primary r)) as [v|] eqn:E.
  - intros [= <-]. now apply url_of_primary_truthy in E.
  - apply url_of_secondary_truthy.
Qed.

(** X17.  What [handleBooking] shows and what it did, with the final
    fallback taken statement by statement and the 'Booking Failed' toast
    among the outcomes.  The flow itself writes to the store only when it
    shows 'Booking Created'; a redirect goes to a non-empty URL that a
    channel returned, after a channel returned a booking; with a required
    field missing no function is called; 'Slot Unavailable' is shown only
    when the conflict query found a booking that is not cancelled on the
    chosen doctor, date and time; 'Booking Failed' is shown only when the
    store refused the insert, and then neither a booking nor a decrement is
    written; and a directly created booking is pending, the user's own, for
    the chosen doctor, date and time, on a slot that no booking that is not
    cancelled held when the conflict query was answered. *)
Theorem handleBooking_steps_outcomes (w : Meanwhile) (f : Form) (r : Replies)
  (db db' : Store) (newId now : string) (shown : Shown) (trace : list Call) :
  handleBooking_steps w f r db newId now = (db', shown, trace) ->
  match shown with
  | Toast FieldsMissing =>
      db' = db /\ trace = []
      /\ (user f = None \/ doctor f = None \/ selectedDate f = "" \/ selectedTime f = "")
  | Toast (Redirected url) =>
      db' = db /\ url <> "" /\ obtained_url r = Some url
      /\ exists b, obtained_booking r = Some b
  | Toast SlotUnavailable =>
      db' = db /\ conflict_answered w = true
      /\ (obtained_booking r = None \/ obtained_url r = None)
      /\ exists d, doctor f = Some d
                   /\ slot_taken db (d_id d) (selectedDate f) (selectedTime f)
  | BookingFailed =>
      insert_accepted w = false
      /\ db' = after_read w (after_check w db)
      /\ (obtained_booking r = None \/ obtained_url r = None)
      /\ exists d, doctor f = Some d
                   /\ (conflict_answered w = true ->
                       ~ slot_taken db (d_id d) (selectedDate f) (selectedTime f))
  | Toast (BookingCreatedPaymentPending b) =>
      insert_accepted w = true
      /\ bookings db'
         = bookings (after_insert w
                       (with_inserted (after_read w (after_check w db)) b))
      /\ doctor_schedules db'
         = doctor_schedules (after_insert w
                               (with_inserted (after_read w (after_check w db)) b))
      /\ user f = Some (user_id b)
      /\ (exists d, doctor f = Some d /\ doctor_id b = d_id d
                    /\ (conflict_answered w = true ->
                        ~ slot_taken db (d_id d) (selectedDate f) (selectedTime f)))
      /\ appointment_date b = selectedDate f /\ appointment_time b = selectedTime f
      /\ status b = pending /\ payment_status b = payment_pending
      /\ (obtained_booking r = None \/ obtained_url r = None)
  end.
Proof.
  unfold handleBooking_steps.
  destruct (user f) as [u|] eqn:Eu; [|intros [= <- <- <-]; auto].
  destruct (doctor f) as [d|] eqn:Ed; [|intros [= <- <- <-]; auto].
  destruct (negb (truthy (selectedDate f)) || negb (truthy (selectedTime f))) eqn:Et.
  { intros [= <- <- <-]. repeat split; auto. right. right.
    unfold truthy in Et. rewrite !negb_involutive in Et.
    apply orb_prop in Et as [Et | Et]; apply String.eqb_eq in Et; auto. }
  assert (Hdirect : (obtained_booking r = None \/ obtained_url r = None) ->
            forall db1 o1, create_directly_steps w db u d f newId now = (db1, o1) ->
            handleBooking_steps w f r db newId now
            = (db1, o1, snd (handleBooking f r db newId now)) ->
            match o1 return Prop with
            | Toast FieldsMissing | Toast (Redirected _) => False
            | Toast SlotUnavailable =>
                db1 = db /\ conflict_answered w = true
                /\ (obtained_booking r = None \/ obtained_url r = None)
                /\ exists d0, Some d = Some d0
                   /\ slot_taken db (d_id d0) (selectedDate f) (selectedTime f)
            | BookingFailed =>
                insert_accepted w = false
                /\ db1 = after_read w (after_check w db)
                /\ (obtained_booking r = None \/ obtained_url r = None)
                /\ exists d0, Some d = Some d0
                     /\ (conflict_answered w = true ->
                         ~ slot_taken db (d_id d0) (selectedDate f) (selectedTime f))
            | Toast (BookingCreatedPaymentPending b) =>
                insert_accepted w = true
                /\ bookings db1
                   = bookings (after_insert w
                                 (with_inserted (after_read w (after_check w db)) b))
                /\ doctor_schedules db1
                   = doctor_schedules
                       (after_insert w
                          (with_inserted (after_read w (after_check w db)) b))
                /\ Some u = Some (user_id b)
                /\ (exists d0, Some d = Some d0 /\ doctor_id b = d_id d0
                      /\ (conflict_answered w = true ->
                          ~ slot_taken db (d_id d0) (selectedDate f) (selectedTime f)))
                /\ appointment_date b = selectedDate f
                /\ appointment_time b = selectedTime f
                /\ status b = pending /\ payment_status b = payment_pending
                /\ (obtained_booking r = None \/ obtained_url r = None)
            end).
  { intros Hno db1 o1 E _. unfold create_directly_steps in E.
    destruct (conflict_answered w) eqn:Ea.
    - destruct (0 <? List.length
                       (conflict_rows db (d_id d) (selectedDate f) (selectedTime f)))%nat
        eqn:G.
      + injection E as <- <-. repeat split; auto. exists d. split; [reflexivity|].
        now apply conflict_guard.
      + assert (Hfree : ~ slot_taken db (d_id d) (selectedDate f) (selectedTime f)).
        { intros (b & Hin & H1 & H2 & H3 & H4).
          assert (Hb : In b (conflict_rows db (d_id d) (selectedDate f) (selectedTime f))).
          { apply conflict_rows_In. auto. }
          destruct (conflict_rows db (d_id d) (selectedDate f) (selectedTime f));
            [destruct Hb|discriminate G]. }
        destruct (fee_for _) as [fee dec].
        destruct (insert_accepted w) eqn:Ei; injection E as <- <-.
        * repeat split; auto. exists d. auto.
        * repeat split; auto. exists d. auto.
    - cbn [List.length Nat.ltb Nat.leb] in E.
      destruct (fee_for _) as [fee dec].
      destruct (insert_accepted w) eqn:Ei; injection E as <- <-.
      + repeat split; auto. exists d. repeat split; auto. discriminate.
      + repeat split; auto. exists d. split; [reflexivity|discriminate]. }
  destruct (create_directly_steps w db u d f newId now) as [db1 o1] eqn:E.
  destruct (obtained_booking r) as [b1|] eqn:Eb.
  - destruct (obtained_url r) as [u1|] eqn:Eu1.
    + intros [= <- <- <-]. repeat split; eauto.
      now apply obtained_url_truthy in Eu1.
    + intros [= <- <- <-].
      specialize (Hdirect (or_intror eq_refl) db1 o1 eq_refl).
      unfold handleBooking_steps in Hdirect.
      rewrite Eu, Ed, Et, Eb, Eu1, E in Hdirect. specialize (Hdirect eq_refl).
      destruct o1 as [[| | |]|]; intuition eauto.
  - intros [= <- <- <-].
    specialize (Hdirect (or_introl eq_refl) db1 o1 eq_refl).
    unfold handleBooking_steps in Hdirect.
    rewrite Eu, Ed, Et, Eb, E in Hdirect. specialize (Hdirect eq_refl).
    destruct o1 as [[| | |]|]; intuition eauto.
Qed.

Lemma handleBooking_steps_outcomes_witness :
  insert_accepted insert_refused = false
  /\ Samples.after_remote_create
     = after_read insert_refused (after_check insert_refused Samples.after_remote_create).
Proof.
  pose proof (handleBooking_steps_outcomes insert_refused (Samples.form_0930 "u1")
                Samples.payment_down Samples.after_remote_create
                Samples.after_remote_create "b8" "t1" BookingFailed _ eq_refl) as H.
  cbv beta iota in H. destruct H as (H1 & H2 & _). split; [exact H1|exact H2].
Defined.

Lemma hasConflict_sound_witness :
  slot_taken Samples.after_remote_create "d1" "2025-01-06" "09:00".
Proof.
  apply (proj1 (hasConflict_sound Samples.after_remote_create
                  "d1" "2025-01-06" "09:00")).
  reflexivity.
Defined.

Lemma create_directly_credits (db : Store) (u : string) (doc : Doctor) (f : Form)
  (newId now : string) :
  credits_nonneg db -> credits_nonneg (fst (create_directly db u doc f newId now)).
Proof.
  unfold credits_nonneg, create_directly. intros Hinv.
  destruct (0 <? List.length _)%nat; [assumption|].
  destruct (fee_for (membership_of db u)) as [fee dec] eqn:Ef. simpl.
  destruct (membership_of db u) as [m|]; [|assumption].
  destruct dec; [|assumption].
  assert (Hpos : 0 < or_zero (free_bookings_remaining m)).
  { unfold fee_for in Ef.
    destruct (membership_kind_eqb (membership_type m) premium
              && (0 <? or_zero (free_bookings_remaining m))) eqn:E; [|discriminate].
    apply andb_prop in E as [_ E]. now apply Z.ltb_lt. }
  unfold decrement_credit. rewrite Forall_forall in *. intros x Hx.
  apply in_map_iff in Hx as (y & <- & Hy).
  destruct (String.eqb (m_user_id y) u); simpl; [lia|now apply Hinv].
Qed.

(** X18.  The free-booking counters never go negative: if no membership
    has a negative counter before [handleBooking] runs, none has
    afterwards. *)
Theorem handleBooking_keeps_credits_nonneg (f : Form) (r : Replies) (db : Store)
  (newId now : string) :
  credits_nonneg db ->
  credits_nonneg (fst (fst (handleBooking f r db newId now))).
Proof.
  intros Hinv.
  destruct (handleBooking_store f r db newId now) as [-> | (u & d & _ & _ & -> & _)];
    [assumption|]. now apply create_directly_credits.
Qed.

Lemma handleBooking_keeps_credits_nonneg_witness :
  credits_nonneg (fst (fst (handleBooking (Samples.form_0900 "u1") Samples.refused
                              Samples.one_credit "b1" "t1"))).
Proof.
  apply handleBooking_keeps_credits_nonneg.
  unfold credits_nonneg. simpl. repeat constructor. simpl. lia.
Defined.

Lemma filter_other_id (db db' : Store) (b : Booking) (i : string) :
  bookings db' = (bookings db ++ [b])%list -> id b <> i ->
  filter (fun x => String.eqb (id x) i) (bookings db')
  = filter (fun x => String.eqb (id x) i) (bookings db).
Proof.
  intros E Hne. rewrite E, filter_app. simpl.
  apply String.eqb_neq in Hne. rewrite Hne. apply app_nil_r.
Qed.

(** X19.  Insert and look up: after a direct creation under an id no row
    had, [getById] of that id returns the inserted booking, every other id
    reads as before, and [countForDoctor] goes up by one for the booked
    doctor and stays for every other doctor. *)
Theorem inserted_booking_is_found (db db' : Store) (u : string) (doc : Doctor)
  (f : Form) (newId now : string) (b : Booking) :
  create_directly db u doc f newId now = (db', BookingCreatedPaymentPending b) ->
  (forall x, In x (bookings db) -> id x <> newId) ->
  getById db' newId = Row b
  /\ (forall i, i <> newId -> getById db' i = getById db i)
  /\ countForDoctor db' (d_id doc) = S (countForDoctor db (d_id doc))
  /\ (forall other, other <> d_id doc ->
                    countForDoctor db' other = countForDoctor db other).
Proof.
  intros H Hfresh.
  apply create_directly_inserted in H as (Hb & _ & Hid & _ & Hd & _).
  split; [|split; [|split]].
  - unfold getById. rewrite Hb, filter_app. simpl.
    rewrite Hid, String.eqb_refl.
    rewrite (ScheduleFacts.filter_none _ (bookings db)); [reflexivity|].
    intros x Hx. apply String.eqb_neq. now apply Hfresh.
  - intros i Hi. unfold getById.
    rewrite (filter_other_id db db' b i Hb); [reflexivity|congruence].
  - unfold countForDoctor. rewrite Hb, filter_app, length_app. simpl.
    rewrite Hd, String.eqb_refl. simpl. lia.
  - intros other Hne. unfold countForDoctor. rewrite Hb, filter_app, length_app. simpl.
    rewrite Hd. apply not_eq_sym in Hne. apply String.eqb_neq in Hne. rewrite Hne.
    simpl. lia.
Qed.

Lemma inserted_booking_is_found_witness :
  getById Samples.after_first "b1" = Row Samples.first_booking
  /\ countForDoctor Samples.after_first "d1" = 1%nat.
Proof.
  pose proof (inserted_booking_is_found Samples.one_credit Samples.after_first
                "u1" Samples.dr (Samples.form_0900 "u1") "b1" "t1"
                Samples.first_booking eq_refl) as H.
  destruct H as (H1 & _ & H3 & _).
  - intros x [].
  - split; [exact H1|exact H3].
Defined.

Lemma update_where_settled (sel : Booking -> bool) (g h : Booking -> Booking)
  (tbl : list Booking) :
  (forall b, sel b = true -> sel (g b) = false) ->
  update_where sel h (update_where sel g tbl) = update_where sel g tbl.
Proof.
  intros H. unfold update_where. rewrite map_map. apply map_ext. intros b.
  destruct (sel b) eqn:E; [now rewrite (H b E)|now rewrite E].
Qed.

Lemma own_pending_after (d bookingId now : string) (st : booking_status) (b : Booking) :
  st <> pending -> own_pending d bookingId (set_status_at st now b) = false.
Proof.
  intros H. unfold own_pending. simpl. destruct st; try congruence; apply andb_false_r.
Qed.

(** X20.  A doctor's decision is final for the doctor's two operations:
    once [approveBooking] or [rejectBooking] has run for a booking id, a
    further approve or reject of that id by the same doctor changes
    nothing, so an approved booking cannot be rejected and a rejected one
    cannot be approved. *)
Theorem decision_is_final (db : Store) (doctorInfo : option string)
  (bookingId now later : string) :
  let approved := approveBooking db doctorInfo bookingId now in
  let rejected := rejectBooking db doctorInfo bookingId now in
  rejectBooking approved doctorInfo bookingId later = approved
  /\ approveBooking approved doctorInfo bookingId later = approved
  /\ approveBooking rejected doctorInfo bookingId later = rejected
  /\ rejectBooking rejected doctorInfo bookingId later = rejected.
Proof.
  unfold approveBooking, rejectBooking.
  destruct doctorInfo as [d|]; [|auto].
  unfold with_bookings. simpl.
  repeat split; f_equal; apply update_where_settled; intros b _;
    apply own_pending_after; discriminate.
Qed.

End InvariantFacts.

(** ** The tabs of the booking history *)

Module HistoryFacts.
Import History Transitions.

(** X21.  The tabs of the booking history, for a booking of the list: it
    is under 'cancelled' exactly when its status is cancelled, and then not
    under 'upcoming'; when its date reads as a date it is under at least one
    of 'upcoming', 'past' and 'cancelled'; when the Cancel button is offered
    for it, it is under 'upcoming'; a completed booking dated now or later
    is under both 'upcoming' and 'past'; and any other tab name shows the
    whole list. *)
Theorem history_tabs (dateMs : string -> Clock.number) (nowMs : Z)
  (bs : list Booking) (b : Booking) :
  In b bs ->
  (In b (filterBookings dateMs nowMs bs "cancelled") <-> status b = cancelled)
  /\ (In b (filterBookings dateMs nowMs bs "upcoming") -> status b <> cancelled)
  /\ (dateMs (appointment_date b) <> None ->
      In b (filterBookings dateMs nowMs bs "upcoming")
      \/ In b (filterBookings dateMs nowMs bs "past")
      \/ In b (filterBookings dateMs nowMs bs "cancelled"))
  /\ (cancel_offered dateMs nowMs b = true ->
      In b (filterBookings dateMs nowMs bs "upcoming"))
  /\ (status b = completed ->
      num_ge (dateMs (appointment_date b)) (Some nowMs) = true ->
      In b (filterBookings dateMs nowMs bs "upcoming")
      /\ In b (filterBookings dateMs nowMs bs "past"))
  /\ (forall tab, tab <> "upcoming" -> tab <> "past" -> tab <> "cancelled" ->
                  filterBookings dateMs nowMs bs tab = bs).
Proof.
  intros Hin.
  assert (Hc : In b (filterBookings dateMs nowMs bs "cancelled") <-> status b = cancelled).
  { unfold filterBookings. simpl. rewrite filter_In. split.
    - intros [_ H]. destruct (status b); try discriminate; reflexivity.
    - intros ->. auto. }
  assert (Hu : In b (filterBookings dateMs nowMs bs "upcoming") <->
               num_ge (dateMs (appointment_date b)) (Some nowMs) = true
               /\ status b <> cancelled).
  { unfold filterBookings. simpl. rewrite filter_In, andb_true_iff.
    rewrite SlotFacts.status_neq_cancelled. tauto. }
  assert (Hp : In b (filterBookings dateMs nowMs bs "past") <->
               num_lt (dateMs (appointment_date b)) (Some nowMs) = true
               \/ status b = completed).
  { unfold filterBookings. simpl. rewrite filter_In, orb_true_iff. split.
    - intros [_ [H | H]]; [now left|right].
      destruct (status b); try discriminate; reflexivity.
    - intros [H | H]; (split; [assumption|]); [now left|right; now rewrite H]. }
  split; [exact Hc|]. split; [intros H; now apply Hu in H|].
  split; [|split; [|split]].
  - intros Hd. destruct (dateMs (appointment_date b)) as [ms|] eqn:E; [|congruence].
    destruct (booking_status_eqb (status b) cancelled) eqn:Es.
    + right. right. apply Hc. destruct (status b); try discriminate; reflexivity.
    + assert (status b <> cancelled) by (intros Ec; rewrite Ec in Es; discriminate).
      destruct (Z.leb_spec nowMs ms).
      * left. apply Hu. split; [|assumption]. rewrite ?E. simpl. now apply Z.leb_le.
      * right. left. apply Hp. left. rewrite ?E. simpl. now apply Z.ltb_lt.
  - unfold cancel_offered. intros H. apply andb_prop in H as [H1 H2].
    apply Hu. split.
    + unfold Clock.num_gt in H2. unfold num_ge.
      destruct (dateMs (appointment_date b)); [|discriminate].
      apply Z.ltb_lt in H2. apply Z.leb_le. lia.
    + destruct (status b); discriminate.
  - intros Hs Hge. split; [apply Hu|apply Hp; now right].
    split; [assumption|]. rewrite Hs. discriminate.
  - intros tab H1 H2 H3. unfold filterBookings.
    apply String.eqb_neq in H1, H2, H3. now rewrite H1, H2, H3.
Qed.

Lemma history_tabs_witness :
  In Samples.shown_copy
     (filterBookings Samples.jan6 Samples.jan5_noon
                     (bookings Samples.after_remote_create ++ [Samples.shown_copy])
                     "upcoming").
Proof.
  assert (Hin : In Samples.shown_copy
                   (bookings Samples.after_remote_create ++ [Samples.shown_copy])).
  { simpl. auto. }
  destruct (history_tabs Samples.jan6 Samples.jan5_noon _ _ Hin)
    as (_ & _ & _ & H & _).
  apply H. reflexivity.
Defined.

End HistoryFacts.
